(** * mcp-assist: action registry, conversation history and telemetry

    A shallow embedding of three modules of the integration,

    - [custom_components/mcp_assist_dev/domain_registry.py]
    - [custom_components/mcp_assist_dev/conversation_history.py]
    - [custom_components/mcp_assist/statistics.py]

    together with the properties their specification states about them,
    and of the settings and log helpers of [custom_components/mcp_assist/utils.py]
    and the language lookups of
    [custom_components/mcp_assist_dev/localization.py].
    Python [int] is [Z], [str] is [string], [float] is the kernel's binary64
    [float]; a [dict] whose iteration order is observed is an association
    list, the mutable conversation store is a [gmap]; a function that can
    raise returns a [Py.result]. *)

From Stdlib Require Import ZArith List String Ascii Bool Lia Floats DecimalString.
From stdpp Require Import gmap strings list.
Import ListNotations.

Open Scope string_scope.
Open Scope Z_scope.

(* ================================================================== *)
(** * Python built-ins used by the three modules *)
(* ================================================================== *)

Module Py.

(** The outcome of a call that may raise. *)
Inductive result (A : Type) : Type :=
| Returns (a : A)
| Raises (exc : string).
Arguments Returns {A} a.
Arguments Raises {A} exc.

(** [sep.join(parts)] *)
Fixpoint join (sep : string) (parts : list string) : string :=
  match parts with
  | [] => ""
  | [p] => p
  | p :: rest => p ++ sep ++ join sep rest
  end.

(** [needle in hay] on two [str]: [needle] occurs as a contiguous
    substring of [hay]. *)
Fixpoint str_in (needle hay : string) : bool :=
  String.prefix needle hay
  || match hay with
     | EmptyString => false
     | String _ hay' => str_in needle hay'
     end.

(** [x in l] on a list of [str]. *)
Definition list_in (x : string) (l : list string) : bool :=
  existsb (String.eqb x) l.

(** [d.get(k)] on a dict literal, kept as the list of its items. *)
Fixpoint dict_get {V : Type} (d : list (string * V)) (k : string) : option V :=
  match d with
  | [] => None
  | (k', v) :: d' => if String.eqb k k' then Some v else dict_get d' k
  end.

(** [d.keys()], in insertion order. *)
Definition dict_keys {V : Type} (d : list (string * V)) : list string :=
  List.map fst d.

(** [l[start:]] for an arbitrary integer [start]: a negative [start]
    counts from the end and is clamped at the front, a [start] past the
    end gives the empty list.  Note that [l[-0:]] is [l[0:]]. *)
Definition slice_from {A : Type} (start : Z) (l : list A) : list A :=
  let len := Z.of_nat (length l) in
  let i := if start <? 0 then Z.max 0 (len + start) else Z.min start len in
  skipn (Z.to_nat i) l.

(** [l[:n]] for a non-negative literal [n]. *)
Definition slice_to {A : Type} (n : nat) (l : list A) : list A := firstn n l.

(** The line feed of ["\n"]. *)
Definition LF : string := String (ascii_of_nat 10) EmptyString.

(** ** Floats

    A Python [float] is an IEEE 754 binary64 number, as is the kernel's
    [float].  Operations on two floats are the primitive ones; the two
    operations that start from exact numbers are written with the
    library's specification of binary64 rounding. *)

(** An integer as an (unrounded) signed mantissa with exponent 0. *)
Definition SF_of_int (z : Z) : spec_float :=
  match z with
  | Z0 => S754_zero false
  | Zpos p => S754_finite false p 0
  | Zneg p => S754_finite true p 0
  end.

(** [a / b] on two [int]: the quotient of the exact integers, rounded
    once, to nearest-even; a zero divisor and a quotient too large for a
    float raise. *)
Definition int_true_div (a b : Z) : result float :=
  if b =? 0 then Raises "ZeroDivisionError"
  else
    match SFdiv prec emax (SF_of_int a) (SF_of_int b) with
    | S754_infinity _ => Raises "OverflowError"
    | q => Returns (SF2Prim q)
    end.

(** The integer nearest to [m / d] for [d > 0], ties to the even one. *)
Definition round_half_even (m d : Z) : Z :=
  let q := m / d in
  let r := m mod d in
  match 2 * r ?= d with
  | Lt => q
  | Gt => q + 1
  | Eq => if Z.even q then q else q + 1
  end.

(** [round(x, 1)] on a [float]: the exact value of [x] is rounded to one
    decimal place, ties to even, and the float nearest to that decimal
    is returned; zeros, infinities and NaN are returned as they are. *)
Definition round_1 (x : float) : float :=
  match Prim2SF x with
  | S754_finite s m e =>
      let tenths :=
        if 0 <=? e then 10 * Z.pos m * 2 ^ e
        else round_half_even (10 * Z.pos m) (2 ^ (- e)) in
      let n := if s then - tenths else tenths in
      match tenths with
      | Z0 => SF2Prim (S754_zero s)
      | _ => SF2Prim (SFdiv prec emax (SF_of_int n) (SF_of_int 10))
      end
  | _ => x
  end.

End Py.

(* ================================================================== *)
(** * domain_registry.py *)
(* ================================================================== *)

Module Registry.
Import Py.

Definition PRIORITY_ESSENTIAL : Z := 1.
Definition PRIORITY_COMMON : Z := 2.
Definition PRIORITY_STANDARD : Z := 3.
Definition PRIORITY_EXTENDED : Z := 4.
Definition PRIORITY_SPECIALIZED : Z := 5.

(** The three values a domain's ["type"] takes. *)
Inductive domain_type : Type :=
| TYPE_CONTROLLABLE
| TYPE_READ_ONLY
| TYPE_SERVICE_ONLY.

Definition domain_type_eqb (a b : domain_type) : bool :=
  match a, b with
  | TYPE_CONTROLLABLE, TYPE_CONTROLLABLE
  | TYPE_READ_ONLY, TYPE_READ_ONLY
  | TYPE_SERVICE_ONLY, TYPE_SERVICE_ONLY => true
  | _, _ => false
  end.

(** One entry of a domain's ["parameters"]: both keys may be absent. *)
Record service_params : Type := {
  sp_required : option (list string);
  sp_optional : option (list string)
}.

(** One value of [DOMAIN_REGISTRY]; ["error_message"] may be absent. *)
Record domain_info : Type := {
  di_type : domain_type;
  di_priority : Z;
  di_services : list string;
  di_parameters : list (string * service_params);
  di_error_message : option string;
  di_description : string
}.

Definition required (l : list string) : service_params :=
  {| sp_required := Some l; sp_optional := None |}.
Definition optional (l : list string) : service_params :=
  {| sp_required := None; sp_optional := Some l |}.
Definition required_optional (r o : list string) : service_params :=
  {| sp_required := Some r; sp_optional := Some o |}.

Definition entry (t : domain_type) (p : Z) (s : list string)
    (ps : list (string * service_params)) (d : string) : domain_info :=
  {| di_type := t; di_priority := p; di_services := s; di_parameters := ps;
     di_error_message := None; di_description := d |}.

Definition entry_msg (t : domain_type) (p : Z) (s : list string)
    (ps : list (string * service_params)) (msg d : string) : domain_info :=
  {| di_type := t; di_priority := p; di_services := s; di_parameters := ps;
     di_error_message := Some msg; di_description := d |}.

(** [DOMAIN_REGISTRY], in the order of the dict literal, written group by
    group as the source's section comments divide it. *)

(* ========== P1: Essential Core Domains ========== *)
Definition registry_essential : list (string * domain_info) := [
  ("light", entry TYPE_CONTROLLABLE PRIORITY_ESSENTIAL
     ["turn_on"; "turn_off"; "toggle"]
     [("turn_on", optional
         ["transition"; "brightness"; "brightness_pct"; "brightness_step"; "brightness_step_pct";
          "rgb_color"; "rgbw_color"; "rgbww_color"; "color_name"; "hs_color"; "xy_color";
          "color_temp"; "color_temp_kelvin"; "white"; "profile"; "flash"; "effect"]);
      ("turn_off", optional ["transition"; "flash"]);
      ("toggle", optional
         ["transition"; "brightness"; "brightness_pct"; "rgb_color"; "color_temp"; "effect"])]
     "Control lights with brightness, color, and effects");
  ("switch", entry TYPE_CONTROLLABLE PRIORITY_ESSENTIAL
     ["turn_on"; "turn_off"; "toggle"]
     []
     "Control binary switches");
  ("cover", entry TYPE_CONTROLLABLE PRIORITY_ESSENTIAL
     ["open_cover"; "close_cover"; "stop_cover"; "toggle"; "set_cover_position";
      "open_cover_tilt"; "close_cover_tilt"; "stop_cover_tilt"; "set_cover_tilt_position"]
     [("set_cover_position", required ["position"]);
      ("set_cover_tilt_position", required ["tilt_position"])]
     "Control covers, blinds, and garage doors");
  ("climate", entry TYPE_CONTROLLABLE PRIORITY_ESSENTIAL
     ["set_temperature"; "set_hvac_mode"; "set_preset_mode"; "set_fan_mode";
      "set_humidity"; "set_swing_mode"; "set_swing_horizontal_mode"; "turn_on"; "turn_off"; "toggle"]
     [("set_temperature", optional ["temperature"; "target_temp_high"; "target_temp_low"; "hvac_mode"]);
      ("set_hvac_mode", required ["hvac_mode"]);
      ("set_preset_mode", required ["preset_mode"]);
      ("set_fan_mode", required ["fan_mode"]);
      ("set_humidity", required ["humidity"]);
      ("set_swing_mode", required ["swing_mode"]);
      ("set_swing_horizontal_mode", required ["swing_horizontal_mode"])]
     "Control thermostats and HVAC systems");
  ("lock", entry TYPE_CONTROLLABLE PRIORITY_ESSENTIAL
     ["lock"; "unlock"; "open"]
     [("lock", optional ["code"]);
      ("unlock", optional ["code"]);
      ("open", optional ["code"])]
     "Control door locks");
  ("scene", entry TYPE_CONTROLLABLE PRIORITY_ESSENTIAL
     ["turn_on"; "reload"; "apply"; "create"; "delete"]
     [("turn_on", optional ["transition"]);
      ("apply", required_optional ["entities"] ["transition"]);
      ("create", required_optional ["scene_id"] ["entities"; "snapshot_entities"])]
     "Activate and manage scenes");
  ("script", entry TYPE_CONTROLLABLE PRIORITY_ESSENTIAL
     ["turn_on"; "turn_off"; "toggle"; "reload"]
     []
     "Execute and manage scripts");
  ("automation", entry TYPE_CONTROLLABLE PRIORITY_ESSENTIAL
     ["trigger"; "turn_on"; "turn_off"; "toggle"; "reload"]
     [("trigger", optional ["skip_condition"]);
      ("turn_off", optional ["stop_actions"])]
     "Control and trigger automations")
].

(* ========== P2: Common Control Domains ========== *)
Definition registry_common : list (string * domain_info) := [
  ("fan", entry TYPE_CONTROLLABLE PRIORITY_COMMON
     ["turn_on"; "turn_off"; "toggle"; "set_percentage"; "set_preset_mode";
      "oscillate"; "set_direction"; "increase_speed"; "decrease_speed"]
     [("turn_on", optional ["percentage"; "preset_mode"]);
      ("set_percentage", required ["percentage"]);
      ("set_preset_mode", required ["preset_mode"]);
      ("oscillate", required ["oscillating"]);
      ("set_direction", required ["direction"]);
      ("increase_speed", optional ["percentage_step"]);
      ("decrease_speed", optional ["percentage_step"])]
     "Control fans with speed and oscillation");
  ("media_player", entry TYPE_CONTROLLABLE PRIORITY_COMMON
     ["turn_on"; "turn_off"; "toggle"; "volume_up"; "volume_down"; "volume_set"; "volume_mute";
      "media_play"; "media_pause"; "media_stop"; "media_play_pause";
      "media_next_track"; "media_previous_track"; "media_seek";
      "play_media"; "select_source"; "select_sound_mode";
      "clear_playlist"; "shuffle_set"; "repeat_set"; "join"; "unjoin";
      "browse_media"; "search_media"]
     [("volume_set", required ["volume_level"]);
      ("volume_mute", required ["is_volume_muted"]);
      ("media_seek", required ["seek_position"]);
      ("play_media", required_optional ["media"] ["enqueue"; "announce"]);
      ("select_source", required ["source"]);
      ("select_sound_mode", optional ["sound_mode"]);
      ("shuffle_set", required ["shuffle"]);
      ("repeat_set", required ["repeat"]);
      ("join", required ["group_members"]);
      ("browse_media", optional ["media_content_type"; "media_content_id"]);
      ("search_media", required_optional ["search_query"]
         ["media_content_type"; "media_content_id"; "media_filter_classes"])]
     "Control media players and streaming devices");
  ("vacuum", entry TYPE_CONTROLLABLE PRIORITY_COMMON
     ["turn_on"; "turn_off"; "toggle"; "start"; "stop"; "pause"; "start_pause";
      "return_to_base"; "clean_spot"; "locate"; "send_command"; "set_fan_speed"]
     [("send_command", required_optional ["command"] ["params"]);
      ("set_fan_speed", required ["fan_speed"])]
     "Control robot vacuums");
  ("alarm_control_panel", entry TYPE_CONTROLLABLE PRIORITY_COMMON
     ["alarm_disarm"; "alarm_arm_home"; "alarm_arm_away"; "alarm_arm_night";
      "alarm_arm_vacation"; "alarm_arm_custom_bypass"; "alarm_trigger"]
     [("alarm_disarm", optional ["code"]);
      ("alarm_arm_home", optional ["code"]);
      ("alarm_arm_away", optional ["code"]);
      ("alarm_arm_night", optional ["code"]);
      ("alarm_arm_vacation", optional ["code"]);
      ("alarm_arm_custom_bypass", optional ["code"]);
      ("alarm_trigger", optional ["code"])]
     "Control security alarm systems");
  ("camera", entry TYPE_CONTROLLABLE PRIORITY_COMMON
     ["turn_on"; "turn_off"; "enable_motion_detection"; "disable_motion_detection";
      "snapshot"; "record"; "play_stream"]
     [("snapshot", required ["filename"]);
      ("record", required_optional ["filename"] ["duration"; "lookback"]);
      ("play_stream", required_optional ["media_player"] ["format"])]
     "Control cameras and capture media");
  ("sensor", entry_msg TYPE_READ_ONLY PRIORITY_COMMON
     []
     []
     "Sensors are read-only. Use 'get_entity_details' to read sensor values."
     "Read-only numeric and string sensors");
  ("binary_sensor", entry_msg TYPE_READ_ONLY PRIORITY_COMMON
     []
     []
     "Binary sensors are read-only. Use 'get_entity_details' to read sensor state."
     "Read-only on/off state sensors");
  ("device_tracker", entry TYPE_CONTROLLABLE PRIORITY_COMMON
     ["see"]
     [("see", optional
         ["mac"; "dev_id"; "host_name"; "location_name"; "gps"; "gps_accuracy"; "battery"])]
     "Track device locations")
].

(* ========== P3: Standard Helper Domains ========== *)
Definition registry_standard : list (string * domain_info) := [
  ("input_boolean", entry TYPE_CONTROLLABLE PRIORITY_STANDARD
     ["turn_on"; "turn_off"; "toggle"; "reload"]
     []
     "Boolean input helpers");
  ("input_number", entry TYPE_CONTROLLABLE PRIORITY_STANDARD
     ["set_value"; "increment"; "decrement"; "reload"]
     [("set_value", required ["value"])]
     "Numeric input helpers");
  ("input_text", entry TYPE_CONTROLLABLE PRIORITY_STANDARD
     ["set_value"; "reload"]
     [("set_value", required ["value"])]
     "Text input helpers");
  ("input_select", entry TYPE_CONTROLLABLE PRIORITY_STANDARD
     ["select_option"; "select_next"; "select_previous"; "select_first"; "select_last";
      "set_options"; "reload"]
     [("select_option", required ["option"]);
      ("select_next", optional ["cycle"]);
      ("select_previous", optional ["cycle"]);
      ("set_options", required ["options"])]
     "Dropdown selection helpers");
  ("input_datetime", entry TYPE_CONTROLLABLE PRIORITY_STANDARD
     ["set_datetime"; "reload"]
     [("set_datetime", optional ["date"; "time"; "datetime"; "timestamp"])]
     "Date and time input helpers");
  ("input_button", entry TYPE_CONTROLLABLE PRIORITY_STANDARD
     ["press"; "reload"]
     []
     "Button input helpers");
  ("timer", entry TYPE_CONTROLLABLE PRIORITY_STANDARD
     ["start"; "pause"; "cancel"; "finish"; "change"; "reload"]
     [("start", optional ["duration"]);
      ("change", required ["duration"])]
     "Timer helpers");
  ("counter", entry TYPE_CONTROLLABLE PRIORITY_STANDARD
     ["increment"; "decrement"; "reset"; "set_value"]
     [("set_value", required ["value"])]
     "Counter helpers");
  ("person", entry TYPE_CONTROLLABLE PRIORITY_STANDARD
     ["reload"]
     []
     "Person entities");
  ("zone", entry TYPE_CONTROLLABLE PRIORITY_STANDARD
     ["reload"]
     []
     "Geographic zones");
  ("group", entry TYPE_CONTROLLABLE PRIORITY_STANDARD
     ["reload"; "set"; "remove"]
     [("set", required_optional ["object_id"]
         ["name"; "icon"; "entities"; "add_entities"; "remove_entities"; "all"]);
      ("remove", required ["object_id"])]
     "Entity groups")
].

(* ========== P4: Modern Platform Domains ========== *)
Definition registry_extended : list (string * domain_info) := [
  ("select", entry TYPE_CONTROLLABLE PRIORITY_EXTENDED
     ["select_option"; "select_first"; "select_last"; "select_next"; "select_previous"]
     [("select_option", required ["option"]);
      ("select_next", optional ["cycle"]);
      ("select_previous", optional ["cycle"])]
     "Selection entities");
  ("number", entry TYPE_CONTROLLABLE PRIORITY_EXTENDED
     ["set_value"]
     [("set_value", required ["value"])]
     "Numeric control entities");
  ("button", entry TYPE_CONTROLLABLE PRIORITY_EXTENDED
     ["press"]
     []
     "Button entities");
  ("update", entry TYPE_CONTROLLABLE PRIORITY_EXTENDED
     ["install"; "skip"; "clear_skipped"]
     [("install", optional ["version"; "backup"])]
     "Update entities for firmware and software");
  ("text", entry TYPE_CONTROLLABLE PRIORITY_EXTENDED
     ["set_value"]
     [("set_value", required ["value"])]
     "Text control entities");
  ("date", entry TYPE_CONTROLLABLE PRIORITY_EXTENDED
     ["set_value"]
     [("set_value", required ["date"])]
     "Date control entities");
  ("time", entry TYPE_CONTROLLABLE PRIORITY_EXTENDED
     ["set_value"]
     [("set_value", required ["time"])]
     "Time control entities");
  ("datetime", entry TYPE_CONTROLLABLE PRIORITY_EXTENDED
     ["set_value"]
     [("set_value", required ["datetime"])]
     "Date and time control entities")
].

(* ========== P5: Specialized Domains ========== *)
Definition registry_specialized : list (string * domain_info) := [
  ("water_heater", entry TYPE_CONTROLLABLE PRIORITY_SPECIALIZED
     ["set_temperature"; "set_operation_mode"; "set_away_mode"; "turn_on"; "turn_off"]
     [("set_temperature", required_optional ["temperature"] ["operation_mode"]);
      ("set_operation_mode", required ["operation_mode"]);
      ("set_away_mode", required ["away_mode"])]
     "Control water heaters");
  ("humidifier", entry TYPE_CONTROLLABLE PRIORITY_SPECIALIZED
     ["turn_on"; "turn_off"; "toggle"; "set_mode"; "set_humidity"]
     [("set_mode", required ["mode"]);
      ("set_humidity", required ["humidity"])]
     "Control humidifiers and dehumidifiers");
  ("siren", entry TYPE_CONTROLLABLE PRIORITY_SPECIALIZED
     ["turn_on"; "turn_off"; "toggle"]
     [("turn_on", optional ["tone"; "duration"; "volume_level"])]
     "Control alarm sirens");
  ("valve", entry TYPE_CONTROLLABLE PRIORITY_SPECIALIZED
     ["open_valve"; "close_valve"; "set_valve_position"; "stop_valve"; "toggle"]
     [("set_valve_position", required ["position"])]
     "Control water and gas valves");
  ("lawn_mower", entry TYPE_CONTROLLABLE PRIORITY_SPECIALIZED
     ["start_mowing"; "pause"; "dock"]
     []
     "Control robotic lawn mowers");
  ("weather", entry TYPE_READ_ONLY PRIORITY_SPECIALIZED
     ["get_forecast"; "get_forecasts"]
     [("get_forecast", required ["type"]);
      ("get_forecasts", required ["type"])]
     "Weather information and forecasts");
  ("sun", entry_msg TYPE_READ_ONLY PRIORITY_SPECIALIZED
     []
     []
     "Sun is a system entity providing sunrise/sunset times. Use 'get_entity_details' to read values."
     "Solar position and sunrise/sunset times")
].

(* ========== P6: Service-Only Domains ========== *)
Definition registry_service_only : list (string * domain_info) := [
  ("notify", entry TYPE_SERVICE_ONLY PRIORITY_SPECIALIZED
     ["notify"; "send_message"; "persistent_notification"]
     [("notify", required_optional ["message"] ["title"; "target"; "data"]);
      ("send_message", required_optional ["message"] ["title"]);
      ("persistent_notification", required_optional ["message"] ["title"; "data"])]
     "Send notifications to devices and services");
  ("tts", entry TYPE_SERVICE_ONLY PRIORITY_SPECIALIZED
     ["speak"; "say"; "clear_cache"]
     [("speak", required_optional ["media_player_entity_id"; "message"]
         ["cache"; "language"; "options"]);
      ("say", required_optional ["entity_id"; "message"] ["cache"; "language"; "options"])]
     "Text-to-speech services");
  ("persistent_notification", entry TYPE_SERVICE_ONLY PRIORITY_SPECIALIZED
     ["create"; "dismiss"; "mark_read"]
     [("create", required_optional ["message"] ["title"; "notification_id"]);
      ("dismiss", required ["notification_id"]);
      ("mark_read", required ["notification_id"])]
     "Create persistent UI notifications")
].

Definition DOMAIN_REGISTRY : list (string * domain_info) :=
  registry_essential ++ registry_common ++ registry_standard
  ++ registry_extended ++ registry_specialized ++ registry_service_only.

(** [ACTION_ALIASES] *)
Definition ACTION_ALIASES : list (string * string) := [
  (* Common aliases for turn_on/turn_off *)
  ("activate", "turn_on");
  ("deactivate", "turn_off");
  ("enable", "turn_on");
  ("disable", "turn_off");
  ("start", "turn_on");
  ("stop", "turn_off");
  (* Lock-specific aliases *)
  ("secure", "lock");
  ("unsecure", "unlock");
  (* Cover-specific aliases *)
  ("open", "open_cover");
  ("close", "close_cover");
  ("raise", "open_cover");
  ("lower", "close_cover");
  (* Media player aliases *)
  ("play", "media_play");
  ("pause", "media_pause");
  ("next", "media_next_track");
  ("previous", "media_previous_track");
  ("mute", "volume_mute");
  (* Climate aliases *)
  ("heat", "set_hvac_mode");
  ("cool", "set_hvac_mode");
  (* Vacuum aliases *)
  ("clean", "start");
  ("dock", "return_to_base");
  ("home", "return_to_base")
].

Definition get_domain_info (domain : string) : option domain_info :=
  dict_get DOMAIN_REGISTRY domain.

(** The domain-specific mappings that follow the alias table in
    [map_action_to_service]; an action none of them names is returned
    as it is. *)
Definition domain_specific (domain action : string) : string :=
  if String.eqb domain "cover" then
    if list_in action ["raise"; "lift"] then "open_cover"
    else if list_in action ["lower"; "drop"] then "close_cover"
    else action
  else if String.eqb domain "lock" then
    if String.eqb action "secure" then "lock"
    else if String.eqb action "unsecure" then "unlock"
    else action
  else if String.eqb domain "vacuum" then
    if String.eqb action "clean" then "start"
    else if list_in action ["dock"; "home"] then "return_to_base"
    else action
  else action.

Definition map_action_to_service (domain action : string) : string :=
  (* First check if it's already a valid service name *)
  let domain_info := get_domain_info domain in
  if match domain_info with
     | Some info => list_in action (di_services info)
     | None => false
     end
  then action
  else
    (* Check common aliases *)
    match dict_get ACTION_ALIASES action with
    | Some service => service
    | None => domain_specific domain action
    end.

(** The comprehension
    [[d for d in DOMAIN_REGISTRY.keys() if domain in d or d in domain]]
    of [validate_domain_action]. *)
Definition similar_domains (domain : string) : list string :=
  List.filter (fun d => str_in domain d || str_in d domain)
              (dict_keys DOMAIN_REGISTRY).

Definition validate_domain_action (domain action : string) : bool * string :=
  match get_domain_info domain with
  | None =>
      (* List similar domains if available *)
      let similar := similar_domains domain in
      match similar with
      | _ :: _ =>
          (false, "Domain '" ++ domain ++ "' not supported. Did you mean: "
                  ++ join ", " (slice_to 3 similar) ++ "?")
      | [] =>
          (false, "Domain '" ++ domain
                  ++ "' not supported. Use 'list_domains' to see available domains.")
      end
  | Some domain_info =>
      (* Check if domain is read-only *)
      if domain_type_eqb (di_type domain_info) TYPE_READ_ONLY then
        (false,
         match di_error_message domain_info with
         | Some msg => msg
         | None => "Domain '" ++ domain
                   ++ "' is read-only. Use 'get_entity_details' to read values."
         end)
      else
        (* Map the action to a service name *)
        let service := map_action_to_service domain action in
        (* Check if service is valid for this domain *)
        if list_in service (di_services domain_info) then (true, service)
        else
          let available_services := di_services domain_info in
          match available_services with
          | _ :: _ =>
              (false, "Action '" ++ action ++ "' not valid for " ++ domain
                      ++ ". Available: " ++ join ", " (slice_to 5 available_services))
          | [] => (false, "Domain '" ++ domain ++ "' has no available services")
          end
  end.

(** The dict [get_service_parameters] returns. *)
Record parameter_lists : Type := {
  pl_required : list string;
  pl_optional : list string
}.

Definition get_service_parameters (domain service : string) : parameter_lists :=
  match get_domain_info domain with
  | None => {| pl_required := []; pl_optional := [] |}
  | Some domain_info =>
      let params :=
        match dict_get (di_parameters domain_info) service with
        | Some p => p
        | None => {| sp_required := None; sp_optional := None |}
        end in
      {| pl_required := default [] (sp_required params);
         pl_optional := default [] (sp_optional params) |}
  end.

(** [provided_params] is a [Dict[str, Any]]; only its keys are read. *)
Definition validate_service_parameters {Any : Type}
    (domain service : string) (provided_params : gmap string Any) : bool * string :=
  let params_info := get_service_parameters domain service in
  let required_params := pl_required params_info in
  (* Check for missing required parameters *)
  let missing :=
    List.filter (fun p => negb (bool_decide (is_Some (provided_params !! p))))
                required_params in
  match missing with
  | _ :: _ =>
      (false, "Missing required parameters for " ++ domain ++ "." ++ service
              ++ ": " ++ join ", " missing)
  | [] => (true, "Parameters valid")
  end.

End Registry.

(* ================================================================== *)
(** * conversation_history.py *)
(* ================================================================== *)

Module History.
Import Py.

(** An entry of a turn's ["actions"]: a [Dict[str, Any]] of which the
    module reads the keys ["type"], ["intent"] and ["entity_ids"]. *)
Record action : Type := {
  act_type : option string;
  act_intent : option string;
  act_entity_ids : option (list string)
}.

(** A turn; [timestamp] is a [datetime], here in microseconds. *)
Record turn : Type := {
  timestamp : Z;
  user : string;
  assistant : string;
  actions : list action
}.

Record ConversationHistory : Type := {
  max_history_age : Z;      (* a [timedelta], in microseconds *)
  max_turns : Z;
  _conversations : gmap string (list turn)
}.

Definition set_conversations (self : ConversationHistory)
    (c : gmap string (list turn)) : ConversationHistory :=
  {| max_history_age := max_history_age self;
     max_turns := max_turns self;
     _conversations := c |}.

(** [timedelta(hours=h)] *)
Definition timedelta_hours (h : Z) : Z := h * 3600000000.

Definition __init__ (max_history_age_hours max_turns_per_conversation : Z)
    : ConversationHistory :=
  {| max_history_age := timedelta_hours max_history_age_hours;
     max_turns := max_turns_per_conversation;
     _conversations := ∅ |}.

(** [now] is the reading of [datetime.now()] the call makes. *)
Definition _cleanup_conversation (self : ConversationHistory)
    (conversation_id : string) (now : Z) : ConversationHistory :=
  match _conversations self !! conversation_id with
  | None => self
  | Some conversation =>
      let cutoff_time := now - max_history_age self in
      (* Remove old turns *)
      let conversation :=
        List.filter (fun turn => cutoff_time <? timestamp turn) conversation in
      (* Limit number of turns *)
      let conversation :=
        if max_turns self <? Z.of_nat (length conversation)
        then slice_from (- max_turns self) conversation
        else conversation in
      (* Remove conversation if empty *)
      match conversation with
      | [] => set_conversations self (delete conversation_id (_conversations self))
      | _ :: _ =>
          set_conversations self
            (<[conversation_id := conversation]> (_conversations self))
      end
  end.

(** [add_turn] reads the clock twice: [now_turn] stamps the turn and
    [now_cleanup] is read by the cleanup.  The store is mutated before
    the closing debug call looks the conversation up again, so the new
    store is returned also when that lookup raises. *)
Definition add_turn (self : ConversationHistory) (conversation_id : string)
    (user_message assistant_message : string) (actions : option (list action))
    (now_turn now_cleanup : Z) : result unit * ConversationHistory :=
  let conversations :=
    match _conversations self !! conversation_id with
    | None => <[conversation_id := []]> (_conversations self)
    | Some _ => _conversations self
    end in
  let turn :=
    {| timestamp := now_turn;
       user := user_message;
       assistant := assistant_message;
       actions := default [] actions |} in
  let conversations :=
    alter (fun conversation => (conversation ++ [turn])%list) conversation_id conversations in
  (* Cleanup old turns *)
  let self := _cleanup_conversation (set_conversations self conversations)
                conversation_id now_cleanup in
  match _conversations self !! conversation_id with
  | Some _ => (Returns tt, self)
  | None => (Raises "KeyError", self)
  end.

Definition get_history (self : ConversationHistory) (conversation_id : string)
    (now : Z) : result (list turn) * ConversationHistory :=
  match _conversations self !! conversation_id with
  | None => (Returns [], self)
  | Some _ =>
      (* Cleanup old conversations first *)
      let self := _cleanup_conversation self conversation_id now in
      match _conversations self !! conversation_id with
      | Some conversation => (Returns conversation, self)
      | None => (Raises "KeyError", self)
      end
  end.

(** A [for] loop whose body may raise. *)
Fixpoint for_each {A S : Type} (body : A -> S -> result S) (l : list A) (s : S)
    : result S :=
  match l with
  | [] => Returns s
  | x :: l' =>
      match body x s with
      | Returns s' => for_each body l' s'
      | Raises e => Raises e
      end
  end.

Definition opt_str_eqb (o : option string) (s : string) : bool :=
  match o with
  | Some s' => String.eqb s' s
  | None => false
  end.

(** The body of the loop over [turn["actions"]]. *)
Definition summarize_action (action : action) (actions_summary : list string)
    : result (list string) :=
  if opt_str_eqb (act_type action) "intent_executed" then
    match act_intent action with
    | Some intent =>
        let line := "Executed " ++ intent ++ " on "
                    ++ join ", " (default [] (act_entity_ids action)) in
        Returns (actions_summary ++ [line])%list
    | None => Raises "KeyError"
    end
  else if opt_str_eqb (act_type action) "entities_mentioned" then
    let line := "Referenced entities: "
                ++ join ", " (default [] (act_entity_ids action)) in
    Returns (actions_summary ++ [line])%list
  else Returns actions_summary.

(** The body of the loop over [recent_turns]. *)
Definition append_turn (turn : turn) (context_parts : list string)
    : result (list string) :=
  let user_line := "User: " ++ user turn in
  let assistant_line := "Assistant: " ++ assistant turn in
  let context_parts := (context_parts ++ [user_line])%list in
  let context_parts := (context_parts ++ [assistant_line])%list in
  (* Add actions taken if any *)
  match actions turn with
  | [] => Returns context_parts
  | _ :: _ =>
      match for_each summarize_action (actions turn) [] with
      | Raises e => Raises e
      | Returns [] => Returns context_parts
      | Returns actions_summary =>
          let actions_line := "Actions: " ++ join "; " actions_summary in
          Returns (context_parts ++ [actions_line])%list
      end
  end.

Definition get_recent_context (self : ConversationHistory)
    (conversation_id : string) (max_turns : Z) (now : Z)
    : result string * ConversationHistory :=
  match get_history self conversation_id now with
  | (Raises e, self) => (Raises e, self)
  | (Returns [], self) => (Returns "", self)
  | (Returns history, self) =>
      (* Get last few turns *)
      let recent_turns :=
        if max_turns <? Z.of_nat (length history)
        then slice_from (- max_turns) history
        else history in
      match for_each append_turn recent_turns ["Recent conversation:"] with
      | Raises e => (Raises e, self)
      | Returns context_parts => (Returns (join LF context_parts), self)
      end
  end.

End History.

(* ================================================================== *)
(** * statistics.py *)
(* ================================================================== *)

Module Statistics.
Import Py.

(** [deque(maxlen=n).append(x)]: a full deque drops its oldest item. *)
Definition deque_append (maxlen : nat) (d : list float) (x : float) : list float :=
  let d := (d ++ [x])%list in
  if (maxlen <? length d)%nat then tl d else d.

Record ResponseTimeTracker : Type := {
  max_samples : Z;
  _fast_path_times : list float;     (* deque(maxlen=100) *)
  _llm_times : list float;           (* deque(maxlen=100) *)
  fast_path_last : float;
  llm_last : float
}.

Definition new_ResponseTimeTracker : ResponseTimeTracker :=
  {| max_samples := 100;
     _fast_path_times := [];
     _llm_times := [];
     fast_path_last := 0%float;
     llm_last := 0%float |}.

Definition record_fast_path (self : ResponseTimeTracker) (duration_ms : float)
    : ResponseTimeTracker :=
  {| max_samples := max_samples self;
     _fast_path_times := deque_append 100 (_fast_path_times self) duration_ms;
     _llm_times := _llm_times self;
     fast_path_last := duration_ms;
     llm_last := llm_last self |}.

Definition record_llm (self : ResponseTimeTracker) (duration_ms : float)
    : ResponseTimeTracker :=
  {| max_samples := max_samples self;
     _fast_path_times := _fast_path_times self;
     _llm_times := deque_append 100 (_llm_times self) duration_ms;
     fast_path_last := fast_path_last self;
     llm_last := duration_ms |}.

Section Host.

(** What a callback can act on: the host outside the aggregator (the
    sensor entities that write their state).  A callback returns or
    raises an [Exception], and leaves a host either way.  A listener that
    reads the statistics while it is notified reaches the aggregator
    again through [get_stats]: what that read does to the aggregator is
    [StatisticsReads.get_stats_state], an event of its own after the
    recording call that notifies. *)
Context {Host : Type}.

Definition callback (A : Type) : Type := Host -> result A * Host.

Record MCPAssistStatistics : Type := {
  _response_times : ResponseTimeTracker;
  (* Counters *)
  _fast_path_hits : Z;
  _fast_path_misses : Z;
  _pre_resolve_hits : Z;
  _pre_resolve_attempts : Z;
  _llm_calls : Z;
  _llm_errors : Z;
  _tokens_used : Z;
  (* Daily tracking *)
  _current_date : Z;               (* a [date], as its ordinal *)
  _requests_today : Z;
  _llm_calls_today : Z;
  _tokens_today : Z;
  (* Status *)
  _status : string;
  _last_request_time : option Z;   (* a [datetime], in microseconds *)
  (* Listeners for sensor updates *)
  _listeners : list (callback unit)
}.

(** [today] is the reading of [date.today()] at construction. *)
Definition __init__ (today : Z) : MCPAssistStatistics :=
  {| _response_times := new_ResponseTimeTracker;
     _fast_path_hits := 0;
     _fast_path_misses := 0;
     _pre_resolve_hits := 0;
     _pre_resolve_attempts := 0;
     _llm_calls := 0;
     _llm_errors := 0;
     _tokens_used := 0;
     _current_date := today;
     _requests_today := 0;
     _llm_calls_today := 0;
     _tokens_today := 0;
     _status := "online";
     _last_request_time := None;
     _listeners := [] |}.

Definition add_listener (self : MCPAssistStatistics) (cb : callback unit)
    : MCPAssistStatistics :=
  {| _response_times := _response_times self;
     _fast_path_hits := _fast_path_hits self;
     _fast_path_misses := _fast_path_misses self;
     _pre_resolve_hits := _pre_resolve_hits self;
     _pre_resolve_attempts := _pre_resolve_attempts self;
     _llm_calls := _llm_calls self;
     _llm_errors := _llm_errors self;
     _tokens_used := _tokens_used self;
     _current_date := _current_date self;
     _requests_today := _requests_today self;
     _llm_calls_today := _llm_calls_today self;
     _tokens_today := _tokens_today self;
     _status := _status self;
     _last_request_time := _last_request_time self;
     _listeners := (_listeners self ++ [cb])%list |}.

(** Every listener is called in turn; one that raises is logged and
    the loop goes on. *)
Definition _notify_listeners (self : MCPAssistStatistics) (host : Host) : Host :=
  fold_left
    (fun host listener =>
       match listener host with
       | (Returns _, host') => host'
       | (Raises _, host') => host'
       end)
    (_listeners self) host.

(** [today] is the reading of [date.today()] the call makes. *)
Definition _check_date_rollover (self : MCPAssistStatistics) (today : Z)
    : MCPAssistStatistics :=
  if negb (today =? _current_date self) then
    {| _response_times := _response_times self;
       _fast_path_hits := _fast_path_hits self;
       _fast_path_misses := _fast_path_misses self;
       _pre_resolve_hits := _pre_resolve_hits self;
       _pre_resolve_attempts := _pre_resolve_attempts self;
       _llm_calls := _llm_calls self;
       _llm_errors := _llm_errors self;
       _tokens_used := _tokens_used self;
       _current_date := today;
       _requests_today := 0;
       _llm_calls_today := 0;
       _tokens_today := 0;
       _status := _status self;
       _last_request_time := _last_request_time self;
       _listeners := _listeners self |}
  else self.

Definition record_request (self : MCPAssistStatistics) (today now : Z)
    (host : Host) : MCPAssistStatistics * Host :=
  let self := _check_date_rollover self today in
  let self :=
    {| _response_times := _response_times self;
       _fast_path_hits := _fast_path_hits self;
       _fast_path_misses := _fast_path_misses self;
       _pre_resolve_hits := _pre_resolve_hits self;
       _pre_resolve_attempts := _pre_resolve_attempts self;
       _llm_calls := _llm_calls self;
       _llm_errors := _llm_errors self;
       _tokens_used := _tokens_used self;
       _current_date := _current_date self;
       _requests_today := _requests_today self + 1;
       _llm_calls_today := _llm_calls_today self;
       _tokens_today := _tokens_today self;
       _status := _status self;
       _last_request_time := Some now;
       _listeners := _listeners self |} in
  (self, _notify_listeners self host).

Definition record_fast_path_hit (self : MCPAssistStatistics)
    (duration_ms : float) (host : Host) : MCPAssistStatistics * Host :=
  let self :=
    {| _response_times := record_fast_path (_response_times self) duration_ms;
       _fast_path_hits := _fast_path_hits self + 1;
       _fast_path_misses := _fast_path_misses self;
       _pre_resolve_hits := _pre_resolve_hits self;
       _pre_resolve_attempts := _pre_resolve_attempts self;
       _llm_calls := _llm_calls self;
       _llm_errors := _llm_errors self;
       _tokens_used := _tokens_used self;
       _current_date := _current_date self;
       _requests_today := _requests_today self;
       _llm_calls_today := _llm_calls_today self;
       _tokens_today := _tokens_today self;
       _status := _status self;
       _last_request_time := _last_request_time self;
       _listeners := _listeners self |} in
  (self, _notify_listeners self host).

Definition record_fast_path_miss (self : MCPAssistStatistics) (host : Host)
    : MCPAssistStatistics * Host :=
  let self :=
    {| _response_times := _response_times self;
       _fast_path_hits := _fast_path_hits self;
       _fast_path_misses := _fast_path_misses self + 1;
       _pre_resolve_hits := _pre_resolve_hits self;
       _pre_resolve_attempts := _pre_resolve_attempts self;
       _llm_calls := _llm_calls self;
       _llm_errors := _llm_errors self;
       _tokens_used := _tokens_used self;
       _current_date := _current_date self;
       _requests_today := _requests_today self;
       _llm_calls_today := _llm_calls_today self;
       _tokens_today := _tokens_today self;
       _status := _status self;
       _last_request_time := _last_request_time self;
       _listeners := _listeners self |} in
  (self, _notify_listeners self host).

Definition record_pre_resolve_attempt (self : MCPAssistStatistics)
    (success : bool) (host : Host) : MCPAssistStatistics * Host :=
  let self :=
    {| _response_times := _response_times self;
       _fast_path_hits := _fast_path_hits self;
       _fast_path_misses := _fast_path_misses self;
       _pre_resolve_hits := if success then _pre_resolve_hits self + 1 else _pre_resolve_hits self;
       _pre_resolve_attempts := _pre_resolve_attempts self + 1;
       _llm_calls := _llm_calls self;
       _llm_errors := _llm_errors self;
       _tokens_used := _tokens_used self;
       _current_date := _current_date self;
       _requests_today := _requests_today self;
       _llm_calls_today := _llm_calls_today self;
       _tokens_today := _tokens_today self;
       _status := _status self;
       _last_request_time := _last_request_time self;
       _listeners := _listeners self |} in
  (self, _notify_listeners self host).

Definition record_llm_call (self : MCPAssistStatistics) (today : Z)
    (duration_ms : float) (tokens : Z) (host : Host)
    : MCPAssistStatistics * Host :=
  let self := _check_date_rollover self today in
  let self :=
    {| _response_times := record_llm (_response_times self) duration_ms;
       _fast_path_hits := _fast_path_hits self;
       _fast_path_misses := _fast_path_misses self;
       _pre_resolve_hits := _pre_resolve_hits self;
       _pre_resolve_attempts := _pre_resolve_attempts self;
       _llm_calls := _llm_calls self + 1;
       _llm_errors := _llm_errors self;
       _tokens_used := _tokens_used self + tokens;
       _current_date := _current_date self;
       _requests_today := _requests_today self;
       _llm_calls_today := _llm_calls_today self + 1;
       _tokens_today := _tokens_today self + tokens;
       _status := _status self;
       _last_request_time := _last_request_time self;
       _listeners := _listeners self |} in
  (self, _notify_listeners self host).

Definition record_llm_error (self : MCPAssistStatistics) (host : Host)
    : MCPAssistStatistics * Host :=
  let self :=
    {| _response_times := _response_times self;
       _fast_path_hits := _fast_path_hits self;
       _fast_path_misses := _fast_path_misses self;
       _pre_resolve_hits := _pre_resolve_hits self;
       _pre_resolve_attempts := _pre_resolve_attempts self;
       _llm_calls := _llm_calls self;
       _llm_errors := _llm_errors self + 1;
       _tokens_used := _tokens_used self;
       _current_date := _current_date self;
       _requests_today := _requests_today self;
       _llm_calls_today := _llm_calls_today self;
       _tokens_today := _tokens_today self;
       _status := _status self;
       _last_request_time := _last_request_time self;
       _listeners := _listeners self |} in
  (self, _notify_listeners self host).

Definition set_status (self : MCPAssistStatistics) (status : string)
    (host : Host) : MCPAssistStatistics * Host :=
  let self :=
    {| _response_times := _response_times self;
       _fast_path_hits := _fast_path_hits self;
       _fast_path_misses := _fast_path_misses self;
       _pre_resolve_hits := _pre_resolve_hits self;
       _pre_resolve_attempts := _pre_resolve_attempts self;
       _llm_calls := _llm_calls self;
       _llm_errors := _llm_errors self;
       _tokens_used := _tokens_used self;
       _current_date := _current_date self;
       _requests_today := _requests_today self;
       _llm_calls_today := _llm_calls_today self;
       _tokens_today := _tokens_today self;
       _status := status;
       _last_request_time := _last_request_time self;
       _listeners := _listeners self |} in
  (self, _notify_listeners self host).

(** The property [fast_path_rate]. *)
Definition fast_path_rate (self : MCPAssistStatistics) : result float :=
  let total := _fast_path_hits self + _fast_path_misses self in
  if total =? 0 then Returns 0%float
  else
    match int_true_div (_fast_path_hits self) total with
    | Returns q => Returns (round_1 (q * 100)%float)
    | Raises e => Raises e
    end.

(** The property [pre_resolve_rate]. *)
Definition pre_resolve_rate (self : MCPAssistStatistics) : result float :=
  if _pre_resolve_attempts self =? 0 then Returns 0%float
  else
    match int_true_div (_pre_resolve_hits self) (_pre_resolve_attempts self) with
    | Returns q => Returns (round_1 (q * 100)%float)
    | Raises e => Raises e
    end.

(** ** TimingContext

    The context holds a reference to the aggregator; here the aggregator
    is passed to [__exit__], which returns it with the host. *)
Record TimingContext : Type := {
  _operation_type : string;
  _tokens_callback : option (callback Z);
  _start_time : option float
}.

Definition new_TimingContext (operation_type : string)
    (tokens_callback : option (callback Z)) : TimingContext :=
  {| _operation_type := operation_type;
     _tokens_callback := tokens_callback;
     _start_time := None |}.

(** [perf_counter] is the reading of [time.perf_counter()]. *)
Definition __enter__ (self : TimingContext) (perf_counter : float)
    : TimingContext :=
  {| _operation_type := _operation_type self;
     _tokens_callback := _tokens_callback self;
     _start_time := Some perf_counter |}.


(** [__exit__] returns [False] on every path; the aggregator and the
    host it leaves are returned with it. *)
Definition __exit__ (self : TimingContext) (stats : MCPAssistStatistics)
    (perf_counter : float) (today : Z) (host : Host)
    : bool * (MCPAssistStatistics * Host) :=
  match _start_time self with
  | Some start_time =>
      let duration_ms := ((perf_counter - start_time) * 1000)%float in
      if String.eqb (_operation_type self) "fast_path" then
        (false, record_fast_path_hit stats duration_ms host)
      else if String.eqb (_operation_type self) "llm" then
        let '(tokens, host) :=
          match _tokens_callback self with
          | Some tokens_callback =>
              match tokens_callback host with
              | (Returns tokens, host') => (tokens, host')
              | (Raises _, host') => (0, host')
              end
          | None => (0, host)
          end in
        (false, record_llm_call stats today duration_ms tokens host)
      else (false, (stats, host))
  | None => (false, (stats, host))
  end.

End Host.
End Statistics.

(* ================================================================== *)
(** * statistics.py: reading the statistics *)
(* ================================================================== *)

Module StatisticsReads.
Import Py Statistics.

Section Host.
Context {Host : Type}.

(** [get_stats], as far as the aggregator goes: the call checks the day
    and then builds its dictionary from reads alone.  [today] is the
    reading of [date.today()] the check makes.  The sensor entities call
    [get_stats] from their listener, that is from inside
    [_notify_listeners], the last statement of every recording call. *)
Definition get_stats_state (self : @MCPAssistStatistics Host) (today : Z)
    : @MCPAssistStatistics Host :=
  _check_date_rollover self today.

End Host.
End StatisticsReads.

(* ================================================================== *)
(** * domain_registry.py: the queries *)
(* ================================================================== *)

Module RegistryQueries.
Import Py Registry.

Definition get_supported_domains (priority : option Z) : list string :=
  match priority with
  | None => dict_keys DOMAIN_REGISTRY
  | Some priority =>
      List.map fst
        (List.filter (fun '(_, info) => di_priority info =? priority) DOMAIN_REGISTRY)
  end.

Definition get_domains_by_type (domain_type : domain_type) : list string :=
  List.map fst
    (List.filter (fun '(_, info) => domain_type_eqb (di_type info) domain_type)
                 DOMAIN_REGISTRY).

End RegistryQueries.

(* ================================================================== *)
(** * conversation_history.py: clearing and statistics *)
(* ================================================================== *)

Module HistoryAdmin.
Import Py History.

Definition clear_conversation (self : ConversationHistory) (conversation_id : string)
    : ConversationHistory :=
  match _conversations self !! conversation_id with
  | Some _ => set_conversations self (delete conversation_id (_conversations self))
  | None => self
  end.

Definition clear_all (self : ConversationHistory) : ConversationHistory :=
  set_conversations self ∅.

(** [round(avg_turns, 1)] is an [int] when there is no conversation (the
    average is then the literal [0]) and a [float] otherwise. *)
Inductive number : Type :=
| Int (z : Z)
| Float (f : float).

(** The dict [get_stats] returns. *)
Record stats : Type := {
  total_conversations : Z;
  total_turns : Z;
  average_turns_per_conversation : number;
  oldest_turn : option string;
  newest_turn : option string
}.

(** [min(l)] and [max(l)] on a non-empty list, [None] for [l if l else None]. *)
Definition min_of (l : list Z) : option Z :=
  match l with
  | [] => None
  | x :: l' => Some (fold_left Z.min l' x)
  end.

Definition max_of (l : list Z) : option Z :=
  match l with
  | [] => None
  | x :: l' => Some (fold_left Z.max l' x)
  end.

Section Stats.

(** [datetime.isoformat], of the standard library. *)
Variable isoformat : Z -> string.

(** The two loops over [self._conversations.values()] only add lengths and
    collect timestamps for [min] and [max], so the order of the values is
    not observed. *)
Definition get_stats (self : ConversationHistory) : result stats :=
  let total_conversations := Z.of_nat (size (_conversations self)) in
  let total_turns :=
    map_fold (fun _ turns acc => acc + Z.of_nat (length turns)) 0
             (_conversations self) in
  (* Calculate average turns per conversation *)
  let avg_turns :=
    if 0 <? total_conversations then
      match int_true_div total_turns total_conversations with
      | Returns q => Returns (Float q)
      | Raises e => Raises e
      end
    else Returns (Int 0) in
  (* Find oldest and newest turns *)
  let all_timestamps :=
    map_fold (fun _ conversation acc => (acc ++ List.map timestamp conversation)%list)
             [] (_conversations self) in
  let oldest := min_of all_timestamps in
  let newest := max_of all_timestamps in
  match avg_turns with
  | Raises e => Raises e
  | Returns avg_turns =>
      Returns
        {| total_conversations := total_conversations;
           total_turns := total_turns;
           average_turns_per_conversation :=
             match avg_turns with
             | Int z => Int z
             | Float q => Float (round_1 q)
             end;
           oldest_turn := option_map isoformat oldest;
           newest_turn := option_map isoformat newest |}
  end.

End Stats.

End HistoryAdmin.

(* ================================================================== *)
(** * utils.py *)
(* ================================================================== *)

Module Utils.
Import Py.

Section Settings.

(** The values of a config entry other than [None]. *)
Context {V : Type}.

(** A [ConfigEntry], of which [options] and [data] are read; a value is
    [None] or one of [V]. *)
Record ConfigEntry : Type := {
  options : gmap string (option V);
  data : gmap string (option V)
}.

(** [d.get(key, default)]: the value stored under [key], were it [None],
    and [default] when there is no such key. *)
Definition get (d : gmap string (option V)) (key : string) (default : option V)
    : option V :=
  match d !! key with
  | Some value => value
  | None => default
  end.

(** [system_entry] is what [get_system_entry(hass)] returns. *)
Definition get_shared_setting (system_entry entry : option ConfigEntry)
    (key : string) (default : option V) : option V :=
  (* Try to get from system entry first *)
  match match system_entry with
        | Some system_entry =>
            get (options system_entry) key (get (data system_entry) key None)
        | None => None
        end with
  | Some value => Some value
  | None =>
      (* Fallback to profile entry for backward compatibility *)
      match match entry with
            | Some entry => get (options entry) key (get (data entry) key None)
            | None => None
            end with
      | Some value => Some value
      | None => default
      end
  end.

Definition get_entry_setting (entry : ConfigEntry) (key : string)
    (default : option V) : option V :=
  let value := get (options entry) key (get (data entry) key None) in
  match value with
  | Some value => Some value
  | None => default
  end.

End Settings.

(** A [str] as the list of its code points, for [len] and slices. *)
Definition str : Type := list N.

(** An ASCII literal. *)
Definition lit (s : string) : str := List.map N_of_ascii (list_ascii_of_string s).

(** [str(n)] for a length. *)
Definition str_of_len (n : nat) : str :=
  lit (NilZero.string_of_uint (N.to_uint (N.of_nat n))).

(** [l[:stop]] for an arbitrary integer [stop]. *)
Definition slice_until {A : Type} (stop : Z) (l : list A) : list A :=
  let len := Z.of_nat (length l) in
  let j := if stop <? 0 then Z.max 0 (len + stop) else Z.min stop len in
  firstn (Z.to_nat j) l.

(** [data] is [None], or any other object, given by its [str(data)]. *)
Definition sanitize_log_data (data : option str) (max_length : Z) : str :=
  match data with
  | None => lit "<None>"
  | Some text =>
      (* Truncate if too long *)
      if max_length <? Z.of_nat (length text) then
        (slice_until max_length text ++ lit "... [truncated, "
         ++ str_of_len (length text) ++ lit " chars total]")%list
      else text
  end.

End Utils.

(* ================================================================== *)
(** * localization.py *)
(* ================================================================== *)

Module Localization.
Import Py.

Record language_info : Type := {
  english : string;
  native : string
}.

(** [LANGUAGE_METADATA] *)
Definition LANGUAGE_METADATA : list (string * language_info) := [
  ("de", {| english := "German"; native := "Deutsch" |});
  ("fr", {| english := "French"; native := "Français" |});
  ("es", {| english := "Spanish"; native := "Español" |});
  ("it", {| english := "Italian"; native := "Italiano" |});
  ("nl", {| english := "Dutch"; native := "Nederlands" |});
  ("pl", {| english := "Polish"; native := "Polski" |});
  ("pt", {| english := "Portuguese"; native := "Português" |});
  ("ru", {| english := "Russian"; native := "Русский" |});
  ("zh-hans", {| english := "Chinese Simplified"; native := "简体中文" |});
  ("ja", {| english := "Japanese"; native := "日本語" |});
  ("ko", {| english := "Korean"; native := "한국어" |});
  ("sv", {| english := "Swedish"; native := "Svenska" |});
  ("nb", {| english := "Norwegian"; native := "Norsk Bokmål" |});
  ("da", {| english := "Danish"; native := "Dansk" |});
  ("fi", {| english := "Finnish"; native := "Suomi" |});
  ("cs", {| english := "Czech"; native := "Čeština" |});
  ("el", {| english := "Greek"; native := "Ελληνικά" |});
  ("tr", {| english := "Turkish"; native := "Türkçe" |});
  ("fil", {| english := "Filipino"; native := "Filipino" |});
  ("ar", {| english := "Arabic"; native := "العربية" |})
].

(** [FOLLOW_UP_PHRASES] *)
Definition FOLLOW_UP_PHRASES : list (string * string) := [
  ("en", "anything else, what else, would you, do you, should i, can i, which, how can, what about, is there");
  ("de", "noch etwas, was noch, würdest du, sollte ich, kann ich, welche, wie kann, was ist mit, gibt es");
  ("fr", "autre chose, quoi d'autre, veux-tu, devrais-je, puis-je, lequel, comment puis, qu'en est-il, y a-t-il");
  ("es", "algo más, qué más, harías, debería, puedo, cuál, cómo puedo, qué tal, hay");
  ("it", "altro, cos'altro, vorresti, dovrei, posso, quale, come posso, che ne dici, c'è");
  ("nl", "iets anders, wat nog meer, zou je, moet ik, kan ik, welke, hoe kan, hoe zit het met, is er");
  ("pl", "coś jeszcze, co jeszcze, czy byś, czy powinienem, czy mogę, który, jak mogę, co z, czy jest");
  ("pt", "mais alguma coisa, o que mais, você faria, devo, posso, qual, como posso, e quanto a, há");
  ("ru", "что-нибудь ещё, что ещё, ты бы, должен ли я, могу ли я, какой, как я могу, а как насчёт, есть ли");
  ("zh-hans", "还有什么, 还有其他, 你会, 我应该, 我可以, 哪个, 怎么能, 那个怎么样, 有没有");
  ("ja", "他に何か, 他には, してくれる, すべき, できる, どれ, どうやって, どうですか, ありますか");
  ("ko", "다른 것, 또 뭐, 할래, 해야 할까, 할 수 있어, 어떤, 어떻게, 어때, 있어");
  ("sv", "något annat, vad mer, skulle du, borde jag, kan jag, vilken, hur kan, vad sägs om, finns det");
  ("nb", "noe annet, hva mer, ville du, burde jeg, kan jeg, hvilken, hvordan kan, hva med, finnes det");
  ("da", "noget andet, hvad mere, ville du, burde jeg, kan jeg, hvilken, hvordan kan, hvad med, findes der");
  ("fi", "jotain muuta, mitä muuta, tekisitkö, pitäisikö minun, voinko, mikä, miten voin, entä, onko");
  ("cs", "něco jiného, co ještě, udělal bys, měl bych, mohu, který, jak mohu, co třeba, je tam");
  ("el", "κάτι άλλο, τι άλλο, θα ήθελες, πρέπει να, μπορώ να, ποιο, πώς μπορώ, τι λες για, υπάρχει");
  ("tr", "başka bir şey, başka ne, yapar mısın, yapmalı mıyım, yapabilir miyim, hangi, nasıl yapabilirim, peki ya, var mı");
  ("fil", "iba pa, ano pa, gagawin mo ba, dapat ba ako, maaari ba ako, alin, paano ako, paano naman, mayroon ba");
  ("ar", "شيء آخر, ماذا أيضا, هل ستفعل, هل يجب أن, هل يمكنني, أي, كيف يمكنني, ماذا عن, هل يوجد")
].

(** [END_WORDS] *)
Definition END_WORDS : list (string * string) := [
  ("en", "stop, cancel, no, nope, thanks, thank you, bye, goodbye, done, never mind, nevermind, forget it, that's all, that's it");
  ("de", "stopp, abbrechen, nein, danke, tschüss, auf wiedersehen, fertig, macht nichts, egal, vergiss es, das war's, das ist alles");
  ("fr", "stop, arrête, annuler, non, merci, au revoir, salut, terminé, peu importe, laisse tomber, oublie ça, c'est tout");
  ("es", "para, detener, cancelar, no, gracias, adiós, chao, hecho, no importa, olvídalo, es todo, eso es todo");
  ("it", "stop, ferma, annulla, no, grazie, ciao, arrivederci, fatto, non importa, lascia perdere, dimenticalo, è tutto");
  ("nl", "stop, annuleren, nee, bedankt, dank je, dag, doei, klaar, maakt niet uit, vergeet het, laat maar, dat is alles");
  ("pl", "stop, anuluj, nie, dzięki, dziękuję, cześć, pa, gotowe, nieważne, zapomnij, to wszystko");
  ("pt", "pare, parar, cancelar, não, obrigado, obrigada, tchau, adeus, pronto, não importa, esquece, é tudo, só isso");
  ("ru", "стоп, отмена, нет, спасибо, пока, до свидания, готово, неважно, забудь, это всё, вот и всё");
  ("zh-hans", "停止, 停, 取消, 不, 谢谢, 再见, 拜拜, 完成, 没关系, 算了, 忘了吧, 就这样, 好了");
  ("ja", "ストップ, 止めて, キャンセル, いいえ, ありがとう, さようなら, バイバイ, 完了, 大丈夫, いいです, 忘れて, 以上, それだけ");
  ("ko", "중지, 멈춰, 취소, 아니, 고마워, 감사, 안녕, 잘가, 완료, 괜찮아, 됐어, 잊어, 그게 다야, 끝");
  ("sv", "stopp, stoppa, avbryt, nej, tack, hej då, adjö, klar, inget problem, glöm det, strunt samma, det var allt");
  ("nb", "stopp, avbryt, nei, takk, ha det, adjø, ferdig, glem det, ikke noe, det var alt");
  ("da", "stop, annuller, nej, tak, farvel, hej, færdig, glem det, ligemeget, det var det hele");
  ("fi", "seis, pysäytä, peruuta, ei, kiitos, näkemiin, hei hei, valmis, ei haittaa, unohda, se oli kaikki");
  ("cs", "stop, zastav, zrušit, ne, díky, děkuji, ahoj, nashledanou, hotovo, nevadí, zapomeň, to je vše");
  ("el", "σταμάτα, στοπ, ακύρωση, όχι, ευχαριστώ, αντίο, γεια, τέλος, δεν πειράζει, άστο, ξέχνα το, αυτό είναι όλο");
  ("tr", "dur, durdur, iptal, hayır, teşekkürler, güle güle, hoşça kal, tamam, bitti, önemli değil, boşver, unut, hepsi bu");
  ("fil", "tigil, hinto, kanselahin, hindi, salamat, paalam, bye, tapos na, okay lang, kalimutan mo, yun lang, ayos na");
  ("ar", "توقف, قف, إلغاء, لا, شكرا, مع السلامة, وداعا, انتهيت, لا بأس, انسى, هذا كل شيء, انتهى")
].

(** [k in d] on a dict literal. *)
Definition key_in {V : Type} (k : string) (d : list (string * V)) : bool :=
  list_in k (dict_keys d).

(** [d[k]] for a key that the literal has. *)
Definition item (d : list (string * string)) (k : string) : string :=
  default "" (dict_get d k).

(** [str.lower()] on ASCII text: the letters [A] to [Z] are replaced, every
    other character is kept.  The language codes below are taken to be
    ASCII. *)
Definition lower_char (c : ascii) : ascii :=
  let n := nat_of_ascii c in
  if (65 <=? n)%nat && (n <=? 90)%nat then ascii_of_nat (n + 32) else c.

Fixpoint lower (s : string) : string :=
  match s with
  | EmptyString => EmptyString
  | String c s' => String (lower_char c) (lower s')
  end.

(** [s.split("-")[0]]: what precedes the first dash, all of [s] without one. *)
Fixpoint before_dash (s : string) : string :=
  match s with
  | EmptyString => EmptyString
  | String c s' => if Ascii.eqb c "-" then EmptyString else String c (before_dash s')
  end.

Definition get_language_instruction (language_code : string) : string :=
  if String.eqb language_code "en" || String.prefix "en-" language_code then ""
  else
    (* Extract base language code *)
    let base_code := lower language_code in
    let base_code :=
      if str_in "-" base_code && negb (key_in base_code LANGUAGE_METADATA)
      then before_dash base_code
      else base_code in
    match dict_get LANGUAGE_METADATA base_code with
    | None => ""
    | Some lang_info =>
        "You are a helpful " ++ english lang_info
        ++ "-speaking Home Assistant voice assistant. "
        ++ "Respond naturally and conversationally to user requests in "
        ++ native lang_info ++ "."
    end.

Definition get_follow_up_phrases (language_code : string) : string :=
  (* Extract base language code *)
  let base_code := lower language_code in
  let base_code :=
    if str_in "-" base_code && negb (key_in base_code FOLLOW_UP_PHRASES)
    then before_dash base_code
    else base_code in
  match dict_get FOLLOW_UP_PHRASES base_code with
  | None | Some EmptyString => item FOLLOW_UP_PHRASES "en"
  | Some phrases => phrases
  end.

Definition get_end_words (language_code : string) : string :=
  (* Extract base language code *)
  let base_code := lower language_code in
  let base_code :=
    if str_in "-" base_code && negb (key_in base_code END_WORDS)
    then before_dash base_code
    else base_code in
  match dict_get END_WORDS base_code with
  | None | Some EmptyString => item END_WORDS "en"
  | Some words => words
  end.

End Localization.

(* ================================================================== *)
(** * Facts about the built-ins *)
(* ================================================================== *)

Module PyFacts.
Import Py.

(** [needle] occurs in [hay]. *)
Definition substring_of (needle hay : string) : Prop :=
  exists before after, hay = before ++ needle ++ after.

Lemma append_cons (c : ascii) (a rest : string) :
  String c a ++ rest = String c (a ++ rest).
Proof. reflexivity. Qed.

Lemma append_empty_l (a : string) : "" ++ a = a.
Proof. reflexivity. Qed.

Lemma prefix_spec (a b : string) :
  String.prefix a b = true <-> exists rest, b = a ++ rest.
Proof.
  revert b. induction a as [|c a IH]; intros b.
  - split; [intros _; exists b; reflexivity | intros _; destruct b; reflexivity].
  - destruct b as [|c' b]; simpl.
    + split; [discriminate | intros [rest H]; discriminate].
    + destruct (ascii_dec c c') as [->|Hne].
      * rewrite IH.
        split; intros [rest H]; exists rest; rewrite append_cons in *; congruence.
      * split; [discriminate | intros [rest H]; rewrite append_cons in H; congruence].
Qed.

Lemma str_in_spec (needle hay : string) :
  str_in needle hay = true <-> substring_of needle hay.
Proof.
  unfold substring_of. induction hay as [|c hay IH].
  - cbn [str_in]. rewrite orb_false_r, prefix_spec. split.
    + intros [rest H]. exists "", rest. exact H.
    + intros [[|c before] [after H]]; [exists after; exact H | discriminate].
  - cbn [str_in]. rewrite orb_true_iff, prefix_spec, IH. split.
    + intros [[rest H] | [before [after H]]].
      * exists "", rest. exact H.
      * exists (String c before), after. rewrite append_cons. congruence.
    + intros [[|c' before] [after H]].
      * left. exists after. exact H.
      * right. exists before, after. rewrite append_cons in H. congruence.
Qed.

Lemma list_in_spec (x : string) (l : list string) :
  list_in x l = true <-> In x l.
Proof.
  unfold list_in. rewrite existsb_exists. split.
  - intros [y [Hy Heq]]. apply String.eqb_eq in Heq. congruence.
  - intros H. exists x. split; [exact H | apply String.eqb_refl].
Qed.

Lemma list_in_false (x : string) (l : list string) :
  list_in x l = false <-> ~ In x l.
Proof.
  rewrite <- list_in_spec. destruct (list_in x l); split; congruence.
Qed.

Lemma dict_get_In {V : Type} (d : list (string * V)) (k : string) (v : V) :
  dict_get d k = Some v -> In (k, v) d.
Proof.
  induction d as [|[k' v'] d IH]; simpl; [discriminate|].
  destruct (String.eqb_spec k k') as [->|Hne].
  - intros [= ->]. left. reflexivity.
  - intros H. right. exact (IH H).
Qed.

Lemma dict_get_keys {V : Type} (d : list (string * V)) (k : string) :
  In k (dict_keys d) <-> exists v, dict_get d k = Some v.
Proof.
  unfold dict_keys. induction d as [|[k' v'] d IH]; simpl.
  - split; [tauto | intros [v H]; discriminate].
  - destruct (String.eqb_spec k k') as [->|Hne].
    + split; [intros _; exists v'; reflexivity | intros _; left; reflexivity].
    + rewrite <- IH. split; [intros [H|H]; [congruence | exact H] | tauto].
Qed.

(** A key that occurs once is bound to the value it is listed with. *)
Lemma dict_get_NoDup {V : Type} (d : list (string * V)) (k : string) (v : V) :
  List.NoDup (dict_keys d) -> In (k, v) d -> dict_get d k = Some v.
Proof.
  unfold dict_keys. induction d as [|[k' v'] d IH]; simpl; [tauto|].
  intros Hnd [H|H].
  - injection H as -> ->. rewrite String.eqb_refl. reflexivity.
  - apply NoDup_cons_iff in Hnd as [Hnotin Hnd].
    destruct (String.eqb_spec k k') as [->|Hne].
    + exfalso. apply Hnotin. apply (in_map fst) in H. exact H.
    + apply IH; assumption.
Qed.

Lemma firstn_nil_iff {A : Type} (n : nat) (l : list A) :
  firstn (S n) l = [] <-> l = [].
Proof. destruct l; simpl; split; congruence. Qed.

End PyFacts.

(* ================================================================== *)
(** * The action registry *)
(* ================================================================== *)

Module RegistryFacts.
Import Py PyFacts Registry.

(** Duplicate-freeness of a list of keys, decided. *)
Fixpoint distinct (l : list string) : bool :=
  match l with
  | [] => true
  | x :: l' => negb (list_in x l') && distinct l'
  end.

Lemma distinct_NoDup (l : list string) : distinct l = true -> List.NoDup l.
Proof.
  induction l as [|x l IH]; simpl; intros H; constructor.
  - apply andb_prop in H as [H _]. apply negb_true_iff in H.
    apply list_in_false. exact H.
  - apply andb_prop in H as [_ H]. exact (IH H).
Qed.

Lemma aliases_NoDup : List.NoDup (dict_keys ACTION_ALIASES).
Proof. apply distinct_NoDup. vm_compute. reflexivity. Qed.

Lemma domains_NoDup : List.NoDup (dict_keys DOMAIN_REGISTRY).
Proof. apply distinct_NoDup. vm_compute. reflexivity. Qed.

Lemma domain_type_eqb_spec (a b : domain_type) :
  domain_type_eqb a b = true <-> a = b.
Proof. destruct a, b; simpl; split; congruence. Qed.

Lemma not_read_only (info : domain_info) :
  di_type info <> TYPE_READ_ONLY ->
  domain_type_eqb (di_type info) TYPE_READ_ONLY = false.
Proof.
  intros H. destruct (domain_type_eqb (di_type info) TYPE_READ_ONLY) eqn:E;
    [apply domain_type_eqb_spec in E; contradiction | reflexivity].
Qed.

(** A name that is one of the domain's services is mapped to itself. *)
Lemma map_service_itself (d s : string) (info : domain_info) :
  get_domain_info d = Some info -> In s (di_services info) ->
  map_action_to_service d s = s.
Proof.
  intros Hd Hs. unfold map_action_to_service. rewrite Hd.
  apply list_in_spec in Hs. rewrite Hs. reflexivity.
Qed.

(** A name that is not a service of the domain and is a key of the alias
    table is mapped to the alias's target. *)
Lemma map_alias (d a b : string) (info : domain_info) :
  get_domain_info d = Some info -> ~ In a (di_services info) ->
  In (a, b) ACTION_ALIASES ->
  map_action_to_service d a = b.
Proof.
  intros Hd Ha Hab. unfold map_action_to_service. rewrite Hd.
  apply list_in_false in Ha. rewrite Ha.
  rewrite (dict_get_NoDup _ _ _ aliases_NoDup Hab). reflexivity.
Qed.

(** A domain outside the read-only class accepts exactly the actions
    that map to one of its services. *)
Lemma validate_controllable (d a : string) (info : domain_info) :
  get_domain_info d = Some info -> di_type info <> TYPE_READ_ONLY ->
  (fst (validate_domain_action d a) = true
     <-> In (map_action_to_service d a) (di_services info))
  /\ (In (map_action_to_service d a) (di_services info) ->
      validate_domain_action d a = (true, map_action_to_service d a)).
Proof.
  intros Hd Ht. unfold validate_domain_action. rewrite Hd, (not_read_only _ Ht).
  destruct (list_in (map_action_to_service d a) (di_services info)) eqn:E.
  - apply list_in_spec in E. simpl. tauto.
  - apply list_in_false in E. split.
    + destruct (di_services info); simpl; split; (discriminate || contradiction).
    + contradiction.
Qed.

Lemma validate_read_only (d a : string) (info : domain_info) :
  get_domain_info d = Some info -> di_type info = TYPE_READ_ONLY ->
  fst (validate_domain_action d a) = false.
Proof.
  intros Hd Ht. unfold validate_domain_action. rewrite Hd, Ht. reflexivity.
Qed.

(** No read-only domain of the table lists the target of an alias. *)
Definition read_only_without_alias_targets : bool :=
  forallb
    (fun '(_, info) =>
       negb (domain_type_eqb (di_type info) TYPE_READ_ONLY)
       || forallb (fun '(_, b) => negb (list_in b (di_services info)))
                  ACTION_ALIASES)
    DOMAIN_REGISTRY.

Lemma read_only_alias_target (a b d : string) (info : domain_info) :
  In (a, b) ACTION_ALIASES -> get_domain_info d = Some info ->
  di_type info = TYPE_READ_ONLY -> ~ In b (di_services info).
Proof.
  intros Hab Hd Ht.
  assert (Hall : read_only_without_alias_targets = true) by (vm_compute; reflexivity).
  unfold read_only_without_alias_targets in Hall.
  rewrite forallb_forall in Hall.
  specialize (Hall (d, info) (dict_get_In _ _ _ Hd)). cbv beta iota in Hall.
  rewrite Ht in Hall. cbn [domain_type_eqb negb orb] in Hall.
  rewrite forallb_forall in Hall. specialize (Hall (a, b) Hab).
  cbv beta iota in Hall.
  apply negb_true_iff in Hall. apply list_in_false. exact Hall.
Qed.

(** A service of a domain that is not read-only is accepted as it is. *)
Lemma validate_own_service (d s : string) (info : domain_info) :
  get_domain_info d = Some info -> In s (di_services info) ->
  di_type info <> TYPE_READ_ONLY -> validate_domain_action d s = (true, s).
Proof.
  intros Hd Hs Ht.
  destruct (validate_controllable d s info Hd Ht) as [_ H].
  rewrite (map_service_itself d s info Hd Hs) in H. exact (H Hs).
Qed.

(** ** C1 *)

(** C1, as stated, fails: [weather] is a registry domain that lists the
    service [get_forecast], and is read-only, so the action is rejected. *)
Lemma known_service_rejected :
  ~ (forall (d s : string) (info : domain_info),
       get_domain_info d = Some info -> In s (di_services info) ->
       validate_domain_action d s = (true, s)).
Proof.
  intros H.
  specialize (H "weather" "get_forecast" _ eq_refl (or_introl eq_refl)).
  vm_compute in H. discriminate H.
Qed.

(** C1, amended: for every domain [d] of the registry and every service
    [s] in [d]'s allowed services, [validate_domain_action d s] succeeds
    with exactly [s] when [d] is not read-only, and is rejected when [d]
    is read-only. *)
Theorem known_service_accepted (d s : string) (info : domain_info) :
  get_domain_info d = Some info -> In s (di_services info) ->
  (di_type info <> TYPE_READ_ONLY -> validate_domain_action d s = (true, s))
  /\ (di_type info = TYPE_READ_ONLY -> fst (validate_domain_action d s) = false).
Proof.
  intros Hd Hs. split.
  - intros Ht. exact (validate_own_service d s info Hd Hs Ht).
  - intros Ht. exact (validate_read_only d s info Hd Ht).
Qed.

Lemma known_service_accepted_witness :
  validate_domain_action "light" "turn_on" = (true, "turn_on")
  /\ fst (validate_domain_action "weather" "get_forecast") = false.
Proof.
  split.
  - refine (proj1 (known_service_accepted "light" "turn_on" _ eq_refl _) _).
    + simpl. tauto.
    + simpl. discriminate.
  - refine (proj2 (known_service_accepted "weather" "get_forecast" _ eq_refl _) _).
    + simpl. tauto.
    + reflexivity.
Defined.

(** ** C2 *)

(** C2, as stated, fails: [open] is an alias of [open_cover], the domain
    [lock] has no service [open_cover], and still [open] is accepted for
    [lock], as the service [open] it already names. *)
Lemma alias_iff_fails :
  ~ (forall (a b d : string) (info : domain_info),
       In (a, b) ACTION_ALIASES -> get_domain_info d = Some info ->
       (fst (validate_domain_action d a) = true <-> In b (di_services info))
       /\ (fst (validate_domain_action d a) = true ->
           snd (validate_domain_action d a) = b)).
Proof.
  intros H.
  destruct (H "open" "open_cover" "lock" _
              ltac:(simpl; tauto) eq_refl) as [_ Hyield].
  specialize (Hyield eq_refl). vm_compute in Hyield. discriminate Hyield.
Qed.

(** C2, amended: for every alias [a -> b] of the table and every domain
    [d] of the registry, when [a] is not itself one of [d]'s services,
    [validate_domain_action d a] succeeds if and only if [b] is one of
    [d]'s services, and then yields [b]; when [a] is itself a service of
    a domain that is not read-only, it is accepted unchanged. *)
Theorem alias_resolution (a b d : string) (info : domain_info) :
  In (a, b) ACTION_ALIASES -> get_domain_info d = Some info ->
  (~ In a (di_services info) ->
     (fst (validate_domain_action d a) = true <-> In b (di_services info))
     /\ (In b (di_services info) -> validate_domain_action d a = (true, b)))
  /\ (In a (di_services info) -> di_type info <> TYPE_READ_ONLY ->
      validate_domain_action d a = (true, a)).
Proof.
  intros Hab Hd. split.
  - intros Ha.
    destruct (domain_type_eqb (di_type info) TYPE_READ_ONLY) eqn:Et.
    + apply domain_type_eqb_spec in Et.
      pose proof (read_only_alias_target a b d info Hab Hd Et) as Hb.
      pose proof (validate_read_only d a info Hd Et) as Hv.
      split; [rewrite Hv; split; [discriminate | contradiction] | contradiction].
    + assert (Ht : di_type info <> TYPE_READ_ONLY).
      { intros E. apply domain_type_eqb_spec in E. congruence. }
      pose proof (validate_controllable d a info Hd Ht) as H.
      rewrite (map_alias d a b info Hd Ha Hab) in H. exact H.
  - intros Ha Ht. exact (validate_own_service d a info Hd Ha Ht).
Qed.

Lemma alias_resolution_witness :
  validate_domain_action "light" "activate" = (true, "turn_on")
  /\ validate_domain_action "lock" "open" = (true, "open").
Proof.
  split.
  - refine (proj2 (proj1 (alias_resolution "activate" "turn_on" "light" _ _ eq_refl) _) _).
    + simpl. tauto.
    + simpl. intuition discriminate.
    + simpl. tauto.
  - refine (proj2 (alias_resolution "open" "open_cover" "lock" _ _ eq_refl) _ _).
    + simpl. tauto.
    + simpl. tauto.
    + simpl. discriminate.
Defined.

(** ** C7 *)

Lemma similar_domains_spec (d k : string) :
  In k (similar_domains d)
  <-> (exists info, get_domain_info k = Some info)
      /\ (substring_of d k \/ substring_of k d).
Proof.
  unfold similar_domains, get_domain_info.
  rewrite filter_In, dict_get_keys, orb_true_iff, !str_in_spec. tauto.
Qed.

Lemma In_firstn {A : Type} (n : nat) (l : list A) (x : A) :
  In x (firstn n l) -> In x l.
Proof.
  revert l. induction n as [|n IH]; intros [|y l]; simpl; try tauto.
  intros [H|H]; [left; exact H | right; exact (IH _ H)].
Qed.

(** C7: for every domain name [d] that is not in the registry and every
    action [a], [validate_domain_action d a] is a rejection whose message
    names [d] as not supported; the domains it suggests are the first
    three, at most, of the registry domains that contain [d] or are
    contained in [d]; when there is no such domain the message carries no
    suggestion. *)
Theorem unknown_domain_rejected (d a : string) :
  get_domain_info d = None ->
  exists suggestions : list string,
    suggestions = firstn 3 (similar_domains d)
    /\ (length suggestions <= 3)%nat
    /\ (forall k, In k suggestions ->
          (exists info, get_domain_info k = Some info)
          /\ (substring_of d k \/ substring_of k d))
    /\ (suggestions = [] <->
          forall k info, get_domain_info k = Some info ->
                         ~ (substring_of d k \/ substring_of k d))
    /\ validate_domain_action d a =
         (false,
          match suggestions with
          | [] => "Domain '" ++ d
                  ++ "' not supported. Use 'list_domains' to see available domains."
          | _ :: _ => "Domain '" ++ d ++ "' not supported. Did you mean: "
                      ++ join ", " suggestions ++ "?"
          end).
Proof.
  intros Hd. exists (firstn 3 (similar_domains d)).
  split; [reflexivity|]. split; [apply firstn_le_length|].
  split; [intros k Hk; apply similar_domains_spec; exact (In_firstn _ _ _ Hk)|].
  split.
  - rewrite firstn_nil_iff. split.
    + intros Hnil k info Hk Hsub.
      assert (Hin : In k (similar_domains d))
        by (apply similar_domains_spec; eauto).
      rewrite Hnil in Hin. exact Hin.
    + intros Hnone. destruct (similar_domains d) as [|k l] eqn:E; [reflexivity|].
      assert (Hin : In k (similar_domains d)) by (rewrite E; left; reflexivity).
      apply similar_domains_spec in Hin as [[info Hk] Hsub].
      exfalso. exact (Hnone k info Hk Hsub).
  - unfold validate_domain_action. rewrite Hd. unfold slice_to.
    destruct (similar_domains d) as [|k l]; reflexivity.
Qed.

Lemma unknown_domain_rejected_witness :
  exists suggestions : list string,
    suggestions = firstn 3 (similar_domains "input")
    /\ (length suggestions <= 3)%nat
    /\ (forall k, In k suggestions ->
          (exists info, get_domain_info k = Some info)
          /\ (substring_of "input" k \/ substring_of k "input"))
    /\ (suggestions = [] <->
          forall k info, get_domain_info k = Some info ->
                         ~ (substring_of "input" k \/ substring_of k "input"))
    /\ validate_domain_action "input" "turn_on" =
         (false,
          match suggestions with
          | [] => "Domain '" ++ "input"
                  ++ "' not supported. Use 'list_domains' to see available domains."
          | _ :: _ => "Domain '" ++ "input" ++ "' not supported. Did you mean: "
                      ++ join ", " suggestions ++ "?"
          end).
Proof. apply (unknown_domain_rejected "input" "turn_on"). reflexivity. Defined.

(** The two messages, on concrete unknown domains. *)
Example unknown_domain_with_suggestions :
  validate_domain_action "input" "turn_on"
  = (false, "Domain 'input' not supported. Did you mean: input_boolean, input_number, input_text?").
Proof. vm_compute. reflexivity. Qed.

Example unknown_domain_without_suggestions :
  validate_domain_action "not_a_domain" "x"
  = (false, "Domain 'not_a_domain' not supported. Use 'list_domains' to see available domains.").
Proof. vm_compute. reflexivity. Qed.

(** ** C6 and C10 *)

Section Parameters.
Context {Any : Type}.
Implicit Types provided : gmap string Any.

(** The required parameters of [d.s] that [provided] has no key for,
    in the order the registry lists them. *)
Definition absent_required (d s : string) provided : list string :=
  List.filter (fun k => bool_decide (provided !! k = None))
              (pl_required (get_service_parameters d s)).

Lemma absent_required_spec (d s : string) provided (k : string) :
  In k (absent_required d s provided)
  <-> In k (pl_required (get_service_parameters d s)) /\ provided !! k = None.
Proof.
  unfold absent_required. rewrite filter_In, bool_decide_eq_true. tauto.
Qed.

Lemma not_in_dict provided (k : string) :
  negb (bool_decide (is_Some (provided !! k)))
  = bool_decide (provided !! k = None).
Proof.
  destruct (provided !! k) as [v|] eqn:E.
  - rewrite (bool_decide_eq_true_2 _ (mk_is_Some _ _ eq_refl)).
    symmetry. apply bool_decide_eq_false_2. discriminate.
  - rewrite (bool_decide_eq_false_2 (is_Some None)), (bool_decide_eq_true_2 (None = None));
      [reflexivity | reflexivity | apply is_Some_None].
Qed.

Lemma validate_service_parameters_eq (d s : string) provided :
  validate_service_parameters d s provided =
    match absent_required d s provided with
    | [] => (true, "Parameters valid")
    | _ :: _ =>
        (false, "Missing required parameters for " ++ d ++ "." ++ s ++ ": "
                ++ join ", " (absent_required d s provided))
    end.
Proof.
  unfold validate_service_parameters, absent_required.
  rewrite (filter_ext _ _ (not_in_dict provided)).
  destruct (List.filter _ _); reflexivity.
Qed.

Lemma absent_required_agree (d s : string) provided provided' :
  (forall k, In k (pl_required (get_service_parameters d s)) ->
             (provided !! k = None <-> provided' !! k = None)) ->
  absent_required d s provided' = absent_required d s provided.
Proof.
  intros H. unfold absent_required. apply filter_ext_in. intros k Hk.
  apply bool_decide_ext. symmetry. exact (H k Hk).
Qed.

End Parameters.

(** C6: [validate_service_parameters d s provided] is rejected, with a
    message that lists exactly the required parameters of [d.s] that
    [provided] has no key for, when there is such a parameter, and
    succeeds otherwise; two mappings with the same required keys get the
    same answer, whatever optional or unknown keys they hold.  For
    [cover.set_cover_position] the empty mapping is rejected for
    [position], and a mapping of [position] to [50] is accepted. *)
Theorem required_parameters_checked :
  (forall (Any : Type) (d s : string) (provided : gmap string Any),
     (forall k, In k (absent_required d s provided)
                <-> In k (pl_required (get_service_parameters d s))
                    /\ provided !! k = None)
     /\ (absent_required d s provided <> [] ->
         validate_service_parameters d s provided =
           (false, "Missing required parameters for " ++ d ++ "." ++ s ++ ": "
                   ++ join ", " (absent_required d s provided)))
     /\ (absent_required d s provided = [] ->
         validate_service_parameters d s provided = (true, "Parameters valid"))
     /\ (forall provided' : gmap string Any,
           (forall k, In k (pl_required (get_service_parameters d s)) ->
                      (provided !! k = None <-> provided' !! k = None)) ->
           validate_service_parameters d s provided'
           = validate_service_parameters d s provided))
  /\ absent_required "cover" "set_cover_position" (∅ : gmap string Z) = ["position"]
  /\ validate_service_parameters "cover" "set_cover_position" (∅ : gmap string Z)
     = (false, "Missing required parameters for cover.set_cover_position: position")
  /\ validate_service_parameters "cover" "set_cover_position"
       ({[ "position" := 50 ]} : gmap string Z)
     = (true, "Parameters valid").
Proof.
  split; [|repeat split; vm_compute; reflexivity].
  intros Any d s provided.
  split; [apply absent_required_spec|].
  split; [|split].
  - intros Hne. rewrite validate_service_parameters_eq.
    destruct (absent_required d s provided); [contradiction | reflexivity].
  - intros Hnil. rewrite validate_service_parameters_eq, Hnil. reflexivity.
  - intros provided' Hagree.
    rewrite !validate_service_parameters_eq.
    rewrite (absent_required_agree d s provided provided' Hagree). reflexivity.
Qed.

Lemma required_parameters_checked_witness :
  validate_service_parameters "tts" "speak" ({[ "message" := 1 ]} : gmap string Z)
  = (false, "Missing required parameters for tts.speak: media_player_entity_id")
  /\ validate_service_parameters "tts" "speak"
       ({[ "message" := 1; "media_player_entity_id" := 2; "volume" := 3 ]}
          : gmap string Z)
     = (true, "Parameters valid").
Proof.
  split.
  - refine (eq_trans
              (proj1 (proj2 (proj1 required_parameters_checked Z "tts" "speak" _)) _) _).
    + vm_compute. discriminate.
    + vm_compute. reflexivity.
  - apply (proj1 (proj2 (proj2 (proj1 required_parameters_checked Z "tts" "speak" _)))).
    vm_compute. reflexivity.
Defined.

(** C10: for a domain that is not in the registry, and for a service that
    has no entry in the parameter map of its domain, every mapping is
    accepted; and whatever the domain and the service, the answer is
    either the acceptance or the list of missing required parameters,
    never a report of an unknown domain or service. *)
Theorem unknown_service_has_no_requirements
    (Any : Type) (d s : string) (provided : gmap string Any) :
  (get_domain_info d = None
   \/ exists info, get_domain_info d = Some info
                   /\ dict_get (di_parameters info) s = None) ->
  pl_required (get_service_parameters d s) = []
  /\ validate_service_parameters d s provided = (true, "Parameters valid")
  /\ forall (d' s' : string) (provided' : gmap string Any),
       validate_service_parameters d' s' provided' = (true, "Parameters valid")
       \/ exists missing, missing <> []
            /\ validate_service_parameters d' s' provided' =
                 (false, "Missing required parameters for " ++ d' ++ "." ++ s'
                         ++ ": " ++ join ", " missing).
Proof.
  intros H.
  assert (Hreq : pl_required (get_service_parameters d s) = []).
  { unfold get_service_parameters.
    destruct H as [-> | [info [-> ->]]]; reflexivity. }
  split; [exact Hreq|]. split.
  - rewrite validate_service_parameters_eq. unfold absent_required.
    rewrite Hreq. reflexivity.
  - intros d' s' provided'. rewrite validate_service_parameters_eq.
    destruct (absent_required d' s' provided') as [|k l] eqn:E.
    + left. reflexivity.
    + right. exists (k :: l). split; [discriminate | reflexivity].
Qed.

Lemma unknown_service_has_no_requirements_witness :
  validate_service_parameters "not_a_domain" "turn_on" (∅ : gmap string Z)
  = (true, "Parameters valid")
  /\ validate_service_parameters "switch" "turn_on" ({[ "extra" := 1 ]} : gmap string Z)
     = (true, "Parameters valid").
Proof.
  split.
  - apply (unknown_service_has_no_requirements Z "not_a_domain" "turn_on" ∅).
    left. reflexivity.
  - apply (unknown_service_has_no_requirements Z "switch" "turn_on" {[ "extra" := 1 ]}).
    right. eexists. split; reflexivity.
Defined.

End RegistryFacts.

(* ================================================================== *)
(** * The conversation history *)
(* ================================================================== *)

Module HistoryFacts.
Import Py PyFacts History.

(** The turns of [l] that are younger than [max_history_age] at [now]. *)
Definition fresh (self : ConversationHistory) (now : Z) (l : list turn) : list turn :=
  List.filter (fun t => now - max_history_age self <? timestamp t) l.

(** The last [n] items of [l], in the order of [l]. *)
Definition most_recent {A : Type} (n : nat) (l : list A) : list A :=
  skipn (length l - n) l.

(** The count limit of [_cleanup_conversation], as the code applies it. *)
Definition limited {A : Type} (n : Z) (l : list A) : list A :=
  if n <? Z.of_nat (length l) then slice_from (- n) l else l.

(** What a dict holds for a conversation after the cleanup. *)
Definition stored (l : list turn) : option (list turn) :=
  match l with
  | [] => None
  | _ :: _ => Some l
  end.

(** No conversation id maps to an empty sequence. *)
Definition no_empty_entry (self : ConversationHistory) : Prop :=
  forall cid, _conversations self !! cid <> Some [].

Lemma limited_positive {A : Type} (n : Z) (l : list A) :
  1 <= n -> limited n l = most_recent (Z.to_nat n) l.
Proof.
  intros Hn. unfold limited, most_recent, slice_from.
  destruct (Z.ltb_spec n (Z.of_nat (length l))) as [Hlt|Hge].
  - destruct (Z.ltb_spec (- n) 0) as [_|Hneg]; [|lia].
    f_equal. lia.
  - replace (length l - Z.to_nat n)%nat with 0%nat by lia. reflexivity.
Qed.

(** With a limit of zero the slice [l[-0:]] is all of [l]. *)
Lemma limited_zero {A : Type} (l : list A) : limited 0 l = l.
Proof.
  unfold limited, slice_from.
  destruct (Z.ltb_spec 0 (Z.of_nat (length l))); [|reflexivity].
  change (- 0 <? 0) with false. cbv iota. change (- 0) with 0.
  rewrite Z.min_l by lia. reflexivity.
Qed.

Lemma most_recent_length {A : Type} (n : nat) (l : list A) :
  (length (most_recent n l) <= n)%nat.
Proof. unfold most_recent. rewrite length_skipn. lia. Qed.

Lemma most_recent_suffix {A : Type} (n : nat) (l : list A) :
  exists dropped, l = (dropped ++ most_recent n l)%list
                  /\ length dropped = (length l - n)%nat.
Proof.
  unfold most_recent. exists (firstn (length l - n) l). split.
  - symmetry. apply firstn_skipn.
  - rewrite length_firstn. lia.
Qed.

Lemma fresh_young (self : ConversationHistory) (now : Z) (l : list turn) :
  List.Forall (fun t => now - timestamp t < max_history_age self) (fresh self now l).
Proof.
  apply List.Forall_forall. intros t Ht. unfold fresh in Ht.
  apply filter_In in Ht as [_ Ht]. apply Z.ltb_lt in Ht. lia.
Qed.

Lemma most_recent_Forall {A : Type} (P : A -> Prop) (n : nat) (l : list A) :
  List.Forall P l -> List.Forall P (most_recent n l).
Proof.
  intros H. destruct (most_recent_suffix n l) as [dropped [E _]].
  rewrite E in H. apply List.Forall_app in H. tauto.
Qed.

Lemma stored_not_empty (l : list turn) : stored l <> Some [].
Proof. destruct l; simpl; congruence. Qed.

Lemma stored_Some (l k : list turn) : stored l = Some k -> k = l /\ l <> [].
Proof. destruct l; simpl; [discriminate | intros [= <-]; split; congruence]. Qed.

(** The conversation [_cleanup_conversation] is called for. *)
Lemma cleanup_lookup (self : ConversationHistory) (cid : string) (now : Z) :
  _conversations (_cleanup_conversation self cid now) !! cid
  = match _conversations self !! cid with
    | Some old => stored (limited (max_turns self) (fresh self now old))
    | None => None
    end.
Proof.
  unfold _cleanup_conversation.
  destruct (_conversations self !! cid) as [old|] eqn:E; [|exact E].
  fold (fresh self now old). fold (limited (max_turns self) (fresh self now old)).
  destruct (limited (max_turns self) (fresh self now old)) as [|t l]; simpl.
  - apply lookup_delete_eq.
  - apply lookup_insert_eq.
Qed.

(** The other conversations. *)
Lemma cleanup_lookup_ne (self : ConversationHistory) (cid cid' : string) (now : Z) :
  cid' <> cid ->
  _conversations (_cleanup_conversation self cid now) !! cid'
  = _conversations self !! cid'.
Proof.
  intros Hne. unfold _cleanup_conversation.
  destruct (_conversations self !! cid) as [old|]; [|reflexivity].
  match goal with |- context [match ?x with [] => _ | _ :: _ => _ end] => destruct x end;
    simpl; [apply lookup_delete_ne | apply lookup_insert_ne]; congruence.
Qed.

Lemma cleanup_config (self : ConversationHistory) (cid : string) (now : Z) :
  max_turns (_cleanup_conversation self cid now) = max_turns self
  /\ max_history_age (_cleanup_conversation self cid now) = max_history_age self.
Proof.
  unfold _cleanup_conversation.
  destruct (_conversations self !! cid) as [old|]; [|tauto].
  match goal with |- context [match ?x with [] => _ | _ :: _ => _ end] => destruct x end;
    simpl; tauto.
Qed.

Lemma cleanup_no_empty (self : ConversationHistory) (cid : string) (now : Z) :
  no_empty_entry self -> no_empty_entry (_cleanup_conversation self cid now).
Proof.
  intros H cid'. destruct (decide (cid' = cid)) as [->|Hne].
  - rewrite cleanup_lookup. destruct (_conversations self !! cid);
      [apply stored_not_empty | discriminate].
  - rewrite (cleanup_lookup_ne _ _ _ _ Hne). apply H.
Qed.

(** The turn [add_turn] appends. *)
Definition new_turn (user_message assistant_message : string)
    (actions : option (list action)) (now_turn : Z) : turn :=
  {| timestamp := now_turn; user := user_message; assistant := assistant_message;
     actions := default [] actions |}.

Lemma add_turn_store (self : ConversationHistory) (cid u a : string)
    (acts : option (list action)) (t1 t2 : Z) :
  exists appended,
    snd (add_turn self cid u a acts t1 t2)
    = _cleanup_conversation (set_conversations self appended) cid t2
    /\ appended !! cid
       = Some (default [] (_conversations self !! cid) ++ [new_turn u a acts t1])%list
    /\ forall cid', cid' <> cid -> appended !! cid' = _conversations self !! cid'.
Proof.
  unfold add_turn. cbv zeta. fold (new_turn u a acts t1).
  match goal with |- context [set_conversations self ?m] => exists m end.
  split; [|split].
  - match goal with |- snd (match ?x with Some _ => _ | None => _ end) = _ =>
      destruct x end; reflexivity.
  - rewrite lookup_alter_eq.
    destruct (_conversations self !! cid) as [old|] eqn:E; simpl.
    + rewrite E. reflexivity.
    + rewrite lookup_insert_eq. reflexivity.
  - intros cid' Hne. rewrite lookup_alter_ne by congruence.
    destruct (_conversations self !! cid); [reflexivity|].
    apply lookup_insert_ne. congruence.
Qed.

Lemma add_turn_lookup (self : ConversationHistory) (cid u a : string)
    (acts : option (list action)) (t1 t2 : Z) :
  _conversations (snd (add_turn self cid u a acts t1 t2)) !! cid
  = stored (limited (max_turns self)
              (fresh self t2
                 (default [] (_conversations self !! cid)
                  ++ [new_turn u a acts t1])%list)).
Proof.
  destruct (add_turn_store self cid u a acts t1 t2) as [m [-> [Hm _]]].
  rewrite cleanup_lookup. simpl. rewrite Hm. reflexivity.
Qed.

Lemma add_turn_lookup_ne (self : ConversationHistory) (cid cid' u a : string)
    (acts : option (list action)) (t1 t2 : Z) :
  cid' <> cid ->
  _conversations (snd (add_turn self cid u a acts t1 t2)) !! cid'
  = _conversations self !! cid'.
Proof.
  intros Hne.
  destruct (add_turn_store self cid u a acts t1 t2) as [m [-> [_ Hm]]].
  rewrite (cleanup_lookup_ne _ _ _ _ Hne). simpl. exact (Hm cid' Hne).
Qed.

Lemma get_history_store (self : ConversationHistory) (cid : string) (now : Z) :
  snd (get_history self cid now) = _cleanup_conversation self cid now.
Proof.
  unfold get_history.
  destruct (_conversations self !! cid) as [old|] eqn:E.
  - destruct (_conversations (_cleanup_conversation self cid now) !! cid);
      reflexivity.
  - unfold _cleanup_conversation. rewrite E. reflexivity.
Qed.

(** What the cleanup leaves of a conversation [old], at [now], under a
    limit of at least one turn: the turns are young, at most [max_turns],
    and the most recent of the young turns of [old], in their order. *)
Lemma retained_properties (self : ConversationHistory) (now : Z)
    (old turns : list turn) :
  1 <= max_turns self ->
  stored (limited (max_turns self) (fresh self now old)) = Some turns ->
  turns <> []
  /\ turns = most_recent (Z.to_nat (max_turns self)) (fresh self now old)
  /\ List.Forall (fun t => now - timestamp t < max_history_age self) turns
  /\ Z.of_nat (length turns) <= max_turns self.
Proof.
  intros Hn H. apply stored_Some in H as [-> Hne].
  rewrite (limited_positive _ _ Hn) in *.
  split; [exact Hne|]. split; [reflexivity|]. split.
  - apply most_recent_Forall, fresh_young.
  - pose proof (most_recent_length (Z.to_nat (max_turns self)) (fresh self now old)).
    lia.
Qed.

(** The invariant of the store, for a limit of at least one turn, after
    [add_turn]. *)
Theorem add_turn_invariant (self : ConversationHistory) (cid u a : string)
    (acts : option (list action)) (t1 t2 : Z) :
  1 <= max_turns self -> no_empty_entry self ->
  let self' := snd (add_turn self cid u a acts t1 t2) in
  no_empty_entry self'
  /\ forall turns, _conversations self' !! cid = Some turns ->
       turns = most_recent (Z.to_nat (max_turns self))
                 (fresh self t2 (default [] (_conversations self !! cid)
                                 ++ [new_turn u a acts t1])%list)
       /\ List.Forall (fun t => t2 - timestamp t < max_history_age self) turns
       /\ Z.of_nat (length turns) <= max_turns self.
Proof.
  intros Hn Hinv self'. split.
  - intros cid'. subst self'. destruct (decide (cid' = cid)) as [->|Hne].
    + rewrite add_turn_lookup. apply stored_not_empty.
    + rewrite (add_turn_lookup_ne _ _ _ _ _ _ _ _ Hne). apply Hinv.
  - intros turns H. subst self'. rewrite add_turn_lookup in H.
    apply (retained_properties self t2 _ turns Hn) in H. tauto.
Qed.

(** The same, after the eviction [get_history] runs. *)
Theorem get_history_invariant (self : ConversationHistory) (cid : string) (now : Z) :
  1 <= max_turns self -> no_empty_entry self ->
  let self' := snd (get_history self cid now) in
  no_empty_entry self'
  /\ forall turns, _conversations self' !! cid = Some turns ->
       exists old, _conversations self !! cid = Some old
         /\ turns = most_recent (Z.to_nat (max_turns self)) (fresh self now old)
         /\ List.Forall (fun t => now - timestamp t < max_history_age self) turns
         /\ Z.of_nat (length turns) <= max_turns self.
Proof.
  intros Hn Hinv self'. subst self'. rewrite get_history_store. split.
  - apply cleanup_no_empty, Hinv.
  - intros turns H. rewrite cleanup_lookup in H.
    destruct (_conversations self !! cid) as [old|]; [|discriminate].
    exists old. split; [reflexivity|].
    apply (retained_properties self now _ turns Hn) in H. tauto.
Qed.

Lemma init_no_empty (hours limit : Z) : no_empty_entry (__init__ hours limit).
Proof. intros cid. unfold __init__. simpl. rewrite lookup_empty. discriminate. Qed.

(** Turns [first .. first + count - 1], one per clock tick, added to [self]. *)
Fixpoint add_turns (self : ConversationHistory) (cid : string) (first : Z)
    (count : nat) : ConversationHistory :=
  match count with
  | O => self
  | S count' =>
      add_turns (snd (add_turn self cid "request" "reply" None first first))
                cid (first + 1) count'
  end.

(** Adding 25 turns under a limit of 20 leaves exactly the 20 most
    recent ones, oldest first. *)
Example twenty_of_twenty_five :
  List.map timestamp <$> _conversations (add_turns (__init__ 24 20) "c" 1 25) !! "c"
  = Some [6; 7; 8; 9; 10; 11; 12; 13; 14; 15; 16; 17; 18; 19; 20; 21; 22; 23; 24; 25].
Proof. vm_compute. reflexivity. Qed.

(** ** C3 *)

(** C3 fails for a limit of zero turns: the slice [conversation[-0:]] of
    [_cleanup_conversation] is the whole conversation, so after [add_turn]
    the conversation holds one turn, more than [max_turns]. *)
Theorem zero_limit_keeps_turns :
  let self := snd (add_turn (__init__ 24 0) "c" "hi" "hello" None 100 101) in
  max_turns self = 0
  /\ _conversations self !! "c"
     = Some [ {| timestamp := 100; user := "hi"; assistant := "hello"; actions := [] |} ]
  /\ exists turns, _conversations self !! "c" = Some turns
                   /\ max_turns self < Z.of_nat (length turns).
Proof.
  split; [|split]; [vm_compute; reflexivity ..|].
  eexists. split; [vm_compute; reflexivity | vm_compute; reflexivity].
Qed.

(** ** C8 *)

(** The phrase that summarises one action record, after the
    specification: an [intent_executed] record reads
    [Executed {intent} on {entities}], an [entities_mentioned] record
    reads [Referenced entities: {entities}], any other record gives
    nothing. *)
Definition action_phrase (a : action) : list string :=
  if opt_str_eqb (act_type a) "intent_executed" then
    ["Executed " ++ default "" (act_intent a) ++ " on "
     ++ join ", " (default [] (act_entity_ids a))]
  else if opt_str_eqb (act_type a) "entities_mentioned" then
    ["Referenced entities: " ++ join ", " (default [] (act_entity_ids a))]
  else [].

(** The lines of one turn, after the specification. *)
Definition turn_lines (t : turn) : list string :=
  ["User: " ++ user t; "Assistant: " ++ assistant t]
  ++ match flat_map action_phrase (actions t) with
     | [] => []
     | phrases => ["Actions: " ++ join "; " phrases]
     end.

(** The last [min(max_turns, len(history))] turns. *)
Definition last_turns (max_turns : Z) (history : list turn) : list turn :=
  most_recent (Z.to_nat (Z.min max_turns (Z.of_nat (length history)))) history.

(** An [intent_executed] record carries its ["intent"]. *)
Definition has_intent (a : action) : Prop :=
  opt_str_eqb (act_type a) "intent_executed" = true -> act_intent a <> None.

Definition well_formed (t : turn) : Prop := List.Forall has_intent (actions t).

Lemma summarize_action_spec (a : action) (summary : list string) :
  has_intent a ->
  summarize_action a summary = Returns (summary ++ action_phrase a)%list.
Proof.
  intros H. unfold summarize_action, action_phrase, has_intent in *.
  destruct (opt_str_eqb (act_type a) "intent_executed").
  - destruct (act_intent a) as [intent|]; [reflexivity | exfalso; exact (H eq_refl eq_refl)].
  - destruct (opt_str_eqb (act_type a) "entities_mentioned");
      [reflexivity | rewrite app_nil_r; reflexivity].
Qed.

Lemma for_each_summarize (l : list action) (summary : list string) :
  List.Forall has_intent l ->
  for_each summarize_action l summary
  = Returns (summary ++ flat_map action_phrase l)%list.
Proof.
  intros H. revert summary.
  induction H as [|a l Ha _ IH]; intros summary; simpl.
  - rewrite app_nil_r. reflexivity.
  - rewrite (summarize_action_spec a summary Ha), IH, <- app_assoc. reflexivity.
Qed.

Lemma append_turn_spec (t : turn) (parts : list string) :
  well_formed t -> append_turn t parts = Returns (parts ++ turn_lines t)%list.
Proof.
  intros H. unfold append_turn, turn_lines, well_formed in *. cbv zeta.
  pose proof (for_each_summarize (actions t) [] H) as Hs.
  rewrite app_nil_l in Hs.
  destruct (actions t) as [|a l].
  - rewrite <- app_assoc. reflexivity.
  - rewrite Hs. destruct (flat_map action_phrase (a :: l)) as [|p ps].
    + rewrite <- app_assoc. reflexivity.
    + rewrite <- !app_assoc. reflexivity.
Qed.

Lemma for_each_append_turn (l : list turn) (parts : list string) :
  List.Forall well_formed l ->
  for_each append_turn l parts = Returns (parts ++ flat_map turn_lines l)%list.
Proof.
  intros H. revert parts.
  induction H as [|t l Ht _ IH]; intros parts; simpl.
  - rewrite app_nil_r. reflexivity.
  - rewrite (append_turn_spec t parts Ht), IH, <- app_assoc. reflexivity.
Qed.

Lemma recent_turns_positive (max_turns : Z) (history : list turn) :
  1 <= max_turns ->
  (if max_turns <? Z.of_nat (length history)
   then slice_from (- max_turns) history else history)
  = last_turns max_turns history.
Proof.
  intros Hn. fold (limited max_turns history).
  rewrite (limited_positive _ _ Hn). unfold last_turns, most_recent.
  f_equal. lia.
Qed.

(** A store with one conversation of two turns, the first with actions. *)
Definition two_turns : ConversationHistory :=
  let executed :=
    {| act_type := Some "intent_executed"; act_intent := Some "HassTurnOn";
       act_entity_ids := Some ["light.kitchen"; "light.hall"] |} in
  let mentioned :=
    {| act_type := Some "entities_mentioned"; act_intent := None;
       act_entity_ids := Some ["light.kitchen"] |} in
  let self := __init__ 24 20 in
  let self := snd (add_turn self "c" "lights on" "done" (Some [executed; mentioned])
                     100 101) in
  snd (add_turn self "c" "thanks" "welcome" None 200 201).

Example recent_context_of_two_turns :
  fst (get_recent_context two_turns "c" 3 300)
  = Returns ("Recent conversation:" ++ LF
             ++ "User: lights on" ++ LF
             ++ "Assistant: done" ++ LF
             ++ "Actions: Executed HassTurnOn on light.kitchen, light.hall; "
             ++ "Referenced entities: light.kitchen" ++ LF
             ++ "User: thanks" ++ LF
             ++ "Assistant: welcome").
Proof. vm_compute. reflexivity. Qed.

(** C8, as stated, fails: the text does not consist of the lines of the
    turns and nothing else, it opens with the line [Recent conversation:]. *)
Lemma recent_context_has_header :
  ~ (forall (self self' : ConversationHistory) (cid : string) (max_turns now : Z)
            (history : list turn),
       get_history self cid now = (Returns history, self') -> history <> [] ->
       get_recent_context self cid max_turns now
       = (Returns (join LF (flat_map turn_lines (last_turns max_turns history))),
          self')).
Proof.
  intros H.
  pose (self := snd (add_turn (__init__ 24 20) "c" "hi" "hello" None 100 101)).
  specialize (H self self "c" 3 200
                [ {| timestamp := 100; user := "hi"; assistant := "hello";
                     actions := [] |} ]).
  assert (Hh : get_history self "c" 200
               = (Returns [ {| timestamp := 100; user := "hi"; assistant := "hello";
                               actions := [] |} ], self))
    by (vm_compute; reflexivity).
  specialize (H Hh ltac:(discriminate)).
  apply (f_equal fst) in H. vm_compute in H. discriminate H.
Qed.

(** C8, amended: [get_recent_context] returns the empty string when the
    conversation id has no history; when the eviction leaves a non-empty
    history, [max_turns] is at least one and every [intent_executed]
    record of the turns to render carries its ["intent"], it returns the
    line [Recent conversation:] followed, for each of the last
    [min(max_turns, length)] turns in order, by a line [User: ...], a line
    [Assistant: ...] and, only for a turn with action records, a line
    [Actions: ...] that joins with ["; "] the phrases of its
    [intent_executed] and [entities_mentioned] records; and nothing else. *)
Theorem recent_context_text (self : ConversationHistory) (cid : string)
    (max_turns now : Z) :
  (_conversations self !! cid = None ->
   get_recent_context self cid max_turns now = (Returns "", self))
  /\ (forall (history : list turn) (self' : ConversationHistory),
        get_history self cid now = (Returns history, self') ->
        history <> [] -> 1 <= max_turns ->
        List.Forall well_formed (last_turns max_turns history) ->
        get_recent_context self cid max_turns now
        = (Returns (join LF ("Recent conversation:"
                             :: flat_map turn_lines (last_turns max_turns history))),
           self'))
  /\ (forall t : turn, actions t = [] ->
        turn_lines t = ["User: " ++ user t; "Assistant: " ++ assistant t]).
Proof.
  split; [|split].
  - intros Hnone. unfold get_recent_context, get_history. rewrite Hnone. reflexivity.
  - intros history self' Hh Hne Hn Hwf. unfold get_recent_context. rewrite Hh.
    destruct history as [|t l]; [contradiction|].
    rewrite (recent_turns_positive _ _ Hn).
    rewrite (for_each_append_turn _ _ Hwf). reflexivity.
  - intros t Ht. unfold turn_lines. rewrite Ht. reflexivity.
Qed.

Lemma recent_context_text_witness :
  get_recent_context two_turns "c" 1 300
  = (Returns ("Recent conversation:" ++ LF ++ "User: thanks" ++ LF
              ++ "Assistant: welcome"),
     two_turns)
  /\ get_recent_context two_turns "unknown" 1 300 = (Returns "", two_turns).
Proof.
  split.
  - refine (eq_trans
              (proj1 (proj2 (recent_context_text two_turns "c" 1 300))
                 _ two_turns _ _ _ _) _).
    + vm_compute. reflexivity.
    + discriminate.
    + lia.
    + repeat constructor; intros H; discriminate H.
    + vm_compute. reflexivity.
  - apply (proj1 (recent_context_text two_turns "unknown" 1 300)).
    vm_compute. reflexivity.
Defined.

(** Outside the amended statement: a limit of zero gives every turn, a
    conversation whose turns have all expired makes [get_history] raise,
    and so does an [intent_executed] record without ["intent"]. *)
Example zero_max_turns_gives_all :
  get_recent_context two_turns "c" 0 300 = get_recent_context two_turns "c" 2 300.
Proof. vm_compute. reflexivity. Qed.

Example expired_conversation_raises :
  fst (get_recent_context two_turns "c" 3 (300 + timedelta_hours 24))
  = Raises "KeyError"
  /\ fst (get_history two_turns "c" (300 + timedelta_hours 24)) = Raises "KeyError".
Proof. split; vm_compute; reflexivity. Qed.

Example missing_intent_raises :
  let executed :=
    {| act_type := Some "intent_executed"; act_intent := None;
       act_entity_ids := Some ["light.kitchen"] |} in
  let self := snd (add_turn (__init__ 24 20) "c" "lights on" "done" (Some [executed])
                     100 101) in
  ~ well_formed {| timestamp := 100; user := "lights on"; assistant := "done";
                   actions := [executed] |}
  /\ fst (get_history self "c" 200)
     = Returns [ {| timestamp := 100; user := "lights on"; assistant := "done";
                    actions := [executed] |} ]
  /\ fst (get_recent_context self "c" 3 200) = Raises "KeyError".
Proof.
  split; [|split; vm_compute; reflexivity].
  intros H. inversion H as [|? ? Ha _]. exact (Ha eq_refl eq_refl).
Qed.

End HistoryFacts.

(* ================================================================== *)
(** * The telemetry aggregator *)
(* ================================================================== *)

Module StatisticsFacts.
Import Py PyFacts Statistics.

(** ** The two rates, outside any state *)

(** [round(100 * hits / total, 1)], the percentage as the specification
    writes it: one hundred times the hits, an [int], divided by the total
    into a float, and that float rounded to one decimal place. *)
Definition claimed_rate (hits total : Z) : result float :=
  match int_true_div (100 * hits) total with
  | Returns q => Returns (round_1 q)
  | Raises e => Raises e
  end.

(** [round((hits / total) * 100, 1)]: the quotient of the two integers is
    rounded to a float, then multiplied by one hundred, and the product
    is rounded to one decimal place.  A quotient too large for a float
    raises. *)
Definition scaled_quotient (hits total : Z) : result float :=
  match int_true_div hits total with
  | Returns q => Returns (round_1 (q * 100)%float)
  | Raises e => Raises e
  end.

(** The float written with one decimal place: [tenth 287] is [28.7]. *)
Definition tenth (k : Z) : float :=
  match k with
  | Z0 => 0%float
  | _ => SF2Prim (SFdiv prec emax (SF_of_int k) (SF_of_int 10))
  end.

(** [k / 10] is a percentage, and no other number with one decimal place
    is nearer to [100 * hits / total]. *)
Definition nearest_tenth (hits total k : Z) : Prop :=
  0 <= k <= 1000 /\ 2 * Z.abs (1000 * hits - k * total) <= total.

Definition nearest_tenthb (hits total k : Z) : bool :=
  (0 <=? k) && (k <=? 1000) && (2 * Z.abs (1000 * hits - k * total) <=? total).

(** The two candidates for the nearest tenth are tried in turn. *)
Definition rate_checked (hits total : Z) : bool :=
  let k := 1000 * hits / total in
  match scaled_quotient hits total with
  | Returns r =>
      (Leibniz.eqb r (tenth k) && nearest_tenthb hits total k)
      || (Leibniz.eqb r (tenth (k + 1)) && nearest_tenthb hits total (k + 1))
  | Raises _ => false
  end.

(** The three pairs with a total of at most 100 on which the two
    expressions differ. *)
Definition halfway (hits total : Z) : bool :=
  (total =? 80) && ((hits =? 23) || (hits =? 49) || (hits =? 51)).

Definition rate_agrees (hits total : Z) : bool :=
  match scaled_quotient hits total, claimed_rate hits total with
  | Returns x, Returns y => Leibniz.eqb x y
  | _, _ => false
  end.

(** [p hits total] for every total from 1 to 100 and every number of
    hits from 0 to the total. *)
Definition table_checked (p : Z -> Z -> bool) : bool :=
  forallb (fun total =>
             forallb (fun hits => p (Z.of_nat hits) (Z.of_nat total)) (seq 0 (S total)))
          (seq 1 100).

Lemma table_checked_spec (p : Z -> Z -> bool) (hits total : Z) :
  table_checked p = true -> 0 <= hits <= total -> 1 <= total <= 100 ->
  p hits total = true.
Proof.
  intros H Hh Ht. unfold table_checked in H.
  rewrite forallb_forall in H.
  specialize (H (Z.to_nat total)). rewrite forallb_forall in H.
  specialize (H ltac:(apply in_seq; lia) (Z.to_nat hits) ltac:(apply in_seq; lia)).
  rewrite !Z2Nat.id in H by lia. exact H.
Qed.

Lemma rates_checked : table_checked rate_checked = true.
Proof. vm_compute. reflexivity. Qed.

Lemma rates_agree :
  table_checked (fun hits total => rate_agrees hits total || halfway hits total) = true.
Proof. vm_compute. reflexivity. Qed.

Lemma nearest_tenthb_spec (hits total k : Z) :
  nearest_tenthb hits total k = true -> nearest_tenth hits total k.
Proof.
  unfold nearest_tenthb, nearest_tenth. intros H.
  apply andb_prop in H as [H H3]. apply andb_prop in H as [H1 H2].
  apply Z.leb_le in H1, H2, H3. lia.
Qed.

Lemma scaled_quotient_nearest (hits total : Z) :
  0 <= hits <= total -> 1 <= total <= 100 ->
  exists k, scaled_quotient hits total = Returns (tenth k)
            /\ nearest_tenth hits total k.
Proof.
  intros Hh Ht.
  pose proof (table_checked_spec _ hits total rates_checked Hh Ht) as H.
  unfold rate_checked in H. cbv zeta in H.
  destruct (scaled_quotient hits total) as [r|e]; [|discriminate].
  apply orb_prop in H as [H|H]; apply andb_prop in H as [Hr Hk];
    apply Leibniz.eqb_spec in Hr; apply nearest_tenthb_spec in Hk;
    eexists; (split; [rewrite Hr; reflexivity | exact Hk]).
Qed.

Lemma scaled_quotient_claimed (hits total : Z) :
  0 <= hits <= total -> 1 <= total <= 100 -> halfway hits total = false ->
  scaled_quotient hits total = claimed_rate hits total.
Proof.
  intros Hh Ht Hhalf.
  pose proof (table_checked_spec _ hits total rates_agree Hh Ht) as H.
  cbv beta in H. rewrite Hhalf, orb_false_r in H. unfold rate_agrees in H.
  destruct (scaled_quotient hits total) as [x|?]; [|discriminate].
  destruct (claimed_rate hits total) as [y|?]; [|discriminate].
  apply Leibniz.eqb_spec in H. rewrite H. reflexivity.
Qed.

Section Host.
Context {Host : Type}.
Local Abbreviation stats := (@MCPAssistStatistics Host).

(** ** Sequences of calls *)

Inductive call : Type :=
| Request (today now : Z)
| FastPathHit (duration_ms : float)
| FastPathMiss
| PreResolveAttempt (success : bool)
| LlmCall (today : Z) (duration_ms : float) (tokens : Z)
| LlmError
| SetStatus (status : string)
| AddListener (cb : @callback Host unit).

Definition perform (st : stats * Host) (c : call) : stats * Host :=
  let '(self, host) := st in
  match c with
  | Request today now => record_request self today now host
  | FastPathHit d => record_fast_path_hit self d host
  | FastPathMiss => record_fast_path_miss self host
  | PreResolveAttempt success => record_pre_resolve_attempt self success host
  | LlmCall today d tokens => record_llm_call self today d tokens host
  | LlmError => record_llm_error self host
  | SetStatus status => set_status self status host
  | AddListener cb => (add_listener self cb, host)
  end.

Definition run (calls : list call) (st : stats * Host) : stats * Host :=
  fold_left perform calls st.

Definition is_hit (c : call) : bool :=
  match c with FastPathHit _ => true | _ => false end.

Definition is_miss (c : call) : bool :=
  match c with FastPathMiss => true | _ => false end.

Definition count (p : call -> bool) (calls : list call) : Z :=
  Z.of_nat (length (List.filter p calls)).

Lemma rollover_fast_path (self : stats) (today : Z) :
  _fast_path_hits (_check_date_rollover self today) = _fast_path_hits self
  /\ _fast_path_misses (_check_date_rollover self today) = _fast_path_misses self.
Proof.
  unfold _check_date_rollover.
  destruct (negb (today =? _current_date self)); simpl; tauto.
Qed.

Lemma perform_fast_path (st : stats * Host) (c : call) :
  _fast_path_hits (fst (perform st c))
  = _fast_path_hits (fst st) + (if is_hit c then 1 else 0)
  /\ _fast_path_misses (fst (perform st c))
     = _fast_path_misses (fst st) + (if is_miss c then 1 else 0).
Proof.
  destruct st as [self host].
  destruct c; simpl;
    try (destruct (rollover_fast_path self today) as [-> ->]); lia.
Qed.

Lemma run_fast_path (calls : list call) (st : stats * Host) :
  _fast_path_hits (fst (run calls st))
  = _fast_path_hits (fst st) + count is_hit calls
  /\ _fast_path_misses (fst (run calls st))
     = _fast_path_misses (fst st) + count is_miss calls.
Proof.
  unfold run, count. revert st.
  induction calls as [|c calls IH]; intros st; simpl.
  - lia.
  - destruct (IH (perform st c)) as [-> ->].
    destruct (perform_fast_path st c) as [-> ->].
    destruct (is_hit c), (is_miss c); simpl length; lia.
Qed.

(** ** C4 *)

(** C4: when [record_llm_call] is made on a day other than the stored
    [_current_date], then after the call [_llm_calls_today] is 1,
    [_tokens_today] is the tokens of this call, [_requests_today] is 0,
    [_current_date] is today, and [_llm_calls] and [_tokens_used] have
    grown by 1 and by the tokens of the call. *)
Theorem llm_call_after_rollover (self : stats) (today : Z) (duration_ms : float)
    (tokens : Z) (host : Host) :
  today <> _current_date self ->
  let self' := fst (record_llm_call self today duration_ms tokens host) in
  _llm_calls_today self' = 1
  /\ _tokens_today self' = tokens
  /\ _requests_today self' = 0
  /\ _current_date self' = today
  /\ _llm_calls self' = _llm_calls self + 1
  /\ _tokens_used self' = _tokens_used self + tokens.
Proof.
  intros Hday. unfold record_llm_call, _check_date_rollover.
  destruct (Z.eqb_spec today (_current_date self)) as [E|_]; [contradiction|].
  simpl. repeat split; lia.
Qed.

(** On the same day the daily counters keep growing. *)
Lemma llm_call_same_day (self : stats) (duration_ms : float) (tokens : Z)
    (host : Host) :
  let self' := fst (record_llm_call self (_current_date self) duration_ms tokens host) in
  _llm_calls_today self' = _llm_calls_today self + 1
  /\ _tokens_today self' = _tokens_today self + tokens
  /\ _requests_today self' = _requests_today self
  /\ _current_date self' = _current_date self.
Proof.
  unfold record_llm_call, _check_date_rollover. rewrite Z.eqb_refl. simpl. tauto.
Qed.

(** ** C5 *)

Lemma fast_path_rate_scaled (self : stats) :
  _fast_path_hits self + _fast_path_misses self <> 0 ->
  fast_path_rate self
  = scaled_quotient (_fast_path_hits self)
                    (_fast_path_hits self + _fast_path_misses self).
Proof.
  intros H. unfold fast_path_rate, scaled_quotient. cbv zeta.
  rewrite (proj2 (Z.eqb_neq _ _) H). reflexivity.
Qed.

Lemma pre_resolve_rate_scaled (self : stats) :
  _pre_resolve_attempts self <> 0 ->
  pre_resolve_rate self
  = scaled_quotient (_pre_resolve_hits self) (_pre_resolve_attempts self).
Proof.
  intros H. unfold pre_resolve_rate, scaled_quotient.
  rewrite (proj2 (Z.eqb_neq _ _) H). reflexivity.
Qed.

(** The rate after a sequence of calls on a new aggregator is that of the
    hits and misses among the calls. *)
Lemma fast_path_rate_run (today : Z) (host : Host) (calls : list call) :
  count is_hit calls + count is_miss calls <> 0 ->
  fast_path_rate (fst (run calls (__init__ today, host)))
  = scaled_quotient (count is_hit calls) (count is_hit calls + count is_miss calls).
Proof.
  intros H.
  destruct (run_fast_path calls (__init__ today, host)) as [Hh Hm].
  simpl in Hh, Hm.
  rewrite fast_path_rate_scaled; rewrite Hh, Hm; [reflexivity | exact H].
Qed.

(** C5, amended: [fast_path_rate] is [0.0] when hits and misses add up to
    zero and [pre_resolve_rate] is [0.0] when there was no attempt;
    otherwise each is [round((hits / total) * 100, 1)], where the quotient
    of the two counters is rounded to a float before it is multiplied by
    one hundred.  For a total of at most 100 the result is a percentage
    with one decimal place and none is nearer to the exact percentage, and
    it is [round(100 * hits / total, 1)] except for 23, 49 and 51 in 80,
    where the exact percentage lies halfway between two such values: 23
    hits and 57 misses give [28.7].  After exactly three recorded hits and
    one recorded miss, whatever else was recorded and in whatever order,
    [fast_path_rate] is [75.0]. *)
Theorem rates_are_rounded_percentages :
  (forall self : stats,
     (_fast_path_hits self + _fast_path_misses self = 0 ->
      fast_path_rate self = Returns 0%float)
     /\ (_fast_path_hits self + _fast_path_misses self <> 0 ->
         fast_path_rate self
         = scaled_quotient (_fast_path_hits self)
                           (_fast_path_hits self + _fast_path_misses self))
     /\ (_pre_resolve_attempts self = 0 -> pre_resolve_rate self = Returns 0%float)
     /\ (_pre_resolve_attempts self <> 0 ->
         pre_resolve_rate self
         = scaled_quotient (_pre_resolve_hits self) (_pre_resolve_attempts self)))
  /\ (forall self : stats,
        0 <= _fast_path_hits self -> 0 <= _fast_path_misses self ->
        1 <= _fast_path_hits self + _fast_path_misses self <= 100 ->
        (exists k : Z,
           fast_path_rate self = Returns (tenth k)
           /\ nearest_tenth (_fast_path_hits self)
                            (_fast_path_hits self + _fast_path_misses self) k)
        /\ (halfway (_fast_path_hits self)
                    (_fast_path_hits self + _fast_path_misses self) = false ->
            fast_path_rate self
            = claimed_rate (_fast_path_hits self)
                           (_fast_path_hits self + _fast_path_misses self)))
  /\ (forall self : stats,
        0 <= _pre_resolve_hits self <= _pre_resolve_attempts self ->
        1 <= _pre_resolve_attempts self <= 100 ->
        (exists k : Z,
           pre_resolve_rate self = Returns (tenth k)
           /\ nearest_tenth (_pre_resolve_hits self) (_pre_resolve_attempts self) k)
        /\ (halfway (_pre_resolve_hits self) (_pre_resolve_attempts self) = false ->
            pre_resolve_rate self
            = claimed_rate (_pre_resolve_hits self) (_pre_resolve_attempts self)))
  /\ (forall (today : Z) (host : Host) (calls : list call),
        count is_hit calls = 3 -> count is_miss calls = 1 ->
        fast_path_rate (fst (run calls (__init__ today, host))) = Returns 75%float)
  /\ (forall (today : Z) (host : Host) (calls : list call),
        count is_hit calls = 23 -> count is_miss calls = 57 ->
        fast_path_rate (fst (run calls (__init__ today, host))) = Returns (tenth 287))
  /\ (forall (today : Z) (host : Host) (calls : list call),
        count is_hit calls = 0 -> count is_miss calls = 0 ->
        fast_path_rate (fst (run calls (__init__ today, host))) = Returns 0%float).
Proof.
  split; [|split; [|split; [|split; [|split]]]].
  - intros self. repeat split.
    + intros H. unfold fast_path_rate. cbv zeta. rewrite H. reflexivity.
    + exact (fast_path_rate_scaled self).
    + intros H. unfold pre_resolve_rate. rewrite H. reflexivity.
    + exact (pre_resolve_rate_scaled self).
  - intros self Hh Hm Ht.
    rewrite (fast_path_rate_scaled self) by lia. split.
    + apply scaled_quotient_nearest; lia.
    + apply scaled_quotient_claimed; lia.
  - intros self Hh Ht.
    rewrite (pre_resolve_rate_scaled self) by lia. split.
    + apply scaled_quotient_nearest; lia.
    + apply scaled_quotient_claimed; lia.
  - intros today host calls Hh Hm.
    rewrite fast_path_rate_run; rewrite Hh, Hm; [vm_compute; reflexivity | discriminate].
  - intros today host calls Hh Hm.
    rewrite fast_path_rate_run; rewrite Hh, Hm; [vm_compute; reflexivity | discriminate].
  - intros today host calls Hh Hm. unfold fast_path_rate.
    destruct (run_fast_path calls (__init__ today, host)) as [-> ->].
    rewrite Hh, Hm. reflexivity.
Qed.

(** ** C9 *)

(** The number of timing samples recorded so far. *)
Definition samples (self : stats) : Z := _fast_path_hits self + _llm_calls self.





Lemma fast_path_hit_sample (self : stats) (duration_ms : float) (host : Host) :
  let self' := fst (record_fast_path_hit self duration_ms host) in
  samples self' = samples self + 1
  /\ _fast_path_hits self' = _fast_path_hits self + 1
  /\ fast_path_last (_response_times self') = duration_ms
  /\ _fast_path_times (_response_times self')
     = deque_append 100 (_fast_path_times (_response_times self)) duration_ms
  /\ _llm_times (_response_times self') = _llm_times (_response_times self).
Proof. unfold samples. simpl. repeat split; lia. Qed.

Lemma llm_call_sample (self : stats) (today : Z) (duration_ms : float)
    (tokens : Z) (host : Host) :
  let self' := fst (record_llm_call self today duration_ms tokens host) in
  samples self' = samples self + 1
  /\ _llm_calls self' = _llm_calls self + 1
  /\ _tokens_used self' = _tokens_used self + tokens
  /\ llm_last (_response_times self') = duration_ms
  /\ _llm_times (_response_times self')
     = deque_append 100 (_llm_times (_response_times self)) duration_ms
  /\ _fast_path_times (_response_times self')
     = _fast_path_times (_response_times self).
Proof.
  unfold samples, record_llm_call, _check_date_rollover.
  destruct (negb (today =? _current_date self)); simpl; repeat split; lia.
Qed.






End Host.


Lemma llm_call_after_rollover_witness :
  let self := fst (run [Request 10 5; LlmCall 10 250%float 40; LlmCall 10 300%float 2]
                       (__init__ 10, tt)) in
  let self' := fst (record_llm_call self 11 120%float 7 tt) in
  (_llm_calls_today self = 2 /\ _tokens_today self = 42 /\ _requests_today self = 1)
  /\ _llm_calls_today self' = 1
  /\ _tokens_today self' = 7
  /\ _requests_today self' = 0
  /\ _current_date self' = 11
  /\ _llm_calls self' = 3
  /\ _tokens_used self' = 49.
Proof.
  intros self self'. split; [repeat split|].
  apply (llm_call_after_rollover self 11 120%float 7 tt). discriminate.
Defined.

Lemma rates_are_rounded_percentages_witness :
  fast_path_rate
    (fst (run [FastPathHit 12%float; FastPathMiss; Request 1 2;
               FastPathHit 8%float; FastPathHit 9%float]
              (__init__ 1, tt)))
  = Returns 75%float
  /\ fast_path_rate (@__init__ unit 1) = Returns 0%float
  /\ (exists k : Z,
        fast_path_rate
          (fst (run [FastPathHit 12%float; FastPathMiss; FastPathMiss] (__init__ 1, tt)))
        = Returns (tenth k)
        /\ nearest_tenth 1 3 k).
Proof.
  split; [|split].
  - apply (proj1 (proj2 (proj2 (proj2 (@rates_are_rounded_percentages unit)))) 1 tt);
      reflexivity.
  - apply (proj1 (proj1 (@rates_are_rounded_percentages unit) (__init__ 1))).
    reflexivity.
  - apply (proj1 (proj2 (@rates_are_rounded_percentages unit))
             (fst (run [FastPathHit 12%float; FastPathMiss; FastPathMiss]
                       (__init__ 1, tt)))); simpl; lia.
Defined.

(** The state after 23 hits and 57 misses. *)
Definition hits_23_of_80 : @MCPAssistStatistics unit :=
  fst (run (repeat (FastPathHit 5%float) 23 ++ repeat FastPathMiss 57)%list
           (__init__ 1, tt)).

(** C5, as stated, fails: after 23 hits and 57 misses [fast_path_rate] is
    [28.7], while [round(100 * hits / total, 1)] is [28.8].  The quotient
    [23 / 80] is a float just below 0.2875, and one hundred times it is
    just below 28.75; [2300 / 80] is 28.75 itself, halfway between the two,
    and is rounded to the even [28.8]. *)
Lemma rate_is_not_the_claimed_percentage :
  ~ (forall self : @MCPAssistStatistics unit,
       (_fast_path_hits self + _fast_path_misses self = 0 ->
        fast_path_rate self = Returns 0%float)
       /\ (_fast_path_hits self + _fast_path_misses self <> 0 ->
           fast_path_rate self
           = claimed_rate (_fast_path_hits self)
                          (_fast_path_hits self + _fast_path_misses self))).
Proof.
  intros H. destruct (H hits_23_of_80) as [_ Hrate].
  specialize (Hrate ltac:(vm_compute; discriminate)).
  vm_compute in Hrate. discriminate Hrate.
Qed.

(** The figures of that state: the rate, the value of the specification's
    expression, and the exact percentage, 28.75, whose nearest tenths are
    287 and 288 alike. *)
Example rate_of_23_in_80 :
  fast_path_rate hits_23_of_80 = Returns (tenth 287)
  /\ claimed_rate 23 80 = Returns (tenth 288)
  /\ round_half_even (1000 * 23) 80 = 288
  /\ nearest_tenth 23 80 287
  /\ nearest_tenth 23 80 288.
Proof. repeat split; vm_compute; try reflexivity; discriminate. Qed.

(** The two expressions differ in the other direction too: with 7 hits in
    2000 the rate is [0.4], while the float [700 / 2000] is just below
    0.35 and rounds to [0.3]. *)
Example rate_of_7_in_2000 :
  scaled_quotient 7 2000 = Returns (tenth 4)
  /\ claimed_rate 7 2000 = Returns (tenth 3).
Proof. split; vm_compute; reflexivity. Qed.

End StatisticsFacts.

(* ================================================================== *)
(** * More on the action registry *)
(* ================================================================== *)

Module RegistryExtra.
Import Py PyFacts Registry RegistryQueries RegistryFacts.

Lemma append_inj_l (a x y : string) : a ++ x = a ++ y -> x = y.
Proof.
  induction a as [|c a IH]; [exact (fun H => H)|].
  rewrite !append_cons. intros [= H]. exact (IH H).
Qed.

(** What an acceptance tells. *)
Lemma accepted_inv (d a s : string) :
  validate_domain_action d a = (true, s) ->
  exists info, get_domain_info d = Some info
               /\ di_type info <> TYPE_READ_ONLY
               /\ s = map_action_to_service d a
               /\ In s (di_services info).
Proof.
  unfold validate_domain_action.
  destruct (get_domain_info d) as [info|] eqn:Hd.
  - destruct (domain_type_eqb (di_type info) TYPE_READ_ONLY) eqn:Et; [discriminate|].
    destruct (list_in (map_action_to_service d a) (di_services info)) eqn:Es.
    + intros [= <-]. exists info. split; [reflexivity|]. split.
      * intros E. apply domain_type_eqb_spec in E. congruence.
      * split; [reflexivity | apply list_in_spec; exact Es].
    + destruct (di_services info); discriminate.
  - destruct (similar_domains d); discriminate.
Qed.

(** Every non read-only domain of the table has a service, and every
    service with a parameters entry is one of its domain's services. *)
Definition table_well_formed : bool :=
  forallb
    (fun '(_, info) =>
       (domain_type_eqb (di_type info) TYPE_READ_ONLY
        || match di_services info with [] => false | _ :: _ => true end)
       && forallb (fun '(s, _) => list_in s (di_services info)) (di_parameters info))
    DOMAIN_REGISTRY.

Lemma table_well_formed_holds (d : string) (info : domain_info) :
  get_domain_info d = Some info ->
  (di_type info <> TYPE_READ_ONLY -> di_services info <> [])
  /\ (forall s ps, dict_get (di_parameters info) s = Some ps -> In s (di_services info)).
Proof.
  intros Hd.
  assert (Hall : table_well_formed = true) by (vm_compute; reflexivity).
  unfold table_well_formed in Hall. rewrite forallb_forall in Hall.
  specialize (Hall (d, info) (dict_get_In _ _ _ Hd)). cbv beta iota in Hall.
  apply andb_prop in Hall as [Hserv Hpar]. split.
  - intros Ht E. rewrite (not_read_only _ Ht), E in Hserv. discriminate.
  - intros s ps Hs. rewrite forallb_forall in Hpar.
    specialize (Hpar (s, ps) (dict_get_In _ _ _ Hs)). cbv beta iota in Hpar.
    apply list_in_spec. exact Hpar.
Qed.

(** ** Acceptance *)

(** X1: An accepted action yields a service that the registered, not read-only
    domain allows, and the yielded service is accepted again, unchanged. *)
Theorem accepted_service_is_allowed (d a s : string) :
  validate_domain_action d a = (true, s) ->
  (exists info, get_domain_info d = Some info
                /\ di_type info <> TYPE_READ_ONLY
                /\ In s (di_services info))
  /\ validate_domain_action d s = (true, s).
Proof.
  intros H. destruct (accepted_inv d a s H) as [info [Hd [Ht [_ Hs]]]]. split.
  - exists info. tauto.
  - exact (validate_own_service d s info Hd Hs Ht).
Qed.

Lemma accepted_service_is_allowed_witness :
  (exists info, get_domain_info "vacuum" = Some info
                /\ di_type info <> TYPE_READ_ONLY
                /\ In "return_to_base" (di_services info))
  /\ validate_domain_action "vacuum" "return_to_base" = (true, "return_to_base").
Proof.
  apply (accepted_service_is_allowed "vacuum" "dock" "return_to_base").
  vm_compute. reflexivity.
Defined.

(** ** Rejection of an action *)

(** X2: In a registered domain that is not read-only, a rejected action is
    answered with the first five services of the domain, at most; the list
    is not empty, and each of the listed services is accepted when it is
    submitted in turn. *)
Theorem rejected_action_lists_services (d a : string) (info : domain_info) :
  get_domain_info d = Some info -> di_type info <> TYPE_READ_ONLY ->
  fst (validate_domain_action d a) = false ->
  firstn 5 (di_services info) <> []
  /\ validate_domain_action d a
     = (false, "Action '" ++ a ++ "' not valid for " ++ d ++ ". Available: "
               ++ join ", " (firstn 5 (di_services info)))
  /\ forall s, In s (firstn 5 (di_services info)) ->
               validate_domain_action d s = (true, s).
Proof.
  intros Hd Ht Hrej.
  destruct (table_well_formed_holds d info Hd) as [Hserv _].
  specialize (Hserv Ht). split; [|split].
  - destruct (di_services info); [contradiction | discriminate].
  - revert Hrej. unfold validate_domain_action.
    rewrite Hd, (not_read_only _ Ht).
    destruct (list_in (map_action_to_service d a) (di_services info));
      [discriminate|].
    intros _. unfold slice_to. destruct (di_services info); [contradiction | reflexivity].
  - intros s Hs. apply (validate_own_service d s info Hd); [|exact Ht].
    exact (In_firstn _ _ _ Hs).
Qed.

Lemma rejected_action_lists_services_witness :
  validate_domain_action "cover" "explode"
  = (false, "Action 'explode' not valid for cover. Available: "
            ++ "open_cover, close_cover, stop_cover, toggle, set_cover_position")
  /\ validate_domain_action "cover" "stop_cover" = (true, "stop_cover").
Proof.
  destruct (rejected_action_lists_services "cover" "explode" _ eq_refl
              ltac:(discriminate) eq_refl) as [_ [Hmsg Hall]].
  split.
  - exact Hmsg.
  - apply Hall. simpl. tauto.
Defined.

(** ** The domain-specific mappings *)

(** An action that is no key of the alias table reaches the
    domain-specific mappings, and only [lift] and [drop] of [cover] are
    mapped there: the names of the [lock] and [vacuum] branches, and
    [raise] and [lower], are all keys of the alias table. *)
Lemma domain_specific_unaliased (d a : string) :
  dict_get ACTION_ALIASES a = None ->
  domain_specific d a
  = if String.eqb d "cover" && String.eqb a "lift" then "open_cover"
    else if String.eqb d "cover" && String.eqb a "drop" then "close_cover"
    else a.
Proof.
  intros Hal.
  assert (Hne : forall k, In k (dict_keys ACTION_ALIASES) -> String.eqb a k = false).
  { intros k Hk. destruct (String.eqb_spec a k) as [->|]; [|reflexivity].
    apply dict_get_keys in Hk as [v Hv]. congruence. }
  unfold domain_specific, list_in. cbn [existsb].
  rewrite (Hne "raise"), (Hne "lower"), (Hne "secure"), (Hne "unsecure"),
    (Hne "clean"), (Hne "dock"), (Hne "home") by (vm_compute; tauto).
  rewrite !orb_false_r. cbn [orb].
  destruct (String.eqb d "cover"); cbn [andb].
  - destruct (String.eqb a "lift"); [reflexivity|].
    destruct (String.eqb a "drop"); reflexivity.
  - destruct (String.eqb d "lock"); [reflexivity|].
    destruct (String.eqb d "vacuum"); reflexivity.
Qed.

(** X3: [map_action_to_service] in full: a service of the domain is kept, else
    an alias is replaced by its target, else [lift] and [drop] of [cover]
    become [open_cover] and [close_cover], else the action is kept; the
    mappings written for [lock] and [vacuum] never decide the result.  In
    particular the target of an alias is not resolved again. *)
Theorem map_action_to_service_cases (d a : string) :
  map_action_to_service d a
  = if match get_domain_info d with
       | Some info => list_in a (di_services info)
       | None => false
       end
    then a
    else match dict_get ACTION_ALIASES a with
         | Some target => target
         | None =>
             if String.eqb d "cover" && String.eqb a "lift" then "open_cover"
             else if String.eqb d "cover" && String.eqb a "drop" then "close_cover"
             else a
         end.
Proof.
  unfold map_action_to_service.
  destruct (match get_domain_info d with Some _ => _ | None => _ end); [reflexivity|].
  destruct (dict_get ACTION_ALIASES a) eqn:Hal; [reflexivity|].
  exact (domain_specific_unaliased d a Hal).
Qed.

(** An alias whose target is itself an alias is resolved one step only. *)
Example alias_of_alias :
  map_action_to_service "light" "clean" = "start"
  /\ map_action_to_service "light" "start" = "turn_on"
  /\ fst (validate_domain_action "light" "clean") = false.
Proof. repeat split; vm_compute; reflexivity. Qed.

(** ** Parameters *)

(** X4: A rejection for missing parameters is only ever given for a service
    that the registered domain lists: the message names at least one
    parameter, and the domain and the service are those of the table. *)
Theorem missing_parameters_of_real_service
    (Any : Type) (d s msg : string) (provided : gmap string Any) :
  validate_service_parameters d s provided = (false, msg) ->
  exists info, get_domain_info d = Some info
               /\ In s (di_services info)
               /\ absent_required d s provided <> []
               /\ msg = "Missing required parameters for " ++ d ++ "." ++ s ++ ": "
                        ++ join ", " (absent_required d s provided).
Proof.
  rewrite validate_service_parameters_eq.
  destruct (absent_required d s provided) as [|k l] eqn:E; [discriminate|].
  intros [= <-].
  assert (Hk : In k (pl_required (get_service_parameters d s))).
  { apply (proj1 (absent_required_spec d s provided k)). rewrite E. left. reflexivity. }
  unfold get_service_parameters in Hk.
  destruct (get_domain_info d) as [info|] eqn:Hd; [|contradiction].
  destruct (dict_get (di_parameters info) s) as [ps|] eqn:Hs; [|contradiction].
  exists info. split; [reflexivity|]. split.
  - exact (proj2 (table_well_formed_holds d info Hd) s ps Hs).
  - split; [discriminate | reflexivity].
Qed.

Lemma missing_parameters_of_real_service_witness :
  exists info, get_domain_info "fan" = Some info
               /\ In "oscillate" (di_services info)
               /\ absent_required "fan" "oscillate" (∅ : gmap string Z) <> []
               /\ "Missing required parameters for fan.oscillate: oscillating"
                  = "Missing required parameters for " ++ "fan" ++ "." ++ "oscillate"
                    ++ ": " ++ join ", " (absent_required "fan" "oscillate"
                                            (∅ : gmap string Z)).
Proof.
  apply (missing_parameters_of_real_service Z "fan" "oscillate" _ ∅).
  vm_compute. reflexivity.
Defined.

(** X5: Providing more parameters never turns an acceptance into a rejection. *)
Theorem more_parameters_still_valid
    (Any : Type) (d s : string) (provided provided' : gmap string Any) :
  (forall k, is_Some (provided !! k) -> is_Some (provided' !! k)) ->
  fst (validate_service_parameters d s provided) = true ->
  validate_service_parameters d s provided' = (true, "Parameters valid").
Proof.
  intros Hsub. rewrite !validate_service_parameters_eq.
  destruct (absent_required d s provided) as [|k l] eqn:E; [|discriminate].
  intros _.
  destruct (absent_required d s provided') as [|k' l'] eqn:E'; [reflexivity|].
  exfalso.
  assert (Hk : In k' (absent_required d s provided')) by (rewrite E'; left; reflexivity).
  apply absent_required_spec in Hk as [Hreq Hnone].
  assert (Hin : In k' (absent_required d s provided)).
  { apply absent_required_spec. split; [exact Hreq|].
    destruct (provided !! k') eqn:Ep; [|reflexivity].
    destruct (Hsub k' (mk_is_Some _ _ Ep)) as [v Hv]. congruence. }
  rewrite E in Hin. exact Hin.
Qed.

Lemma more_parameters_still_valid_witness :
  validate_service_parameters "cover" "set_cover_position"
    ({[ "position" := 50; "speed" := 2 ]} : gmap string Z)
  = (true, "Parameters valid").
Proof.
  apply (more_parameters_still_valid Z "cover" "set_cover_position"
           {[ "position" := 50 ]}).
  - intros k [v Hv]. destruct (decide (k = "position")) as [->|Hne].
    + eexists. vm_compute. reflexivity.
    + rewrite lookup_singleton_ne in Hv by congruence. discriminate.
  - vm_compute. reflexivity.
Defined.

(** ** The queries *)

Lemma filtered_keys_spec {V : Type} (f : string * V -> bool)
    (table : list (string * V)) (k : string) :
  List.NoDup (dict_keys table) ->
  In k (List.map fst (List.filter f table))
  <-> exists v, dict_get table k = Some v /\ f (k, v) = true.
Proof.
  intros Hnd. rewrite in_map_iff. split.
  - intros [[k' v] [Hk Hin]]. simpl in Hk. subst k'.
    apply filter_In in Hin as [Hin Hf].
    exists v. split; [exact (dict_get_NoDup _ _ _ Hnd Hin) | exact Hf].
  - intros [v [Hget Hf]]. exists (k, v). split; [reflexivity|].
    apply filter_In. split; [exact (dict_get_In _ _ _ Hget) | exact Hf].
Qed.

(** X6: [get_supported_domains()] lists the domains [get_domain_info] finds;
    with a priority it lists those of that priority, and
    [get_domains_by_type] those of that type.  Every action is rejected for
    a domain listed as read-only, and every other listed domain has an
    action that is accepted. *)
Theorem listed_domains (d : string) :
  (In d (get_supported_domains None) <-> exists info, get_domain_info d = Some info)
  /\ (forall p, In d (get_supported_domains (Some p))
                <-> exists info, get_domain_info d = Some info /\ di_priority info = p)
  /\ (forall t, In d (get_domains_by_type t)
                <-> exists info, get_domain_info d = Some info /\ di_type info = t)
  /\ (In d (get_domains_by_type TYPE_READ_ONLY) ->
      forall a, fst (validate_domain_action d a) = false)
  /\ (In d (get_supported_domains None) ->
      ~ In d (get_domains_by_type TYPE_READ_ONLY) ->
      exists a, validate_domain_action d a = (true, a)).
Proof.
  assert (Htype : forall t, In d (get_domains_by_type t)
                  <-> exists info, get_domain_info d = Some info /\ di_type info = t).
  { intros t. unfold get_domains_by_type.
    rewrite (filtered_keys_spec _ _ _ domains_NoDup). unfold get_domain_info.
    split; intros [info [Hd Ht]]; exists info; (split; [exact Hd|]);
      apply domain_type_eqb_spec; exact Ht. }
  split; [apply dict_get_keys|]. split; [|split; [exact Htype|split]].
  - intros p. unfold get_supported_domains.
    rewrite (filtered_keys_spec _ _ _ domains_NoDup). unfold get_domain_info.
    split; intros [info [Hd Hp]]; exists info; (split; [exact Hd|]);
      apply Z.eqb_eq; exact Hp.
  - intros Hro a. apply Htype in Hro as [info [Hd Ht]].
    exact (validate_read_only d a info Hd Ht).
  - intros Hin Hro. apply dict_get_keys in Hin as [info Hd].
    assert (Ht : di_type info <> TYPE_READ_ONLY).
    { intros E. apply Hro, Htype. exists info. tauto. }
    destruct (table_well_formed_holds d info Hd) as [Hserv _].
    specialize (Hserv Ht).
    destruct (di_services info) as [|s l] eqn:Es; [contradiction|].
    exists s. apply (validate_own_service d s info Hd); [|exact Ht].
    rewrite Es. left. reflexivity.
Qed.

Lemma listed_domains_witness :
  (forall a, fst (validate_domain_action "sun" a) = false)
  /\ exists a, validate_domain_action "tts" a = (true, a).
Proof.
  split.
  - apply (proj1 (proj2 (proj2 (proj2 (listed_domains "sun"))))).
    vm_compute. tauto.
  - apply (proj2 (proj2 (proj2 (proj2 (listed_domains "tts"))))).
    + vm_compute. tauto.
    + vm_compute. intuition discriminate.
Defined.

End RegistryExtra.

(* ================================================================== *)
(** * More on the conversation history *)
(* ================================================================== *)

Module HistoryExtra.
Import Py PyFacts History HistoryAdmin HistoryFacts.

(** ** Results and stores of the operations *)

Lemma add_turn_result (self : ConversationHistory) (cid u a : string)
    (acts : option (list action)) (t1 t2 : Z) :
  fst (add_turn self cid u a acts t1 t2)
  = match _conversations (snd (add_turn self cid u a acts t1 t2)) !! cid with
    | Some _ => Returns tt
    | None => Raises "KeyError"
    end.
Proof.
  unfold add_turn. cbv zeta.
  match goal with |- fst (match ?x with Some _ => _ | None => _ end) = _ =>
    destruct x eqn:E end; simpl; rewrite E; reflexivity.
Qed.

Lemma get_history_known (self : ConversationHistory) (cid : string) (now : Z)
    (old : list turn) :
  _conversations self !! cid = Some old ->
  get_history self cid now
  = (match stored (limited (max_turns self) (fresh self now old)) with
     | Some turns => Returns turns
     | None => Raises "KeyError"
     end,
     _cleanup_conversation self cid now).
Proof.
  intros Hold. unfold get_history. rewrite Hold, cleanup_lookup, Hold.
  destruct (stored _); reflexivity.
Qed.

Lemma get_history_unknown (self : ConversationHistory) (cid : string) (now : Z) :
  _conversations self !! cid = None ->
  get_history self cid now = (Returns [], self).
Proof. intros H. unfold get_history. rewrite H. reflexivity. Qed.

Lemma get_recent_context_store (self : ConversationHistory) (cid : string)
    (n now : Z) :
  snd (get_recent_context self cid n now) = _cleanup_conversation self cid now.
Proof.
  rewrite <- get_history_store. unfold get_recent_context.
  destruct (get_history self cid now) as [[[|t l]|e] self']; try reflexivity.
  destruct (for_each _ _ _); reflexivity.
Qed.

Lemma limited_nil_iff {A : Type} (n : Z) (l : list A) :
  1 <= n -> limited n l = [] <-> l = [].
Proof.
  intros Hn. rewrite (limited_positive _ _ Hn). unfold most_recent. split.
  - intros H. apply (f_equal (@length A)) in H. rewrite length_skipn in H.
    simpl in H. destruct l; [reflexivity | simpl in H; lia].
  - intros ->. reflexivity.
Qed.

Lemma limited_nil {A : Type} (n : Z) : limited n (@nil A) = [].
Proof.
  unfold limited, slice_from. destruct (n <? _); [|reflexivity].
  destruct (Z.to_nat _); reflexivity.
Qed.

Lemma limited_snoc {A : Type} (n : Z) (l : list A) (x : A) :
  1 <= n -> exists earlier, limited n (l ++ [x])%list = (earlier ++ [x])%list.
Proof.
  intros Hn. rewrite (limited_positive _ _ Hn). unfold most_recent.
  exists (skipn (length l + 1 - Z.to_nat n) l).
  rewrite length_app. simpl length. rewrite skipn_app.
  replace (length l + 1 - Z.to_nat n - length l)%nat with 0%nat by lia.
  reflexivity.
Qed.

Lemma fresh_snoc (self : ConversationHistory) (now : Z) (l : list turn) (t : turn) :
  now - timestamp t < max_history_age self ->
  fresh self now (l ++ [t])%list = (fresh self now l ++ [t])%list.
Proof.
  intros Ht. unfold fresh. rewrite List.filter_app. simpl.
  destruct (Z.ltb_spec (now - max_history_age self) (timestamp t)); [reflexivity | lia].
Qed.

Lemma fresh_all (self : ConversationHistory) (now : Z) (l : list turn) :
  List.Forall (fun t => now - timestamp t < max_history_age self) l ->
  fresh self now l = l.
Proof.
  intros H. unfold fresh. induction H as [|t l Ht _ IH]; simpl; [reflexivity|].
  destruct (Z.ltb_spec (now - max_history_age self) (timestamp t)); [|lia].
  rewrite IH. reflexivity.
Qed.

Lemma limited_again {A : Type} (n : Z) (l : list A) :
  0 <= n -> limited n (limited n l) = limited n l.
Proof.
  intros Hn. destruct (Z.eq_dec n 0) as [->|Hne].
  - rewrite !limited_zero. reflexivity.
  - rewrite !limited_positive by lia. unfold most_recent at 1.
    pose proof (most_recent_length (Z.to_nat n) l).
    replace (length (most_recent (Z.to_nat n) l) - Z.to_nat n)%nat with 0%nat by lia.
    reflexivity.
Qed.

Lemma limited_Forall {A : Type} (P : A -> Prop) (n : Z) (l : list A) :
  0 <= n -> List.Forall P l -> List.Forall P (limited n l).
Proof.
  intros Hn H. destruct (Z.eq_dec n 0) as [->|Hne].
  - rewrite limited_zero. exact H.
  - rewrite limited_positive by lia. apply most_recent_Forall. exact H.
Qed.

(** ** Sequences of calls *)

Inductive call : Type :=
| AddTurn (cid user_message assistant_message : string)
          (actions : option (list action)) (now_turn now_cleanup : Z)
| GetHistory (cid : string) (now : Z)
| GetRecentContext (cid : string) (max_turns now : Z)
| ClearConversation (cid : string)
| ClearAll.

(** The store a call leaves, whether it returns or raises. *)
Definition perform (self : ConversationHistory) (c : call) : ConversationHistory :=
  match c with
  | AddTurn cid u a acts t1 t2 => snd (add_turn self cid u a acts t1 t2)
  | GetHistory cid now => snd (get_history self cid now)
  | GetRecentContext cid n now => snd (get_recent_context self cid n now)
  | ClearConversation cid => clear_conversation self cid
  | ClearAll => clear_all self
  end.

Definition run (calls : list call) (self : ConversationHistory) : ConversationHistory :=
  fold_left perform calls self.

(** The conversation a call is made for. *)
Definition target (c : call) : option string :=
  match c with
  | AddTurn cid _ _ _ _ _ | GetHistory cid _ | GetRecentContext cid _ _
  | ClearConversation cid => Some cid
  | ClearAll => None
  end.

(** Every stored conversation has at least one turn and at most
    [max_turns]. *)
Definition bounded (self : ConversationHistory) : Prop :=
  forall cid turns, _conversations self !! cid = Some turns ->
                    turns <> [] /\ Z.of_nat (length turns) <= max_turns self.

Lemma perform_config (self : ConversationHistory) (c : call) :
  max_turns (perform self c) = max_turns self
  /\ max_history_age (perform self c) = max_history_age self.
Proof.
  destruct c as [cid u a acts t1 t2|cid now|cid n now|cid|]; simpl.
  - destruct (add_turn_store self cid u a acts t1 t2) as [m [-> _]].
    exact (cleanup_config (set_conversations self m) cid t2).
  - rewrite get_history_store. apply cleanup_config.
  - rewrite get_recent_context_store. apply cleanup_config.
  - unfold clear_conversation. destruct (_ !! cid); simpl; tauto.
  - tauto.
Qed.

Lemma stored_bounded (self : ConversationHistory) (now : Z) (old turns : list turn) :
  1 <= max_turns self ->
  stored (limited (max_turns self) (fresh self now old)) = Some turns ->
  turns <> [] /\ Z.of_nat (length turns) <= max_turns self.
Proof.
  intros Hn H. destruct (retained_properties self now old turns Hn H). tauto.
Qed.

Lemma cleanup_bounded (self : ConversationHistory) (cid : string) (now : Z) :
  1 <= max_turns self -> bounded self ->
  bounded (_cleanup_conversation self cid now).
Proof.
  intros Hn Hb cid' turns. rewrite (proj1 (cleanup_config self cid now)).
  destruct (decide (cid' = cid)) as [->|Hne].
  - rewrite cleanup_lookup. destruct (_conversations self !! cid) as [old|];
      [|discriminate]. apply stored_bounded. exact Hn.
  - rewrite (cleanup_lookup_ne _ _ _ _ Hne). apply Hb.
Qed.

Lemma perform_bounded (self : ConversationHistory) (c : call) :
  1 <= max_turns self -> bounded self -> bounded (perform self c).
Proof.
  intros Hn Hb.
  destruct c as [cid u a acts t1 t2|cid now|cid n now|cid|]; cbn [perform].
  - intros cid' turns.
    pose proof (proj1 (perform_config self (AddTurn cid u a acts t1 t2))) as Hc.
    cbn [perform] in Hc. rewrite Hc.
    destruct (decide (cid' = cid)) as [->|Hne].
    + rewrite add_turn_lookup. apply stored_bounded. exact Hn.
    + rewrite (add_turn_lookup_ne _ _ _ _ _ _ _ _ Hne). apply Hb.
  - rewrite get_history_store. apply cleanup_bounded; assumption.
  - rewrite get_recent_context_store. apply cleanup_bounded; assumption.
  - intros cid' turns. unfold clear_conversation.
    destruct (_conversations self !! cid) eqn:E; [|apply Hb]. simpl.
    destruct (decide (cid' = cid)) as [->|Hne].
    + rewrite lookup_delete_eq. discriminate.
    + rewrite lookup_delete_ne by congruence. apply Hb.
  - intros cid' turns. simpl. rewrite lookup_empty. discriminate.
Qed.

Lemma init_bounded (hours limit : Z) : bounded (__init__ hours limit).
Proof. intros cid turns H. simpl in H. rewrite lookup_empty in H. discriminate. Qed.

Lemma run_bounded (calls : list call) (self : ConversationHistory) :
  1 <= max_turns self -> bounded self ->
  bounded (run calls self)
  /\ max_turns (run calls self) = max_turns self
  /\ max_history_age (run calls self) = max_history_age self.
Proof.
  unfold run. revert self.
  induction calls as [|c calls IH]; intros self Hn Hb; simpl; [tauto|].
  destruct (perform_config self c) as [Em Ea].
  destruct (IH (perform self c)) as [Hb' [Hm' Ha']].
  - lia.
  - apply perform_bounded; assumption.
  - split; [exact Hb' | split; congruence].
Qed.

(** X7: Whatever calls are made on a history constructed with a limit of at
    least one turn, and whether they return or raise, every conversation
    the store holds has at least one turn and at most
    [max_turns_per_conversation], and the two settings are unchanged. *)
Theorem store_stays_bounded (hours limit : Z) (calls : list call) :
  1 <= limit ->
  let self := run calls (__init__ hours limit) in
  bounded self
  /\ max_turns self = limit
  /\ max_history_age self = timedelta_hours hours.
Proof.
  intros Hlimit.
  exact (run_bounded calls (__init__ hours limit) Hlimit (init_bounded hours limit)).
Qed.

Lemma store_stays_bounded_witness :
  let self := run [AddTurn "c" "a" "b" None 1 1; AddTurn "c" "a" "b" None 2 2;
                   AddTurn "c" "a" "b" None 3 3; GetHistory "c" 4;
                   AddTurn "d" "a" "b" None 5 5; ClearConversation "e"]
                  (__init__ 24 2) in
  bounded self /\ max_turns self = 2 /\ max_history_age self = timedelta_hours 24.
Proof. apply (store_stays_bounded 24 2). lia. Defined.

(** X8: A call made for one conversation leaves every other conversation as it
    is, expired turns included: eviction only happens to the conversation
    that is touched. *)
Theorem other_conversations_untouched (self : ConversationHistory) (c : call)
    (cid cid' : string) :
  target c = Some cid -> cid' <> cid ->
  _conversations (perform self c) !! cid' = _conversations self !! cid'.
Proof.
  intros Ht Hne.
  destruct c as [k u a acts t1 t2|k now|k n now|k|]; simpl in Ht;
    try discriminate; injection Ht as ->; simpl.
  - exact (add_turn_lookup_ne _ _ _ _ _ _ _ _ Hne).
  - rewrite get_history_store. exact (cleanup_lookup_ne _ _ _ _ Hne).
  - rewrite get_recent_context_store. exact (cleanup_lookup_ne _ _ _ _ Hne).
  - unfold clear_conversation. destruct (_conversations self !! cid); [|reflexivity].
    simpl. apply lookup_delete_ne. congruence.
Qed.

Lemma other_conversations_untouched_witness :
  let self := snd (add_turn (__init__ 1 5) "old" "a" "b" None 0 0) in
  let later := 10 * timedelta_hours 1 in
  _conversations (perform self (AddTurn "new" "a" "b" None later later)) !! "old"
  = _conversations self !! "old".
Proof.
  intros self later.
  apply (other_conversations_untouched self _ "new" "old"); [reflexivity | discriminate].
Defined.

(** ** Writing and reading *)

Lemma fresh_same_age (self self' : ConversationHistory) (now : Z) (l : list turn) :
  max_history_age self' = max_history_age self -> fresh self' now l = fresh self now l.
Proof. intros H. unfold fresh. rewrite H. reflexivity. Qed.

(** X9: Under a limit of at least one turn, a turn that is added and is still
    younger than [max_history_age] when the history is read is the last
    turn of the history that [get_history] returns. *)
Theorem added_turn_is_read_last (self : ConversationHistory) (cid u a : string)
    (acts : option (list action)) (t1 t2 t3 : Z) :
  1 <= max_turns self ->
  t2 - t1 < max_history_age self -> t3 - t1 < max_history_age self ->
  exists earlier,
    fst (get_history (snd (add_turn self cid u a acts t1 t2)) cid t3)
    = Returns (earlier ++ [new_turn u a acts t1])%list.
Proof.
  intros Hn H2 H3.
  set (self' := snd (add_turn self cid u a acts t1 t2)).
  assert (Hcfg : max_turns self' = max_turns self
                 /\ max_history_age self' = max_history_age self)
    by exact (perform_config self (AddTurn cid u a acts t1 t2)).
  destruct Hcfg as [Hm Ha].
  pose proof (add_turn_lookup self cid u a acts t1 t2) as Hl. fold self' in Hl.
  rewrite (fresh_snoc self t2 _ (new_turn u a acts t1) H2) in Hl.
  destruct (limited_snoc (max_turns self)
              (fresh self t2 (default [] (_conversations self !! cid)))
              (new_turn u a acts t1) Hn) as [ys Hys].
  rewrite Hys in Hl.
  assert (Hstored : _conversations self' !! cid = Some (ys ++ [new_turn u a acts t1])%list).
  { rewrite Hl. destruct ys; reflexivity. }
  rewrite (get_history_known self' cid t3 _ Hstored). cbn [fst].
  rewrite Hm, (fresh_same_age self self' t3 _ Ha).
  rewrite (fresh_snoc self t3 ys (new_turn u a acts t1) H3).
  destruct (limited_snoc (max_turns self) (fresh self t3 ys)
              (new_turn u a acts t1) Hn) as [zs Hzs].
  rewrite Hzs. exists zs. destruct zs; reflexivity.
Qed.

Lemma added_turn_is_read_last_witness :
  exists earlier,
    fst (get_history (snd (add_turn two_turns "c" "more" "sure" None 300 301)) "c" 400)
    = Returns (earlier ++ [new_turn "more" "sure" None 300])%list.
Proof.
  apply (added_turn_is_read_last two_turns "c" "more" "sure" None 300 301 400);
    vm_compute; first [reflexivity | discriminate].
Defined.

(** X10: [add_turn] returns when the turn it adds is younger than
    [max_history_age] at the cleanup and the limit is at least one turn.
    When the turn is not younger, as with a [max_history_age] of zero hours,
    and the conversation is new, the cleanup removes the conversation and
    the closing debug call raises [KeyError]: nothing is stored. *)
Theorem add_turn_outcome (self : ConversationHistory) (cid u a : string)
    (acts : option (list action)) (t1 t2 : Z) :
  (1 <= max_turns self -> t2 - t1 < max_history_age self ->
   fst (add_turn self cid u a acts t1 t2) = Returns tt)
  /\ (_conversations self !! cid = None -> max_history_age self <= t2 - t1 ->
      fst (add_turn self cid u a acts t1 t2) = Raises "KeyError"
      /\ _conversations (snd (add_turn self cid u a acts t1 t2)) !! cid = None).
Proof.
  rewrite add_turn_result, add_turn_lookup. split.
  - intros Hn H2. rewrite (fresh_snoc self t2 _ (new_turn u a acts t1) H2).
    destruct (limited_snoc (max_turns self)
                (fresh self t2 (default [] (_conversations self !! cid)))
                (new_turn u a acts t1) Hn) as [ys ->].
    destruct ys; reflexivity.
  - intros Hnew Hold. rewrite Hnew. simpl default. unfold fresh. simpl List.filter.
    destruct (Z.ltb_spec (t2 - max_history_age self) t1); [lia|].
    rewrite limited_nil. split; reflexivity.
Qed.

Lemma add_turn_outcome_witness :
  fst (add_turn (__init__ 24 20) "c" "hi" "hello" None 100 101) = Returns tt
  /\ fst (add_turn (__init__ 0 20) "c" "hi" "hello" None 100 101) = Raises "KeyError"
  /\ _conversations (snd (add_turn (__init__ 0 20) "c" "hi" "hello" None 100 101))
     !! "c" = None.
Proof.
  split.
  - apply (proj1 (add_turn_outcome (__init__ 24 20) "c" "hi" "hello" None 100 101));
      vm_compute; first [reflexivity | discriminate].
  - apply (proj2 (add_turn_outcome (__init__ 0 20) "c" "hi" "hello" None 100 101)).
    + reflexivity.
    + vm_compute. discriminate.
Defined.

(** X11: [get_history] under a limit of at least one turn: for an unknown id it
    returns the empty list and leaves the store alone; for a known id with
    a turn younger than [max_history_age] it returns a non-empty history,
    which is then what the store holds; for a known id whose turns have all
    expired it removes the conversation and raises [KeyError], and the next
    read, of an id now unknown, returns the empty list. *)
Theorem get_history_outcome (self : ConversationHistory) (cid : string) (now : Z) :
  (_conversations self !! cid = None ->
   get_history self cid now = (Returns [], self))
  /\ (forall old, _conversations self !! cid = Some old -> 1 <= max_turns self ->
      (fresh self now old <> [] ->
       exists turns, turns <> []
         /\ fst (get_history self cid now) = Returns turns
         /\ _conversations (snd (get_history self cid now)) !! cid = Some turns)
      /\ (fresh self now old = [] ->
          fst (get_history self cid now) = Raises "KeyError"
          /\ _conversations (snd (get_history self cid now)) !! cid = None
          /\ forall later,
               get_history (snd (get_history self cid now)) cid later
               = (Returns [], snd (get_history self cid now)))).
Proof.
  split; [apply get_history_unknown|].
  intros old Hold Hn. rewrite (get_history_known self cid now old Hold). cbn [fst snd].
  rewrite cleanup_lookup, Hold. split.
  - intros Hfresh.
    destruct (limited (max_turns self) (fresh self now old)) as [|t l] eqn:E.
    + apply (proj1 (limited_nil_iff _ _ Hn)) in E. contradiction.
    + exists (t :: l). simpl. repeat split. discriminate.
  - intros Hfresh. rewrite Hfresh.
    rewrite (proj2 (limited_nil_iff (max_turns self) (@nil turn) Hn) eq_refl).
    simpl. repeat split. intros later. apply get_history_unknown.
    rewrite cleanup_lookup, Hold, Hfresh.
    rewrite (proj2 (limited_nil_iff (max_turns self) (@nil turn) Hn) eq_refl).
    reflexivity.
Qed.

Lemma get_history_outcome_witness :
  fst (get_history two_turns "c" (300 + timedelta_hours 24)) = Raises "KeyError"
  /\ (exists turns, turns <> []
        /\ fst (get_history two_turns "c" 300) = Returns turns
        /\ _conversations (snd (get_history two_turns "c" 300)) !! "c" = Some turns)
  /\ get_history two_turns "nobody" 300 = (Returns [], two_turns).
Proof.
  assert (Hold : exists old, _conversations two_turns !! "c" = Some old)
    by (eexists; vm_compute; reflexivity).
  destruct Hold as [old Hold].
  assert (Hn : 1 <= max_turns two_turns) by (vm_compute; discriminate).
  split; [|split].
  - apply (proj2 (proj2 (get_history_outcome two_turns "c" (300 + timedelta_hours 24))
                    old Hold Hn)).
    vm_compute in Hold. injection Hold as <-. vm_compute. reflexivity.
  - apply (proj1 (proj2 (get_history_outcome two_turns "c" 300) old Hold Hn)).
    vm_compute in Hold. injection Hold as <-. vm_compute. discriminate.
  - apply (proj1 (get_history_outcome two_turns "nobody" 300)).
    vm_compute. reflexivity.
Defined.

(** X12: A read that returns is stable: under a limit that is not negative,
    reading again at the same instant returns the same history and leaves
    the same store. *)
Theorem get_history_again (self self' : ConversationHistory) (cid : string)
    (now : Z) (turns : list turn) :
  0 <= max_turns self ->
  get_history self cid now = (Returns turns, self') ->
  get_history self' cid now = (Returns turns, self').
Proof.
  intros Hn H.
  destruct (_conversations self !! cid) as [old|] eqn:Hold.
  - rewrite (get_history_known self cid now old Hold) in H.
    destruct (stored (limited (max_turns self) (fresh self now old))) as [l|] eqn:Hs;
      [|discriminate].
    injection H as E1 E2. subst turns self'.
    destruct (stored_Some _ _ Hs) as [E Hne]. subst l. clear Hs.
    remember (limited (max_turns self) (fresh self now old)) as kept eqn:Ek.
    assert (Hl : _conversations (_cleanup_conversation self cid now) !! cid = Some kept).
    { rewrite cleanup_lookup, Hold, <- Ek. destruct kept; [contradiction | reflexivity]. }
    destruct (cleanup_config self cid now) as [Hm Ha].
    assert (Hkept : limited (max_turns self) (fresh self now kept) = kept).
    { rewrite (fresh_all self now kept).
      - rewrite Ek. apply limited_again. exact Hn.
      - rewrite Ek. apply limited_Forall; [exact Hn | apply fresh_young]. }
    rewrite (get_history_known _ cid now kept Hl).
    rewrite Hm, (fresh_same_age self _ now kept Ha), Hkept.
    f_equal; [destruct kept; [contradiction | reflexivity]|].
    unfold _cleanup_conversation at 1. rewrite Hl.
    rewrite Hm, Ha. fold (fresh self now kept).
    fold (limited (max_turns self) (fresh self now kept)). rewrite Hkept.
    destruct kept as [|t l]; [contradiction|].
    destruct (_cleanup_conversation self cid now) as [age limit convs] eqn:Ec.
    unfold set_conversations. simpl in *. f_equal.
    apply insert_id. exact Hl.
  - rewrite (get_history_unknown self cid now Hold) in H.
    injection H as <- <-. apply get_history_unknown. exact Hold.
Qed.

Lemma get_history_again_witness :
  get_history (snd (get_history two_turns "c" 300)) "c" 300
  = get_history two_turns "c" 300.
Proof.
  assert (H : get_history two_turns "c" 300
              = (Returns (default [] (_conversations two_turns !! "c")),
                 snd (get_history two_turns "c" 300)))
    by (vm_compute; reflexivity).
  rewrite H at 2.
  apply (get_history_again two_turns _ "c" 300 _); [vm_compute; discriminate | exact H].
Defined.

(** ** Clearing *)

(** X13: A cleared conversation is unknown: reading it returns the empty list,
    its context is the empty string, and neither call raises or changes
    the store; clearing an unknown id changes nothing; after [clear_all]
    every id is unknown. *)
Theorem cleared_conversation_is_unknown (self : ConversationHistory)
    (cid : string) (n now : Z) :
  let self' := clear_conversation self cid in
  _conversations self' !! cid = None
  /\ get_history self' cid now = (Returns [], self')
  /\ get_recent_context self' cid n now = (Returns "", self')
  /\ (_conversations self !! cid = None -> self' = self)
  /\ (forall cid', get_history (clear_all self) cid' now = (Returns [], clear_all self)).
Proof.
  intros self'.
  assert (Hnone : _conversations self' !! cid = None).
  { subst self'. unfold clear_conversation.
    destruct (_conversations self !! cid) eqn:E; [apply lookup_delete_eq | exact E]. }
  split; [exact Hnone|]. split; [exact (get_history_unknown self' cid now Hnone)|].
  split; [|split].
  - unfold get_recent_context. rewrite (get_history_unknown self' cid now Hnone).
    reflexivity.
  - intros H. subst self'. unfold clear_conversation. rewrite H. reflexivity.
  - intros cid'. apply get_history_unknown. apply lookup_empty.
Qed.

(** ** Statistics *)

Section Stats.
Variable isoformat : Z -> string.

Lemma total_turns_bounds (limit : Z) (m : gmap string (list turn)) :
  (forall cid turns, m !! cid = Some turns ->
                     turns <> [] /\ Z.of_nat (length turns) <= limit) ->
  let total := map_fold (fun _ turns acc => acc + Z.of_nat (length turns)) 0 m in
  Z.of_nat (size m) <= total <= limit * Z.of_nat (size m).
Proof.
  apply (map_fold_weak_ind
           (fun total (m : gmap string (list turn)) =>
              (forall cid turns, m !! cid = Some turns ->
                                 turns <> [] /\ Z.of_nat (length turns) <= limit) ->
              Z.of_nat (size m) <= total <= limit * Z.of_nat (size m))).
  - intros _. rewrite map_size_empty. lia.
  - intros i x m' r Hi IH Hb.
    rewrite (map_size_insert_None _ _ _ Hi).
    destruct (Hb i x (lookup_insert_eq _ _ _)) as [Hne Hlen].
    assert (Hx : 1 <= Z.of_nat (length x)) by (destruct x; [contradiction | simpl; lia]).
    assert (IH' : Z.of_nat (size m') <= r <= limit * Z.of_nat (size m')).
    { apply IH. intros cid turns Hc. apply (Hb cid turns).
      rewrite lookup_insert_ne; [exact Hc | congruence]. }
    lia.
Qed.

Lemma all_timestamps_empty (m : gmap string (list turn)) :
  (forall cid turns, m !! cid = Some turns -> turns <> []) ->
  map_fold (fun _ conversation acc => (acc ++ List.map timestamp conversation)%list)
           [] m = []
  <-> m = ∅.
Proof.
  apply (map_fold_weak_ind
           (fun (r : list Z) (m : gmap string (list turn)) =>
              (forall cid turns, m !! cid = Some turns -> turns <> []) ->
              r = [] <-> m = ∅)).
  - tauto.
  - intros i x m' r Hi _ Hb. split.
    + intros H. apply app_eq_nil in H as [_ H].
      pose proof (Hb i x (lookup_insert_eq _ _ _)) as Hne.
      destruct x; [contradiction | discriminate].
    + intros H. exfalso. exact (insert_non_empty _ _ _ H).
Qed.

(** X14: The statistics of a store in which every conversation has between one
    and [max_turns] turns: the turns are at least as many as the
    conversations and at most [max_turns] times as many; without a
    conversation the average is the integer 0 and there is no oldest and no
    newest turn; with one, the average is a float and both are given. *)
Theorem stats_of_bounded_store (self : ConversationHistory) (st : stats) :
  bounded self -> get_stats isoformat self = Returns st ->
  (0 <= total_conversations st <= total_turns st
   /\ total_turns st <= max_turns self * total_conversations st)
  /\ (total_conversations st = 0 <-> _conversations self = ∅)
  /\ (total_conversations st = 0 ->
      total_turns st = 0 /\ average_turns_per_conversation st = Int 0
      /\ oldest_turn st = None /\ newest_turn st = None)
  /\ (0 < total_conversations st ->
      (exists f, average_turns_per_conversation st = Float f)
      /\ oldest_turn st <> None /\ newest_turn st <> None).
Proof.
  intros Hb. unfold get_stats.
  pose proof (total_turns_bounds (max_turns self) (_conversations self) Hb) as Htot.
  pose proof (all_timestamps_empty (_conversations self)
                (fun cid turns H => proj1 (Hb cid turns H))) as Hts.
  cbv zeta in Htot.
  set (total := map_fold _ 0 (_conversations self)) in *.
  set (stamps := map_fold _ [] (_conversations self)) in *.
  assert (Hsize : Z.of_nat (size (_conversations self)) = 0 <-> _conversations self = ∅).
  { rewrite <- map_size_empty_iff. lia. }
  destruct (Z.ltb_spec 0 (Z.of_nat (size (_conversations self)))) as [Hpos|Hzero].
  - destruct (int_true_div total _) as [q|e]; [|discriminate].
    intros [= <-]. cbn [total_conversations total_turns average_turns_per_conversation
                        oldest_turn newest_turn].
    assert (Hne : stamps <> []) by (rewrite Hts, <- Hsize; lia).
    split; [lia|]. split; [exact Hsize|]. split; [lia|]. intros _.
    split; [eexists; reflexivity|].
    destruct stamps; [contradiction | split; discriminate].
  - intros [= <-]. cbn [total_conversations total_turns average_turns_per_conversation
                        oldest_turn newest_turn].
    assert (Hz : Z.of_nat (size (_conversations self)) = 0) by lia.
    assert (He : stamps = []) by (rewrite Hts, <- Hsize; exact Hz).
    split; [lia|]. split; [exact Hsize|]. split; [|lia]. intros _.
    rewrite He. repeat split. lia.
Qed.

End Stats.

Lemma stats_of_bounded_store_witness :
  exists st, get_stats (fun _ => "") two_turns = Returns st
    /\ (0 <= total_conversations st <= total_turns st
        /\ total_turns st <= max_turns two_turns * total_conversations st)
    /\ total_conversations st = 1 /\ total_turns st = 2.
Proof.
  eexists. split; [vm_compute; reflexivity|]. split; [|split; reflexivity].
  refine (proj1 (stats_of_bounded_store (fun _ => "") two_turns _ _ eq_refl)).
  exact (proj1 (run_bounded
                  [AddTurn "c" "lights on" "done" _ 100 101;
                   AddTurn "c" "thanks" "welcome" None 200 201]
                  (__init__ 24 20) ltac:(vm_compute; discriminate)
                  (init_bounded 24 20))).
Defined.

End HistoryExtra.

(* ================================================================== *)
(** * More on the telemetry aggregator *)
(* ================================================================== *)

Module StatisticsExtra.
Import Py PyFacts Statistics StatisticsReads StatisticsFacts.
Import HistoryFacts (most_recent, most_recent_length).

(** ** The rolling windows *)

Lemma tl_skipn {A : Type} (k : nat) (l : list A) : tl (skipn k l) = skipn (S k) l.
Proof.
  revert l. induction k as [|k IH]; intros [|x l]; try reflexivity.
  exact (IH l).
Qed.

(** Appending to a window that holds the last [n] samples gives the last
    [n] of the samples with the new one. *)
Lemma deque_append_most_recent (n : nat) (l : list float) (x : float) :
  (1 <= n)%nat ->
  deque_append n (most_recent n l) x = most_recent n (l ++ [x])%list.
Proof.
  intros Hn. unfold deque_append, most_recent.
  rewrite !length_app, length_skipn. simpl length.
  destruct (Nat.ltb_spec n (length l - (length l - n) + 1)) as [Hfull|Hroom].
  - assert (Hk : (length l - n < length l)%nat) by lia.
    replace (length l + 1 - n)%nat with (S (length l - n)) by lia.
    rewrite skipn_app.
    replace (S (length l - n) - length l)%nat with 0%nat by lia.
    rewrite <- tl_skipn.
    destruct (skipn (length l - n) l) as [|y ys] eqn:E; [|reflexivity].
    apply (f_equal (@length float)) in E. rewrite length_skipn in E. simpl in E. lia.
  - replace (length l - n)%nat with 0%nat by lia.
    replace (length l + 1 - n)%nat with 0%nat by lia. reflexivity.
Qed.

Lemma fold_deque_append (n : nat) (l : list float) :
  (1 <= n)%nat -> fold_left (deque_append n) l [] = most_recent n l.
Proof.
  intros Hn. induction l as [|x l IH] using rev_ind; [reflexivity|].
  rewrite fold_left_app. simpl. rewrite IH.
  exact (deque_append_most_recent n l x Hn).
Qed.

Section Host.
Context {Host : Type}.
Local Abbreviation stats := (@MCPAssistStatistics Host).
Local Abbreviation call := (@call Host).

(** The durations the calls record, in order. *)
Definition fast_path_durations (calls : list call) : list float :=
  flat_map (fun c => match c with FastPathHit d => [d] | _ => [] end) calls.

Definition llm_durations (calls : list call) : list float :=
  flat_map (fun c => match c with LlmCall _ d _ => [d] | _ => [] end) calls.

Lemma rollover_response_times (self : stats) (today : Z) :
  _response_times (_check_date_rollover self today) = _response_times self.
Proof.
  unfold _check_date_rollover. destruct (negb _); reflexivity.
Qed.

Lemma run_windows (calls : list call) (st : stats * Host) :
  let tracker := _response_times (fst st) in
  let tracker' := _response_times (fst (run calls st)) in
  _fast_path_times tracker'
  = fold_left (deque_append 100) (fast_path_durations calls) (_fast_path_times tracker)
  /\ _llm_times tracker'
     = fold_left (deque_append 100) (llm_durations calls) (_llm_times tracker)
  /\ fast_path_last tracker' = List.last (fast_path_durations calls) (fast_path_last tracker)
  /\ llm_last tracker' = List.last (llm_durations calls) (llm_last tracker).
Proof.
  unfold run. revert st.
  induction calls as [|c calls IH] using rev_ind; intros st; [simpl; tauto|].
  cbv zeta in *. rewrite fold_left_app. simpl fold_left.
  unfold fast_path_durations, llm_durations in *. rewrite !flat_map_app. simpl flat_map.
  rewrite !app_nil_r, !fold_left_app.
  destruct (IH st) as [H1 [H2 [H3 H4]]].
  destruct (fold_left perform calls st) as [self host] eqn:E. simpl fst in *.
  destruct c; simpl perform; simpl fst; simpl fold_left;
    rewrite ?rollover_response_times, ?app_nil_r; simpl;
    rewrite ?last_last, ?rollover_response_times; simpl; repeat split; congruence.
Qed.

(** X15: Each window holds the last 100 durations recorded for its kind, in
    the order they were recorded, and never more; the last value is the
    latest duration, or [0.0] before the first. *)
Theorem windows_hold_last_100 (today : Z) (host : Host) (calls : list call) :
  let tracker := _response_times (fst (run calls (__init__ today, host))) in
  _fast_path_times tracker = most_recent 100 (fast_path_durations calls)
  /\ _llm_times tracker = most_recent 100 (llm_durations calls)
  /\ (length (_fast_path_times tracker) <= 100)%nat
  /\ (length (_llm_times tracker) <= 100)%nat
  /\ fast_path_last tracker = List.last (fast_path_durations calls) 0%float
  /\ llm_last tracker = List.last (llm_durations calls) 0%float.
Proof.
  intros tracker.
  destruct (run_windows calls (__init__ today, host)) as [H1 [H2 [H3 H4]]].
  cbv zeta in *. simpl fst in *. fold tracker in H1, H2, H3, H4.
  simpl in H1, H2, H3, H4.
  rewrite fold_deque_append in H1, H2 by lia.
  rewrite H1, H2. repeat split; try assumption; apply most_recent_length.
Qed.

(** ** Counters *)

(** What holds of the counters in every state reached from construction. *)
Definition counters_consistent (self : stats) : Prop :=
  0 <= _fast_path_hits self
  /\ 0 <= _fast_path_misses self
  /\ 0 <= _pre_resolve_hits self <= _pre_resolve_attempts self
  /\ 0 <= _llm_errors self
  /\ 0 <= _llm_calls_today self <= _llm_calls self
  /\ 0 <= _requests_today self.

Lemma perform_consistent (st : stats * Host) (c : call) :
  counters_consistent (fst st) -> counters_consistent (fst (perform st c)).
Proof.
  destruct st as [self host]. unfold counters_consistent.
  destruct c; simpl; unfold _check_date_rollover;
    repeat match goal with
           | |- context [negb ?b] => destruct b; simpl
           | |- context [if ?b then _ else _] => destruct b; simpl
           end; lia.
Qed.

(** X16: Whatever is recorded after construction, no counter is negative, the
    pre-resolve hits never exceed the attempts, and today's LLM calls never
    exceed the total. *)
Theorem counters_stay_consistent (today : Z) (host : Host) (calls : list call) :
  counters_consistent (fst (run calls (__init__ today, host))).
Proof.
  unfold run.
  assert (Hgen : forall st : stats * Host,
             counters_consistent (fst st) ->
             counters_consistent (fst (fold_left perform calls st))).
  { induction calls as [|c calls IH]; intros st Hst; simpl; [exact Hst|].
    apply IH, perform_consistent, Hst. }
  apply Hgen. unfold counters_consistent. simpl. lia.
Qed.

(** ** The day *)

(** What happens to the aggregator, in order: the recording calls, and the
    reads of the statistics.  A listener that reads the statistics, as
    the sensor entities do, makes its read inside the recording call that
    notifies it, when the counters are updated and nothing else is left
    to do: that read is the event after the call. *)
Inductive event : Type :=
| Recorded (c : call)
| StatsRead (today : Z).

Definition occur (st : stats * Host) (e : event) : stats * Host :=
  match e with
  | Recorded c => perform st c
  | StatsRead today => (get_stats_state (fst st) today, snd st)
  end.

Definition play (events : list event) (st : stats * Host) : stats * Host :=
  fold_left occur events st.

(** The day an event reads, for the events that read it: the two
    recording calls that check the day, and the reads. *)
Definition day_of (e : event) : option Z :=
  match e with
  | Recorded (Request today _) => Some today
  | Recorded (LlmCall today _ _) => Some today
  | StatsRead today => Some today
  | Recorded _ => None
  end.

Definition is_request (e : event) : bool :=
  match e with Recorded (Request _ _) => true | _ => false end.

Definition is_llm_call (e : event) : bool :=
  match e with Recorded (LlmCall _ _ _) => true | _ => false end.

Definition requests (events : list event) : Z :=
  Z.of_nat (length (List.filter is_request events)).

Definition llm_calls (events : list event) : Z :=
  Z.of_nat (length (List.filter is_llm_call events)).

Definition tokens_of (events : list event) : Z :=
  fold_right (fun e acc =>
                match e with Recorded (LlmCall _ _ tokens) => tokens + acc | _ => acc end)
             0 events.

(** Every event that reads the day reads [day]. *)
Definition all_on (day : Z) (events : list event) : Prop :=
  List.Forall (fun e => day_of e = None \/ day_of e = Some day) events.

(** The day and the three figures of the day. *)
Definition daily (self : stats) : Z * (Z * Z * Z) :=
  (_current_date self, (_requests_today self, _llm_calls_today self, _tokens_today self)).

Lemma requests_cons (e : event) (events : list event) :
  requests (e :: events) = (if is_request e then 1 else 0) + requests events.
Proof. unfold requests. simpl. destruct (is_request e); simpl length; lia. Qed.

Lemma llm_calls_cons (e : event) (events : list event) :
  llm_calls (e :: events) = (if is_llm_call e then 1 else 0) + llm_calls events.
Proof. unfold llm_calls. simpl. destruct (is_llm_call e); simpl length; lia. Qed.

(** One event on the stored day. *)
Lemma same_day_step (day : Z) (e : event) (st : stats * Host) :
  day_of e = None \/ day_of e = Some day -> _current_date (fst st) = day ->
  _current_date (fst (occur st e)) = day
  /\ _requests_today (fst (occur st e)) = _requests_today (fst st) + requests [e]
  /\ _llm_calls_today (fst (occur st e)) = _llm_calls_today (fst st) + llm_calls [e]
  /\ _tokens_today (fst (occur st e)) = _tokens_today (fst st) + tokens_of [e]
  /\ _llm_calls (fst (occur st e)) = _llm_calls (fst st) + llm_calls [e]
  /\ _tokens_used (fst (occur st e)) = _tokens_used (fst st) + tokens_of [e].
Proof.
  destruct st as [self host]. intros He Hday. simpl fst in *.
  unfold requests, llm_calls.
  destruct e as [c|today]; [destruct c|]; simpl in He |- *;
    try (destruct He as [He|He]; [discriminate|]; injection He as ->;
         unfold get_stats_state, _check_date_rollover; rewrite Hday, Z.eqb_refl; simpl);
    try (destruct success; simpl); repeat split; lia.
Qed.

Lemma same_day_play (day : Z) (events : list event) (st : stats * Host) :
  all_on day events -> _current_date (fst st) = day ->
  _current_date (fst (play events st)) = day
  /\ _requests_today (fst (play events st)) = _requests_today (fst st) + requests events
  /\ _llm_calls_today (fst (play events st)) = _llm_calls_today (fst st) + llm_calls events
  /\ _tokens_today (fst (play events st)) = _tokens_today (fst st) + tokens_of events
  /\ _llm_calls (fst (play events st)) = _llm_calls (fst st) + llm_calls events
  /\ _tokens_used (fst (play events st)) = _tokens_used (fst st) + tokens_of events.
Proof.
  intros Hall. revert st.
  induction Hall as [|e events He _ IH]; intros st Hday.
  - unfold play, requests, llm_calls. simpl. repeat split; lia.
  - change (play (e :: events) st) with (play events (occur st e)).
    destruct (same_day_step day e st He Hday) as [S1 [S2 [S3 [S4 [S5 S6]]]]].
    destruct (IH (occur st e) S1) as [I1 [I2 [I3 [I4 [I5 I6]]]]].
    rewrite requests_cons, llm_calls_cons.
    rewrite (requests_cons e []), (llm_calls_cons e []) in *.
    change (requests []) with 0 in *. change (llm_calls []) with 0 in *.
    split; [exact I1|].
    assert (Ht : tokens_of (e :: events) = tokens_of [e] + tokens_of events)
      by (destruct e as [[]|]; simpl; lia).
    repeat split; lia.
Qed.

(** The first event that reads a day other than the stored one. *)
Lemma new_day_step (day : Z) (e : event) (st : stats * Host) :
  day_of e = Some day -> _current_date (fst st) <> day ->
  _current_date (fst (occur st e)) = day
  /\ _requests_today (fst (occur st e)) = requests [e]
  /\ _llm_calls_today (fst (occur st e)) = llm_calls [e]
  /\ _tokens_today (fst (occur st e)) = tokens_of [e]
  /\ _llm_calls (fst (occur st e)) = _llm_calls (fst st) + llm_calls [e]
  /\ _tokens_used (fst (occur st e)) = _tokens_used (fst st) + tokens_of [e].
Proof.
  destruct st as [self host]. intros He Hday. simpl fst in *.
  assert (Hne : (day =? _current_date self) = false) by (apply Z.eqb_neq; congruence).
  unfold requests, llm_calls.
  destruct e as [c|today]; [destruct c|]; simpl in He; try discriminate;
    injection He as ->; simpl;
    unfold get_stats_state, _check_date_rollover; rewrite Hne; simpl;
    repeat split; lia.
Qed.

(** An event that does not read the day. *)
Lemma no_day_step (e : event) (st : stats * Host) :
  day_of e = None ->
  daily (fst (occur st e)) = daily (fst st)
  /\ _llm_calls (fst (occur st e)) = _llm_calls (fst st)
  /\ _tokens_used (fst (occur st e)) = _tokens_used (fst st)
  /\ requests [e] = 0 /\ llm_calls [e] = 0 /\ tokens_of [e] = 0.
Proof.
  destruct st as [self host]. intros He.
  destruct e as [c|today]; [destruct c|]; simpl in He; try discriminate;
    repeat split.
Qed.

(** X17: While the day does not change, today's figures grow with the
    requests, LLM calls and tokens recorded.  When every reading of the
    day, by a recording call or by a read of the statistics, gives
    another day than the stored one, and there is such a reading, today's
    figures afterwards count the recorded calls only, and the totals have
    grown by them.  A call that does not read the day leaves the day and
    today's figures alone, on whatever day it is made; a read of the
    statistics on another day, as a listener makes it in the course of
    that very call, then stores the new day and sets the three figures to
    zero. *)
Theorem daily_figures (day : Z) (events : list event) (self : stats) (host : Host) :
  all_on day events ->
  let self' := fst (play events (self, host)) in
  (_current_date self = day ->
   _current_date self' = day
   /\ _requests_today self' = _requests_today self + requests events
   /\ _llm_calls_today self' = _llm_calls_today self + llm_calls events
   /\ _tokens_today self' = _tokens_today self + tokens_of events)
  /\ (_current_date self <> day -> List.Exists (fun e => day_of e = Some day) events ->
      _current_date self' = day
      /\ _requests_today self' = requests events
      /\ _llm_calls_today self' = llm_calls events
      /\ _tokens_today self' = tokens_of events
      /\ _llm_calls self' = _llm_calls self + llm_calls events
      /\ _tokens_used self' = _tokens_used self + tokens_of events)
  /\ (forall c : call,
        day_of (Recorded c) = None ->
        let recorded := fst (perform (self, host) c) in
        daily recorded = daily self
        /\ (_current_date self <> day ->
            daily (get_stats_state recorded day) = (day, (0, 0, 0)))).
Proof.
  intros Hall self'. split; [|split].
  - intros Hday.
    destruct (same_day_play day events (self, host) Hall Hday) as [H1 [H2 [H3 [H4 _]]]].
    subst self'. simpl fst in *. tauto.
  - intros Hday Hex. subst self'. revert self host Hday.
    induction Hall as [|e events He Hall IH]; intros self host Hday.
    + inversion Hex.
    + change (play (e :: events) (self, host)) with (play events (occur (self, host) e)).
      assert (Ht : tokens_of (e :: events) = tokens_of [e] + tokens_of events)
        by (destruct e as [[]|]; simpl; lia).
      rewrite requests_cons, llm_calls_cons, Ht.
      destruct (day_of e) as [today|] eqn:Ee.
      * destruct He as [He|He]; [discriminate|]. injection He as ->.
        destruct (new_day_step day e (self, host) Ee Hday) as [F1 [F2 [F3 [F4 [F5 F6]]]]].
        destruct (same_day_play day events (occur (self, host) e) Hall F1)
          as [H1 [H2 [H3 [H4 [H5 H6]]]]].
        rewrite (requests_cons e []), (llm_calls_cons e []) in *.
        change (requests []) with 0 in *. change (llm_calls []) with 0 in *.
        simpl fst in *. repeat split; lia.
      * assert (Hex' : List.Exists (fun e => day_of e = Some day) events).
        { inversion Hex as [? ? Hh|? ? Htl]; subst; [congruence | exact Htl]. }
        destruct (no_day_step e (self, host) Ee) as [Hd [Hl [Hu [N1 [N2 N3]]]]].
        rewrite (requests_cons e []), (llm_calls_cons e []) in *.
        change (requests []) with 0 in *. change (llm_calls []) with 0 in *.
        destruct (occur (self, host) e) as [self1 host1] eqn:Eo. simpl fst in *.
        unfold daily in Hd. injection Hd as Hd1 Hd2 Hd3 Hd4.
        destruct (IH Hex' self1 host1) as [I1 [I2 [I3 [I4 [I5 I6]]]]];
          [congruence|].
        repeat split; lia.
  - intros c Hc recorded.
    pose proof (proj1 (no_day_step (Recorded c) (self, host) Hc)) as Hd.
    change (daily recorded = daily self) in Hd. split; [exact Hd|].
    intros Hday. generalize dependent recorded. intros recorded Hd.
    unfold daily in Hd |- *. injection Hd as Hd1 _ _ _.
    unfold get_stats_state, _check_date_rollover.
    assert (Hne : (day =? _current_date recorded) = false)
      by (apply Z.eqb_neq; congruence).
    rewrite Hne. reflexivity.
Qed.

(** ** Listeners *)

(** The callbacks the calls register, in order. *)
Definition registered (calls : list call) : list (@callback Host unit) :=
  flat_map (fun c => match c with AddListener cb => [cb] | _ => [] end) calls.

(** The host after the listeners of [listeners] are called in turn. *)
Definition notified (listeners : list (@callback Host unit)) (host : Host) : Host :=
  fold_left (fun host listener => snd (listener host)) listeners host.

Lemma notify_listeners_eq (self : stats) (host : Host) :
  _notify_listeners self host = notified (_listeners self) host.
Proof.
  unfold _notify_listeners, notified. generalize (_listeners self).
  intros l. revert host.
  induction l as [|f l IH]; intros host; simpl; [reflexivity|].
  destruct (f host) as [[u|e] host']; simpl; apply IH.
Qed.

Lemma perform_listeners (st : stats * Host) (c : call) :
  _listeners (fst (perform st c)) = (_listeners (fst st) ++ registered [c])%list
  /\ snd (perform st c)
     = match c with
       | AddListener _ => snd st
       | _ => notified (_listeners (fst st)) (snd st)
       end.
Proof.
  destruct st as [self host].
  destruct c; simpl; rewrite ?app_nil_r; unfold _check_date_rollover;
    try (destruct (negb _)); simpl; rewrite ?app_nil_r;
    (split; [reflexivity|]); try reflexivity;
    match goal with |- _notify_listeners ?s _ = _ => exact (notify_listeners_eq s host) end.
Qed.

(** X24: The listeners are the callbacks registered so far, in the order of
    their registration: recording, a change of day included, never drops
    or reorders one.  Each recording call calls every one of them once, in
    that order, and a listener that raises does not keep the later ones
    from being called. *)
Theorem listeners_in_registration_order (today : Z) (host : Host)
    (calls : list call) (c : call) :
  let st := run calls (__init__ today, host) in
  _listeners (fst st) = registered calls
  /\ _listeners (fst (perform st c)) = registered (calls ++ [c])%list
  /\ snd (perform st c)
     = match c with
       | AddListener _ => snd st
       | _ => notified (registered calls) (snd st)
       end
  /\ forall before after x,
       notified (before ++ after)%list x = notified after (notified before x).
Proof.
  assert (Hrun : forall (l : list call) (st : stats * Host),
             _listeners (fst (run l st)) = (_listeners (fst st) ++ registered l)%list).
  { intros l. unfold run.
    induction l as [|c' l IH]; intros st; simpl; [rewrite app_nil_r; reflexivity|].
    rewrite IH, (proj1 (perform_listeners st c')). simpl.
    rewrite <- app_assoc, app_nil_r. reflexivity. }
  intros st.
  assert (Hst : _listeners (fst st) = registered calls) by (subst st; apply Hrun).
  split; [exact Hst|]. split; [|split].
  - rewrite (proj1 (perform_listeners st c)), Hst. unfold registered.
    rewrite flat_map_app. reflexivity.
  - rewrite (proj2 (perform_listeners st c)), Hst. reflexivity.
  - intros before after x. unfold notified. apply fold_left_app.
Qed.

(** ** The timing context, at its edges *)

Lemma exit_samples (self : TimingContext) (aggregator : stats) (start stop : float)
    (today : Z) (host : Host) :
  _start_time self = Some start ->
  _operation_type self = "fast_path" \/ _operation_type self = "llm" ->
  samples (fst (snd (__exit__ self aggregator stop today host)))
  = samples aggregator + 1.
Proof.
  intros Hstart Hkind. unfold __exit__. rewrite Hstart.
  destruct Hkind as [-> | ->]; simpl.
  - exact (proj1 (fast_path_hit_sample aggregator _ host)).
  - destruct (_tokens_callback self) as [f|];
      [destruct (f host) as [[tokens|e] host']|];
      exact (proj1 (llm_call_sample aggregator today _ _ _)).
Qed.

(** X18: A context of any other kind than [fast_path] and [llm] records nothing
    when it is released.  A release does not clear the start time: a
    context of one of the two kinds that is released a second time,
    without being entered again, records a second sample. *)
Theorem release_without_kind_or_twice (self : TimingContext) (aggregator : stats)
    (start stop stop' : float) (today : Z) (host : Host) :
  (_operation_type self <> "fast_path" -> _operation_type self <> "llm" ->
   __exit__ (__enter__ self start) aggregator stop today host
   = (false, (aggregator, host)))
  /\ (_operation_type self = "fast_path" \/ _operation_type self = "llm" ->
      let once := snd (__exit__ (__enter__ self start) aggregator stop today host) in
      let twice := snd (__exit__ (__enter__ self start) (fst once) stop' today (snd once)) in
      samples (fst once) = samples aggregator + 1
      /\ samples (fst twice) = samples aggregator + 2).
Proof.
  split.
  - intros Hf Hl. unfold __exit__, __enter__. simpl.
    apply String.eqb_neq in Hf, Hl. rewrite Hf, Hl. reflexivity.
  - intros Hkind once twice.
    assert (H1 : samples (fst once) = samples aggregator + 1)
      by (apply (exit_samples _ aggregator start); [reflexivity | exact Hkind]).
    split; [exact H1|]. subst twice.
    rewrite (exit_samples _ (fst once) start); [lia | reflexivity | exact Hkind].
Qed.

End Host.

Lemma release_without_kind_or_twice_witness :
  __exit__ (__enter__ (new_TimingContext "tool" None) 1%float)
    (@__init__ unit 10) 3%float 10 tt
  = (false, (__init__ 10, tt))
  /\ samples (fst (snd (__exit__ (__enter__ (new_TimingContext "llm" None) 1%float)
                          (@__init__ unit 10) 3%float 10 tt))) = 1.
Proof.
  split.
  - apply (proj1 (release_without_kind_or_twice (new_TimingContext "tool" None)
                    (@__init__ unit 10) 1%float 3%float 3%float 10 tt));
      discriminate.
  - apply (proj1 (proj2 (release_without_kind_or_twice (new_TimingContext "llm" None)
                           (@__init__ unit 10) 1%float 3%float 3%float 10 tt)
                    (or_intror eq_refl))).
Defined.

Lemma daily_figures_witness :
  let self := fst (run [Request 10 5; LlmCall 10 250%float 40] (__init__ 10, tt)) in
  let events := [Recorded FastPathMiss; StatsRead 11; Recorded (Request 11 6);
                 StatsRead 11; Recorded (LlmCall 11 90%float 3); StatsRead 11;
                 Recorded (Request 11 7); StatsRead 11] in
  let self' := fst (play events (self, tt)) in
  (daily self = (10, (1, 1, 40)))
  /\ _current_date self' = 11
  /\ _requests_today self' = 2
  /\ _llm_calls_today self' = 1
  /\ _tokens_today self' = 3
  /\ _llm_calls self' = 2
  /\ _tokens_used self' = 43.
Proof.
  intros self events self'. split; [reflexivity|].
  refine (proj1 (proj2 (daily_figures 11 events self tt _)) _ _).
  - repeat constructor; simpl; tauto.
  - simpl. discriminate.
  - apply Exists_cons_tl, Exists_cons_hd. reflexivity.
Defined.

End StatisticsExtra.

(* ================================================================== *)
(** * The settings and the log text *)
(* ================================================================== *)

Module UtilsFacts.
Import Py Utils.

Section Settings.
Context {V : Type}.
Local Abbreviation entry := (@ConfigEntry V).

(** What one entry gives for a key: the value under [options] when the
    key is there, else the value under [data], else [None]. *)
Definition setting (e : entry) (key : string) : option V :=
  get (options e) key (get (data e) key None).

(** X19: The system entry is asked first, then the profile entry, then the
    default: a value that is not [None] in the system entry is returned
    whatever the profile entry holds; without a system entry the answer is
    that of [get_entry_setting]; [None] is returned only when the default
    is [None]; and a key stored as [None] in [options] hides the value the
    [data] of the same entry have for it. *)
Theorem shared_setting_precedence (system_entry profile : option entry)
    (key : string) (default : option V) :
  (forall e v, system_entry = Some e -> setting e key = Some v ->
               get_shared_setting system_entry profile key default = Some v)
  /\ (forall e, profile = Some e ->
                get_shared_setting None profile key default
                = get_entry_setting e key default)
  /\ (forall e, system_entry = Some e -> setting e key = None ->
                get_shared_setting system_entry profile key default
                = get_shared_setting None profile key default)
  /\ (get_shared_setting system_entry profile key default = None -> default = None)
  /\ (forall e v, options e !! key = Some None -> data e !! key = Some (Some v) ->
                  get_shared_setting (Some e) None key default = default).
Proof.
  unfold get_shared_setting, get_entry_setting, setting.
  split; [|split; [|split; [|split]]].
  - intros e v -> H. rewrite H. reflexivity.
  - intros e ->. reflexivity.
  - intros e -> H. rewrite H. reflexivity.
  - destruct system_entry as [e|];
      [destruct (get (options e) key (get (data e) key None)); [discriminate|]|];
      (destruct profile as [e'|];
       [destruct (get (options e') key (get (data e') key None)); [discriminate|]|];
       exact (fun H => H)).
  - intros e v Ho Hd. unfold get. rewrite Ho. reflexivity.
Qed.

End Settings.

Lemma shared_setting_precedence_witness :
  let masked : @ConfigEntry Z :=
    {| options := {[ "port" := None ]}; data := {[ "port" := Some 8090 ]} |} in
  let plain : @ConfigEntry Z :=
    {| options := ∅; data := {[ "port" := Some 7000 ]} |} in
  get_shared_setting (Some masked) None "port" (Some 1) = Some 1
  /\ get_shared_setting (Some plain) (Some masked) "port" (Some 1) = Some 7000.
Proof.
  intros masked plain. split.
  - apply (proj2 (proj2 (proj2 (proj2
             (shared_setting_precedence (Some masked) None "port" (Some 1)))))
             masked 8090); reflexivity.
  - apply (proj1 (shared_setting_precedence (Some plain) (Some masked) "port" (Some 1))
             plain 7000); reflexivity.
Defined.

(** ** sanitize_log_data *)

Lemma slice_until_firstn {A : Type} (n : Z) (l : list A) :
  0 <= n -> slice_until n l = firstn (Z.to_nat n) l.
Proof.
  intros Hn. unfold slice_until.
  destruct (Z.ltb_spec n 0); [lia|].
  destruct (Z.le_gt_cases n (Z.of_nat (length l))).
  - rewrite Z.min_l by lia. reflexivity.
  - rewrite Z.min_r by lia. rewrite Nat2Z.id.
    rewrite !firstn_all2 by lia. reflexivity.
Qed.

(** The marker that follows a truncated text. *)
Definition truncation_marker (text : str) : str :=
  (lit "... [truncated, " ++ str_of_len (length text) ++ lit " chars total]")%list.

(** X20: With a limit that is not negative, a text of at most [max_length]
    characters is returned as it is, and a longer text is cut to its first
    [max_length] characters, followed by a marker that gives the length of
    the whole text.  With a negative limit every text counts as too long,
    the empty one included, and the characters are dropped from its end. *)
Theorem sanitize_log_data_cases (text : str) (max_length : Z) :
  (0 <= max_length -> Z.of_nat (length text) <= max_length ->
   sanitize_log_data (Some text) max_length = text)
  /\ (0 <= max_length -> max_length < Z.of_nat (length text) ->
      sanitize_log_data (Some text) max_length
      = (firstn (Z.to_nat max_length) text ++ truncation_marker text)%list
      /\ length (firstn (Z.to_nat max_length) text) = Z.to_nat max_length)
  /\ (max_length < 0 ->
      sanitize_log_data (Some text) max_length
      = (firstn (length text - Z.to_nat (- max_length)) text
         ++ truncation_marker text)%list).
Proof.
  unfold sanitize_log_data, truncation_marker. split; [|split].
  - intros _ Hlen. destruct (Z.ltb_spec max_length (Z.of_nat (length text)));
      [lia | reflexivity].
  - intros Hn Hlen. destruct (Z.ltb_spec max_length (Z.of_nat (length text))); [|lia].
    rewrite (slice_until_firstn _ _ Hn). split; [reflexivity|].
    rewrite length_firstn. lia.
  - intros Hneg. destruct (Z.ltb_spec max_length (Z.of_nat (length text))); [|lia].
    unfold slice_until. destruct (Z.ltb_spec max_length 0); [|lia].
    do 2 f_equal. lia.
Qed.

Lemma sanitize_log_data_cases_witness :
  sanitize_log_data (Some (lit "temperature")) 4
  = lit "temp... [truncated, 11 chars total]"
  /\ sanitize_log_data (Some (lit "")) (-1) = lit "... [truncated, 0 chars total]"
  /\ sanitize_log_data (Some (lit "ok")) 2 = lit "ok".
Proof.
  split; [|split].
  - refine (eq_trans (proj1 (proj1 (proj2 (sanitize_log_data_cases (lit "temperature") 4))
                                _ _)) _); [lia | simpl; lia | reflexivity].
  - refine (eq_trans (proj2 (proj2 (sanitize_log_data_cases (lit "") (-1))) _) _);
      [lia | reflexivity].
  - apply (proj1 (sanitize_log_data_cases (lit "ok") 2)); simpl; lia.
Defined.

End UtilsFacts.

(* ================================================================== *)
(** * The localization tables *)
(* ================================================================== *)

Module LocalizationFacts.
Import Py PyFacts Localization.

(** The text is ASCII. *)
Definition is_ascii (s : string) : Prop :=
  List.Forall (fun c => (nat_of_ascii c < 128)%nat) (list_ascii_of_string s).

Lemma key_in_spec {V : Type} (k : string) (d : list (string * V)) :
  key_in k d = true <-> exists v, dict_get d k = Some v.
Proof. unfold key_in. rewrite list_in_spec. apply dict_get_keys. Qed.

Lemma lower_app (a b : string) : lower (a ++ b) = lower a ++ lower b.
Proof.
  induction a as [|c a IH]; [reflexivity|].
  rewrite append_cons. simpl. rewrite IH, append_cons. reflexivity.
Qed.

Lemma lower_char_dash (c : ascii) :
  Ascii.eqb (lower_char c) "-" = Ascii.eqb c "-".
Proof.
  destruct c as [[] [] [] [] [] [] [] []]; vm_compute; reflexivity.
Qed.

Lemma dash_after (a b : string) : str_in "-" (a ++ "-" ++ b) = true.
Proof. apply str_in_spec. exists a, b. reflexivity. Qed.

Lemma before_dash_app (a b : string) :
  str_in "-" a = false -> before_dash (a ++ "-" ++ b) = a.
Proof.
  induction a as [|c a IH]; intros Ha; [reflexivity|].
  rewrite append_cons. simpl.
  destruct (Ascii.eqb_spec c "-") as [->|Hc].
  - exfalso. assert (H : str_in "-" (String "-" a) = true)
      by (apply str_in_spec; exists "", a; reflexivity).
    congruence.
  - f_equal. apply IH.
    destruct (str_in "-" a) eqn:E; [|reflexivity].
    apply str_in_spec in E as [p [q E]].
    assert (H : str_in "-" (String c a) = true)
      by (apply str_in_spec; exists (String c p), q; rewrite E; reflexivity).
    congruence.
Qed.

(** What the three tables have in common, checked on the literals: the
    keys are lower case; a value is never empty; only a key with a dash
    whose first part is no key stands for itself; and every language with
    metadata has follow-up phrases and end words. *)
Definition phrase_table_ok (table : list (string * string)) : bool :=
  forallb
    (fun '(k, v) =>
       String.eqb (lower k) k
       && negb (String.eqb v "")
       && (negb (str_in "-" k) || negb (key_in (before_dash k) table)))
    table
  && key_in "en" table
  && forallb (fun '(k, _) => key_in k table) LANGUAGE_METADATA
  && forallb (fun '(k, _) => key_in k LANGUAGE_METADATA || negb (str_in "-" k)) table.

Lemma follow_up_phrases_ok : phrase_table_ok FOLLOW_UP_PHRASES = true.
Proof. vm_compute. reflexivity. Qed.

Lemma end_words_ok : phrase_table_ok END_WORDS = true.
Proof. vm_compute. reflexivity. Qed.

(** The lookup the two phrase functions share. *)
Definition lookup_phrases (table : list (string * string)) (language_code : string)
    : string :=
  let base_code := lower language_code in
  let base_code :=
    if str_in "-" base_code && negb (key_in base_code table)
    then before_dash base_code
    else base_code in
  match dict_get table base_code with
  | None | Some EmptyString => item table "en"
  | Some phrases => phrases
  end.

Lemma get_follow_up_phrases_eq (code : string) :
  get_follow_up_phrases code = lookup_phrases FOLLOW_UP_PHRASES code.
Proof. reflexivity. Qed.

Lemma get_end_words_eq (code : string) :
  get_end_words code = lookup_phrases END_WORDS code.
Proof. reflexivity. Qed.

Section Table.
Variable table : list (string * string).
Hypothesis table_ok : phrase_table_ok table = true.

Lemma table_entry (k v : string) :
  dict_get table k = Some v ->
  lower k = k /\ v <> ""
  /\ (str_in "-" k = true -> key_in (before_dash k) table = false).
Proof using table_ok.
  intros Hk. pose proof table_ok as H. unfold phrase_table_ok in H.
  apply andb_prop in H as [H _]. apply andb_prop in H as [H _].
  apply andb_prop in H as [H _]. rewrite forallb_forall in H.
  specialize (H (k, v) (dict_get_In _ _ _ Hk)). cbv beta iota in H.
  apply andb_prop in H as [H Hdash]. apply andb_prop in H as [Hlow Hne].
  split; [apply String.eqb_eq; exact Hlow|]. split.
  - intros ->. discriminate.
  - intros Hd. rewrite Hd in Hdash. simpl in Hdash.
    apply negb_true_iff. exact Hdash.
Qed.

Lemma english_entry : exists v, dict_get table "en" = Some v /\ v <> "".
Proof using table_ok.
  pose proof table_ok as H. unfold phrase_table_ok in H.
  apply andb_prop in H as [H _]. apply andb_prop in H as [H _].
  apply andb_prop in H as [_ H]. apply key_in_spec in H as [v Hv].
  exists v. split; [exact Hv|]. exact (proj1 (proj2 (table_entry "en" v Hv))).
Qed.

(** The lookup never gives the empty string: it gives a value of the
    table, which is the English one when the code it looks up is no key. *)
Lemma lookup_phrases_value (code : string) :
  lookup_phrases table code <> ""
  /\ exists k, dict_get table k = Some (lookup_phrases table code).
Proof using table_ok.
  destruct english_entry as [en [Hen Hne]].
  unfold lookup_phrases. cbv zeta.
  set (base := if _ && _ then _ else _).
  destruct (dict_get table base) as [[|c v]|] eqn:E.
  - unfold item. rewrite Hen. simpl. split; [exact Hne | exists "en"; exact Hen].
  - split; [discriminate | exists base; exact E].
  - unfold item. rewrite Hen. simpl. split; [exact Hne | exists "en"; exact Hen].
Qed.

(** A regional variant of a key without a dash gets what the key gets. *)
Lemma lookup_phrases_variant (base v written region : string) :
  dict_get table base = Some v -> str_in "-" base = false -> lower written = base ->
  lookup_phrases table (written ++ "-" ++ region) = v
  /\ lookup_phrases table base = v.
Proof using table_ok.
  intros Hk Hdash Hlow.
  destruct (table_entry base v Hk) as [Hbase [Hv _]].
  assert (Hval : match dict_get table base with
                 | None | Some EmptyString => item table "en"
                 | Some phrases => phrases
                 end = v).
  { rewrite Hk. destruct v; [contradiction | reflexivity]. }
  split.
  - unfold lookup_phrases. cbv zeta.
    rewrite !lower_app, Hlow. change (lower "-") with "-".
    rewrite dash_after. cbn [andb].
    destruct (key_in (base ++ "-" ++ lower region) table) eqn:Ein.
    + exfalso. apply key_in_spec in Ein as [w Hw].
      destruct (table_entry _ w Hw) as [_ [_ Hd]].
      specialize (Hd (dash_after _ _)).
      rewrite (before_dash_app _ _ Hdash) in Hd.
      assert (Hin : key_in base table = true) by (apply key_in_spec; eauto).
      congruence.
    + cbn [negb]. rewrite (before_dash_app _ _ Hdash). exact Hval.
  - unfold lookup_phrases. cbv zeta. rewrite Hbase, Hdash. cbn [andb]. exact Hval.
Qed.

(** A code whose language has metadata is looked up under the same key in
    the phrase table. *)
Lemma lookup_phrases_of_metadata (code : string) (info : language_info) :
  let base_code := lower code in
  let base_code :=
    if str_in "-" base_code && negb (key_in base_code LANGUAGE_METADATA)
    then before_dash base_code
    else base_code in
  dict_get LANGUAGE_METADATA base_code = Some info ->
  lookup_phrases table code = item table base_code /\ item table base_code <> "".
Proof using table_ok.
  cbv zeta. intros Hmeta.
  pose proof table_ok as H. unfold phrase_table_ok in H.
  apply andb_prop in H as [H Hdashed]. apply andb_prop in H as [_ Hsub].
  rewrite forallb_forall in Hsub, Hdashed.
  set (L := lower code) in *.
  assert (Hsame :
            (if str_in "-" L && negb (key_in L table) then before_dash L else L)
            = (if str_in "-" L && negb (key_in L LANGUAGE_METADATA)
               then before_dash L else L)).
  { destruct (str_in "-" L) eqn:Ed; [|reflexivity]. cbn [andb].
    destruct (key_in L LANGUAGE_METADATA) eqn:Em.
    - apply key_in_spec in Em as [i Hi].
      specialize (Hsub (L, i) (dict_get_In _ _ _ Hi)). cbv beta iota in Hsub.
      rewrite Hsub. reflexivity.
    - destruct (key_in L table) eqn:Et; [|reflexivity].
      apply key_in_spec in Et as [v Hv].
      specialize (Hdashed (L, v) (dict_get_In _ _ _ Hv)). cbv beta iota in Hdashed.
      rewrite Em, Ed in Hdashed. discriminate. }
  unfold lookup_phrases. cbv zeta. fold L. rewrite Hsame.
  set (base := if _ && _ then _ else _) in *.
  specialize (Hsub (base, info) (dict_get_In _ _ _ Hmeta)). cbv beta iota in Hsub.
  apply key_in_spec in Hsub as [v Hv].
  destruct (table_entry base v Hv) as [_ [Hne _]].
  unfold item. rewrite Hv. simpl. destruct v; [contradiction|]. split; [reflexivity|].
  discriminate.
Qed.

End Table.

(** ** The phrases *)

(** X21: For an ASCII language code, the follow-up phrases and the end words are
    never empty: each is a value of its table, and the English one when
    neither the lower-cased code nor what precedes its first dash is a
    key. *)
Theorem phrases_are_never_empty (code : string) :
  is_ascii code ->
  (get_follow_up_phrases code <> ""
   /\ exists k, dict_get FOLLOW_UP_PHRASES k = Some (get_follow_up_phrases code))
  /\ (get_end_words code <> ""
      /\ exists k, dict_get END_WORDS k = Some (get_end_words code))
  /\ (key_in (lower code) END_WORDS = false ->
      key_in (before_dash (lower code)) END_WORDS = false ->
      get_end_words code = item END_WORDS "en"
      /\ get_follow_up_phrases code = item FOLLOW_UP_PHRASES "en").
Proof.
  intros _. split; [|split].
  - rewrite get_follow_up_phrases_eq.
    exact (lookup_phrases_value _ follow_up_phrases_ok code).
  - rewrite get_end_words_eq. exact (lookup_phrases_value _ end_words_ok code).
  - assert (Hkeys : dict_keys FOLLOW_UP_PHRASES = dict_keys END_WORDS)
      by (vm_compute; reflexivity).
    assert (Hnone : forall (t : list (string * string)) k,
               key_in k t = false -> dict_get t k = None).
    { intros t k Hk. destruct (dict_get t k) eqn:E; [|reflexivity].
      assert (key_in k t = true) by (apply key_in_spec; eauto). congruence. }
    intros H1 H2. split.
    + unfold get_end_words. cbv zeta. rewrite H1.
      destruct (str_in "-" (lower code)); cbn [andb negb];
        rewrite (Hnone _ _ H1) || rewrite (Hnone _ _ H2); reflexivity.
    + assert (H1' : key_in (lower code) FOLLOW_UP_PHRASES = false)
        by (unfold key_in in *; rewrite Hkeys; exact H1).
      assert (H2' : key_in (before_dash (lower code)) FOLLOW_UP_PHRASES = false)
        by (unfold key_in in *; rewrite Hkeys; exact H2).
      unfold get_follow_up_phrases. cbv zeta. rewrite H1'.
      destruct (str_in "-" (lower code)); cbn [andb negb];
        rewrite (Hnone _ _ H1') || rewrite (Hnone _ _ H2'); reflexivity.
Qed.

Lemma phrases_are_never_empty_witness :
  get_end_words "xx-YY" = item END_WORDS "en"
  /\ get_follow_up_phrases "xx-YY" = item FOLLOW_UP_PHRASES "en".
Proof.
  apply (proj2 (proj2 (phrases_are_never_empty "xx-YY"
                         ltac:(repeat constructor; simpl; lia))));
    vm_compute; reflexivity.
Defined.

(** X22: A regional variant of a supported language whose key has no dash, in
    any case of its letters and with any region, gets the follow-up
    phrases and the end words of the language. *)
Theorem regional_variant_gets_language (base written region : string) :
  is_ascii written -> is_ascii region ->
  key_in base END_WORDS = true -> str_in "-" base = false -> lower written = base ->
  get_end_words (written ++ "-" ++ region) = get_end_words base
  /\ get_follow_up_phrases (written ++ "-" ++ region) = get_follow_up_phrases base
  /\ get_end_words base = item END_WORDS base
  /\ get_follow_up_phrases base = item FOLLOW_UP_PHRASES base.
Proof.
  intros _ _ Hkey Hdash Hlow.
  assert (Hkeys : dict_keys FOLLOW_UP_PHRASES = dict_keys END_WORDS)
    by (vm_compute; reflexivity).
  assert (Hkey' : key_in base FOLLOW_UP_PHRASES = true)
    by (unfold key_in in *; rewrite Hkeys; exact Hkey).
  apply key_in_spec in Hkey as [w Hw]. apply key_in_spec in Hkey' as [p Hp].
  destruct (lookup_phrases_variant _ end_words_ok base w written region Hw Hdash Hlow)
    as [E1 E2].
  destruct (lookup_phrases_variant _ follow_up_phrases_ok base p written region
              Hp Hdash Hlow) as [F1 F2].
  rewrite (get_end_words_eq base), (get_end_words_eq (written ++ "-" ++ region)),
    (get_follow_up_phrases_eq base),
    (get_follow_up_phrases_eq (written ++ "-" ++ region)), E1, E2, F1, F2.
  unfold item. rewrite Hw, Hp. repeat split.
Qed.

Lemma regional_variant_gets_language_witness :
  get_end_words ("DE" ++ "-" ++ "at") = get_end_words "de"
  /\ get_follow_up_phrases ("DE" ++ "-" ++ "at") = get_follow_up_phrases "de".
Proof.
  assert (H : is_ascii "DE" /\ is_ascii "at").
  { split; repeat constructor; simpl; lia. }
  destruct H as [Hw Hr].
  destruct (regional_variant_gets_language "de" "DE" "at" Hw Hr eq_refl eq_refl eq_refl)
    as [H1 [H2 _]].
  split; [exact H1 | exact H2].
Defined.

(** The one key with a dash is not reached through a longer code: the
    variant [zh-Hans-CN] of the supported [zh-hans] gets the English end
    words. *)
Example variant_of_dashed_key :
  get_end_words "zh-Hans" = item END_WORDS "zh-hans"
  /\ get_end_words "zh-Hans-CN" = item END_WORDS "en"
  /\ get_language_instruction "zh-Hans-CN" = "".
Proof. repeat split; vm_compute; reflexivity. Qed.

(** ** The instruction *)

(** X23: English and its variants get no instruction.  When an ASCII code gets
    one, it names the language of a metadata entry, and the follow-up
    phrases and the end words of the same code are those of that language,
    not the English fallback. *)
Theorem instruction_agrees_with_phrases (code : string) :
  is_ascii code ->
  (code = "en" \/ String.prefix "en-" code = true -> get_language_instruction code = "")
  /\ (get_language_instruction code <> "" ->
      exists base info,
        dict_get LANGUAGE_METADATA base = Some info
        /\ get_language_instruction code
           = "You are a helpful " ++ english info
             ++ "-speaking Home Assistant voice assistant. "
             ++ "Respond naturally and conversationally to user requests in "
             ++ native info ++ "."
        /\ get_follow_up_phrases code = item FOLLOW_UP_PHRASES base
        /\ get_end_words code = item END_WORDS base
        /\ get_follow_up_phrases code <> "" /\ get_end_words code <> "").
Proof.
  intros _. unfold get_language_instruction. split.
  - intros [-> | H]; [reflexivity|]. rewrite H, orb_true_r. reflexivity.
  - destruct (String.eqb code "en" || String.prefix "en-" code); [congruence|].
    cbv zeta. set (base := if _ && _ then _ else _).
    destruct (dict_get LANGUAGE_METADATA base) as [info|] eqn:E; [|congruence].
    intros _. exists base, info.
    destruct (lookup_phrases_of_metadata _ follow_up_phrases_ok code info E) as [F Fne].
    destruct (lookup_phrases_of_metadata _ end_words_ok code info E) as [W Wne].
    rewrite get_follow_up_phrases_eq, get_end_words_eq. fold base in F, W, Fne, Wne.
    rewrite F, W. repeat split; assumption.
Qed.

Lemma instruction_agrees_with_phrases_witness :
  get_language_instruction "en-GB" = ""
  /\ exists base info,
       dict_get LANGUAGE_METADATA base = Some info
       /\ get_language_instruction "pt-BR"
          = "You are a helpful " ++ english info
            ++ "-speaking Home Assistant voice assistant. "
            ++ "Respond naturally and conversationally to user requests in "
            ++ native info ++ "."
       /\ get_follow_up_phrases "pt-BR" = item FOLLOW_UP_PHRASES base
       /\ get_end_words "pt-BR" = item END_WORDS base
       /\ get_follow_up_phrases "pt-BR" <> "" /\ get_end_words "pt-BR" <> "".
Proof.
  split.
  - apply (proj1 (instruction_agrees_with_phrases "en-GB"
                    ltac:(repeat constructor; simpl; lia))).
    right. reflexivity.
  - apply (proj2 (instruction_agrees_with_phrases "pt-BR"
                    ltac:(repeat constructor; simpl; lia))).
    vm_compute. discriminate.
Defined.

End LocalizationFacts.
